(** * Orbit-VI data pipeline ([backend/app/pipeline/data2.py])

    A shallow embedding of the request classifier, the requirements
    splitter, the single-unit dispatcher with its retry loop, the
    result mergers and the parameter normalizer, followed by the
    properties established about them.

    Conventions.
    - Python [str] values are [string]s; characters above 127 are
      carried through every string operation unchanged.
    - A parameter value is a scalar ([None], a boolean, an integer or
      a string) or an ordered list of scalars; numbers are integers.
    - A Python [dict] is an association list in insertion order with
      pairwise distinct keys: assigning to a present key keeps its
      position, assigning to an absent key appends.
    - A computation that may raise is a value of [outcome]; the
      computations that also talk to the outside world (endpoint
      builder, fetch, sleep) live in the monad [M], which records the
      events in order.
    - [asyncio.gather(..., return_exceptions=True)] hands back one
      entry per task, in submission order, each either the task's
      return value or the exception it raised. The events of the
      tasks of one group are listed task after task.
    - Every fetch hands back a dataset of its own: no frame object is
      shared between two unit results. *)

From Stdlib Require Import String Ascii List ZArith Bool Arith Lia.
From Stdlib Require Import DecimalString Floats.
Import ListNotations.

Local Open Scope list_scope.
Local Open Scope string_scope.

(* ================================================================== *)
(** * Python strings *)
(* ================================================================== *)

Module PyStr.

(** [str.isspace] on one character (ASCII range): TAB..CR, FS..US
    and the blank. *)
Definition is_space (c : ascii) : bool :=
  let n := nat_of_ascii c in
  (((9 <=? n) && (n <=? 13)) || ((28 <=? n) && (n <=? 32)))%nat.

Definition lower_char (c : ascii) : ascii :=
  let n := nat_of_ascii c in
  if ((65 <=? n) && (n <=? 90))%nat then ascii_of_nat (n + 32) else c.

(** [s.lower()] *)
Fixpoint lower (s : string) : string :=
  match s with
  | EmptyString => EmptyString
  | String c r => String (lower_char c) (lower r)
  end.

(** [s.replace(old, new)] for one-character [old] and [new]. *)
Fixpoint replace_char (old new : ascii) (s : string) : string :=
  match s with
  | EmptyString => EmptyString
  | String c r =>
      String (if Ascii.eqb c old then new else c) (replace_char old new r)
  end.

Definition is_empty (s : string) : bool :=
  match s with EmptyString => true | String _ _ => false end.

Fixpoint lstrip (s : string) : string :=
  match s with
  | EmptyString => EmptyString
  | String c r => if is_space c then lstrip r else s
  end.

Fixpoint rstrip (s : string) : string :=
  match s with
  | EmptyString => EmptyString
  | String c r =>
      let r' := rstrip r in
      if is_space c && is_empty r' then EmptyString else String c r'
  end.

(** [s.strip()] *)
Definition strip (s : string) : string := lstrip (rstrip s).

(** [sub in s] *)
Fixpoint contains (sub s : string) : bool :=
  match s with
  | EmptyString => prefix sub EmptyString
  | String _ r => prefix sub s || contains sub r
  end.

Fixpoint drop (n : nat) (s : string) : string :=
  match n, s with
  | O, _ => s
  | S k, EmptyString => EmptyString
  | S k, String _ r => drop k r
  end.

(** The text after the last separator found by the left-to-right,
    non-overlapping scan of [s.split(sep)]; [None] when the scan finds
    no separator at or after position [skip]. *)
Fixpoint after_last_sep (sep : string) (skip : nat) (s : string)
  : option string :=
  match s with
  | EmptyString => None
  | String _ r =>
      match skip with
      | S k => after_last_sep sep k r
      | O =>
          if prefix sep s then
            match after_last_sep sep (String.length sep - 1) r with
            | Some t => Some t
            | None => Some (drop (String.length sep) s)
            end
          else after_last_sep sep 0 r
      end
  end.

(** [s.split(sep)[-1]] for a non-empty [sep]. *)
Definition split_last (sep s : string) : string :=
  match after_last_sep sep 0 s with
  | Some t => t
  | None => s
  end.

(** [sep.join(parts)] *)
Fixpoint join (sep : string) (parts : list string) : string :=
  match parts with
  | [] => EmptyString
  | [p] => p
  | p :: rest => p ++ sep ++ join sep rest
  end.

(** [str(z)] for an integer. *)
Definition of_Z (z : Z) : string := NilZero.string_of_int (Z.to_int z).

Definition digit_val (c : ascii) : option Z :=
  let n := nat_of_ascii c in
  if ((48 <=? n) && (n <=? 57))%nat then Some (Z.of_nat (n - 48)) else None.

(** Decimal digits with single underscores allowed between digits. *)
Fixpoint parse_digits (acc : Z) (after_digit : bool) (s : string)
  : option Z :=
  match s with
  | EmptyString => if after_digit then Some acc else None
  | String c r =>
      if Ascii.eqb c "_" then
        if after_digit then parse_digits acc false r else None
      else
        match digit_val c with
        | Some d => parse_digits (10 * acc + d) true r
        | None => None
        end
  end.

(** The whitespace that [int] skips around a number: TAB..CR and the
    blank. Unlike [str.strip], it does not skip FS..US. *)
Definition is_int_space (c : ascii) : bool :=
  let n := nat_of_ascii c in
  (((9 <=? n) && (n <=? 13)) || (n =? 32))%nat.

Fixpoint int_lstrip (s : string) : string :=
  match s with
  | EmptyString => EmptyString
  | String c r => if is_int_space c then int_lstrip r else s
  end.

Fixpoint int_rstrip (s : string) : string :=
  match s with
  | EmptyString => EmptyString
  | String c r =>
      let r' := int_rstrip r in
      if is_int_space c && is_empty r' then EmptyString else String c r'
  end.

(** [int(s)] for a string: whitespace skipped at both ends, an
    optional sign, then decimal digits. [None] stands for
    [ValueError]. *)
Definition to_Z (s : string) : option Z :=
  match int_lstrip (int_rstrip s) with
  | String "+" r => parse_digits 0 false r
  | String "-" r => option_map Z.opp (parse_digits 0 false r)
  | t => parse_digits 0 false t
  end.

(** The first [n] characters of [s]. *)
Fixpoint take (n : nat) (s : string) : string :=
  match n, s with
  | O, _ => EmptyString
  | S k, EmptyString => EmptyString
  | S k, String c r => String c (take k r)
  end.

End PyStr.

(* ================================================================== *)
(** * Python values, dictionaries and exceptions *)
(* ================================================================== *)

(** A scalar: [None], a boolean, an integer or a string. *)
Inductive scalar : Type :=
| SNone
| SBool (b : bool)
| SInt (z : Z)
| SStr (s : string).

(** A parameter value: a scalar or an ordered list of scalars. *)
Inductive value : Type :=
| VScalar (x : scalar)
| VList (l : list scalar).

Abbreviation VNone := (VScalar SNone).
Abbreviation VBool b := (VScalar (SBool b)).
Abbreviation VInt z := (VScalar (SInt z)).
Abbreviation VStr s := (VScalar (SStr s)).

(** A raised exception: [type(e).__name__] and [str(e)]. *)
Record exn : Type := Exn { exn_type : string; exn_msg : string }.

Inductive outcome (A : Type) : Type :=
| Ret (a : A)
| Raise (e : exn).
Arguments Ret {A} a.
Arguments Raise {A} e.

Definition obind {A B} (m : outcome A) (f : A -> outcome B) : outcome B :=
  match m with
  | Ret a => f a
  | Raise e => Raise e
  end.

(** [for x in xs: ys.append(f(x))] where [f] may raise. *)
Fixpoint omap {A B} (f : A -> outcome B) (xs : list A) : outcome (list B) :=
  match xs with
  | [] => Ret []
  | x :: r => obind (f x) (fun y => obind (omap f r) (fun ys => Ret (y :: ys)))
  end.

Section Dict.
Context {A : Type}.

(** [d.get(k)] *)
Fixpoint dict_get (k : string) (d : list (string * A)) : option A :=
  match d with
  | [] => None
  | (k', v) :: r => if String.eqb k' k then Some v else dict_get k r
  end.

(** [d[k] = v] *)
Fixpoint dict_set (k : string) (v : A) (d : list (string * A))
  : list (string * A) :=
  match d with
  | [] => [(k, v)]
  | (k', v') :: r =>
      if String.eqb k' k then (k, v) :: r else (k', v') :: dict_set k v r
  end.

(** [del d[k]] for a key known to be present *)
Definition dict_del (k : string) (d : list (string * A))
  : list (string * A) :=
  filter (fun kv => negb (String.eqb (fst kv) k)) d.

Definition dict_keys (d : list (string * A)) : list string := map fst d.
Definition dict_values (d : list (string * A)) : list A := map snd d.
End Dict.

Definition dict : Type := list (string * value).

Module PyVal.

Definition quote1 : ascii := "'"%char.
Definition quote2 : ascii := ascii_of_nat 34.
Definition backslash : ascii := ascii_of_nat 92.

Definition hex_digit (n : nat) : ascii :=
  ascii_of_nat (if (n <? 10)%nat then 48 + n else 87 + n).

(** One character of [repr(s)] when [q] is the enclosing quote. *)
Definition repr_char (q c : ascii) : string :=
  let n := nat_of_ascii c in
  if Ascii.eqb c backslash then String backslash (String backslash "")
  else if Ascii.eqb c q then String backslash (String q "")
  else if (n =? 9)%nat then String backslash "t"
  else if (n =? 10)%nat then String backslash "n"
  else if (n =? 13)%nat then String backslash "r"
  else if ((n <? 32) || (n =? 127))%nat then
    String backslash
      (String "x" (String (hex_digit (n / 16)) (String (hex_digit (n mod 16)) "")))
  else String c "".

Fixpoint repr_body (q : ascii) (s : string) : string :=
  match s with
  | EmptyString => EmptyString
  | String c r => repr_char q c ++ repr_body q r
  end.

(** [repr(s)]: single quotes unless the text has a single quote and
    no double quote. *)
Definition repr_str (s : string) : string :=
  let q :=
    if PyStr.contains (String quote1 "") s
       && negb (PyStr.contains (String quote2 "") s)
    then quote2 else quote1 in
  String q (repr_body q s ++ String q "").

(** [repr(x)] *)
Definition scalar_repr (x : scalar) : string :=
  match x with
  | SNone => "None"
  | SBool true => "True"
  | SBool false => "False"
  | SInt z => PyStr.of_Z z
  | SStr s => repr_str s
  end.

(** [str(x)] *)
Definition scalar_str (x : scalar) : string :=
  match x with
  | SStr s => s
  | _ => scalar_repr x
  end.

(** [str(v)]; a list prints the [repr] of its elements. *)
Definition py_str (v : value) : string :=
  match v with
  | VScalar x => scalar_str x
  | VList l => "[" ++ PyStr.join ", " (map scalar_repr l) ++ "]"
  end.

(** The text of the [ValueError] of [int(s)]: the literal is shown
    by its [repr], cut after 200 characters. *)
Definition invalid_literal (s : string) : string :=
  "invalid literal for int() with base 10: " ++ PyStr.take 200 (repr_str s).

(** [int(x)] *)
Definition py_int (x : scalar) : outcome Z :=
  match x with
  | SInt z => Ret z
  | SBool b => Ret (if b then 1%Z else 0%Z)
  | SStr s =>
      match PyStr.to_Z s with
      | Some z => Ret z
      | None => Raise (Exn "ValueError" (invalid_literal s))
      end
  | SNone =>
      Raise (Exn "TypeError"
               "int() argument must be a string, a bytes-like object or a real number, not 'NoneType'")
  end.

Definition is_list (v : option value) : bool :=
  match v with Some (VList _) => true | _ => false end.

End PyVal.

(** What a metadata entry holds: a text, a count, the parameters sent
    or the entity list. *)
Inductive meta : Type :=
| MStr (s : string)
| MInt (z : Z)
| MParams (d : dict)
| MEntities (l : list scalar).

Definition metadata_dict : Type := list (string * meta).

(** The request record: [requirements.endpoint], [requirements.params]. *)
Record Requirements : Type := mkReq { endpoint : string; params : dict }.

(* ================================================================== *)
(** * Tabular datasets ([pandas.DataFrame]) *)
(* ================================================================== *)

(** A frame is its column labels and its rows; a row maps a column
    label to a cell, a label absent from a row being a missing cell. *)
Definition row : Type := list (string * scalar).

Record DataFrame : Type := mkDF { columns : list string; rows : list row }.

Module DF.

(** [pd.DataFrame()] *)
Definition empty_frame : DataFrame := mkDF [] [].

(** [df.empty]: some axis has length 0. *)
Definition empty (df : DataFrame) : bool :=
  ((List.length (columns df) =? 0) || (List.length (rows df) =? 0))%nat.

(** [len(df)] *)
Definition len (df : DataFrame) : nat := List.length (rows df).

Definition has_column (c : string) (df : DataFrame) : bool :=
  existsb (String.eqb c) (columns df).

(** [df[c] = v] for a scalar [v]: the column is set on every row. *)
Definition set_column (c : string) (v : scalar) (df : DataFrame) : DataFrame :=
  mkDF (if has_column c df then columns df else columns df ++ [c])
       (map (dict_set c v) (rows df)).

(** [pd.concat([a, b], ignore_index=True)]: the rows of [a], then the
    rows of [b]; the columns of [a], then the new ones of [b]. *)
Definition concat (a b : DataFrame) : DataFrame :=
  mkDF (columns a ++ filter (fun c => negb (has_column c a)) (columns b))
       (rows a ++ rows b).

End DF.

(* ================================================================== *)
(** * Parameter normalizer ([DataPipeline._normalize_params]) *)
(* ================================================================== *)

(** The rule for a string under [key]. *)
Definition normalize_str (key s : string) : string :=
  if String.eqb key "driver"
  then PyStr.replace_char " " "_" (PyStr.lower s)
  else PyStr.strip s.

Definition normalize_elem (key : string) (x : scalar) : scalar :=
  match x with
  | SStr s => SStr (normalize_str key s)
  | _ => x
  end.

Definition normalize_value (key : string) (v : value) : value :=
  match v with
  | VStr s => VStr (normalize_str key s)
  | VList l => VList (map (normalize_elem key) l)
  | _ => v
  end.

(** [value is None or value == ""] *)
Definition skipped (v : value) : bool :=
  match v with
  | VNone => true
  | VStr s => PyStr.is_empty s
  | _ => false
  end.

(** One iteration of the loop over [params.items()]. *)
Definition normalize_step (normalized : dict) (kv : string * value) : dict :=
  let (key, v) := kv in
  if skipped v then normalized
  else
    let key := if String.eqb key "season" then "year" else key in
    dict_set key (normalize_value key v) normalized.

Definition _normalize_params (params : dict) : dict :=
  match params with
  | [] => []
  | _ => fold_left normalize_step params []
  end.

(* ================================================================== *)
(** * Effects: fetches, sleeps and raised exceptions *)
(* ================================================================== *)

(** What a dispatch does to the outside world, in order. *)
Inductive event : Type :=
| EvBuild (attempt : nat) (endpoint_id : string) (args : dict)
| EvFetch (attempt : nat) (full_endpoint : string) (args : dict)
| EvSleep (seconds : float).

(** A computation: the events it performed and how it ended. *)
Definition M (A : Type) : Type := (list event * outcome A)%type.

Definition ret {A} (a : A) : M A := ([], Ret a).

Definition bind {A B} (m : M A) (f : A -> M B) : M B :=
  match m with
  | (t, Ret a) => let (t', r) := f a in ((t ++ t')%list, r)
  | (t, Raise e) => (t, Raise e)
  end.

(** An external call: the event, then the callee's outcome. *)
Definition call {A} (ev : event) (r : outcome A) : M A := ([ev], r).

(** [await asyncio.sleep(d)] *)
Definition sleep (d : float) : M unit := ([EvSleep d], Ret tt).

(** [try: m  except Exception as e: h(e)] *)
Definition try_except {A} (m : M A) (h : exn -> M A) : M A :=
  match m with
  | (t, Ret a) => (t, Ret a)
  | (t, Raise e) => let (t', r) := h e in ((t ++ t')%list, r)
  end.

Declare Scope pymonad_scope.
Delimit Scope pymonad_scope with py.
Notation "x <- c ;; k" := (bind c (fun x => k))
  (at level 61, c at next level, right associativity) : pymonad_scope.
Notation "c ;;; k" := (bind c (fun _ => k))
  (at level 61, right associativity) : pymonad_scope.
Local Open Scope pymonad_scope.

Definition trace {A} (m : M A) : list event := fst m.
Definition result {A} (m : M A) : outcome A := snd m.

Definition is_fetch (ev : event) : bool :=
  match ev with EvFetch _ _ _ => true | _ => false end.

Fixpoint sleeps (t : list event) : list float :=
  match t with
  | [] => []
  | EvSleep d :: r => d :: sleeps r
  | _ :: r => sleeps r
  end.

(** What the fetch hands back: something that is not a mapping
    (with [str(type(response))]), or a mapping read through
    [.get('success', False)], [.get('data')] (kept when it is a frame)
    and [.get('error')]. *)
Inductive fetch_response : Type :=
| NotADict (type_repr : string)
| RespDict (ok : bool) (frame : option DataFrame) (err : option string).

(** The collaborators as one dispatch sees them: the outcome of the
    call made during attempt [a], and the clock. *)
Record env : Type := mkEnv {
  build_endpoint : nat -> string -> dict -> outcome (option string);
  fetch_f1_data : nat -> string -> dict -> outcome fetch_response;
  now_iso : string
}.

(** The mapping returned by [_process_single]; [u_data = Some df]
    stands for [{'results': df}]. *)
Record UnitResult : Type := mkUnit {
  u_success : bool;
  u_data : option DataFrame;
  u_error : option string;
  u_metadata : metadata_dict
}.

(* ================================================================== *)
(** * Single-unit dispatcher ([DataPipeline._process_single]) *)
(* ================================================================== *)

Definition max_retries : nat := 3.
Definition retry_delay : float := 1%float.

Definition float_of_nat (n : nat) : float :=
  PrimFloat.of_uint63 (Uint63.of_Z (Z.of_nat n)).

(** [retry_delay * (attempt + 1)] *)
Definition backoff (attempt : nat) : float :=
  (retry_delay * float_of_nat (attempt + 1))%float.

Definition failure (msg : string) (meta : metadata_dict) : UnitResult :=
  mkUnit false None (Some msg) meta.

Definition attempt_no (attempt : nat) : meta := MInt (Z.of_nat (attempt + 1)).

(** [not full_endpoint] *)
Definition falsy_endpoint (full : option string) : bool :=
  match full with
  | None => true
  | Some s => PyStr.is_empty s
  end.

(** [error or 'No data retrieved'] *)
Definition error_or_default (err : option string) : string :=
  match err with
  | Some s => if PyStr.is_empty s then "No data retrieved" else s
  | None => "No data retrieved"
  end.

(** The body of the [try] block of one attempt; [Some r] is
    [return r], [None] is [continue]. *)
Definition attempt_body (e : env) (endpoint_id : string) (args : dict)
    (attempt : nat) : M (option UnitResult) :=
  full <- call (EvBuild attempt endpoint_id args)
               (build_endpoint e attempt endpoint_id args) ;;
  match full with
  | Some full_endpoint =>
    if PyStr.is_empty full_endpoint then
      ret (Some (failure "Failed to build endpoint"
                   [("endpoint", MStr endpoint_id); ("params", MParams args);
                    ("timestamp", MStr (now_iso e))]))
    else
      response <- call (EvFetch attempt full_endpoint args)
                       (fetch_f1_data e attempt full_endpoint args) ;;
      match response with
      | NotADict type_repr =>
          ret (Some (failure ("Invalid response type: " ++ type_repr)
                       [("endpoint", MStr full_endpoint); ("params", MParams args);
                        ("timestamp", MStr (now_iso e));
                        ("attempt", attempt_no attempt)]))
      | RespDict true (Some df) _ =>
          ret (Some (mkUnit true (Some df) None
                       [("endpoint", MStr full_endpoint); ("params", MParams args);
                        ("timestamp", MStr (now_iso e));
                        ("attempt", attempt_no attempt);
                        ("rows", MInt (Z.of_nat (DF.len df)))]))
      | RespDict _ _ err =>
          if (attempt <? max_retries - 1)%nat then
            sleep (backoff attempt) ;;; ret None
          else
            ret (Some (failure (error_or_default err)
                         [("endpoint", MStr full_endpoint); ("params", MParams args);
                          ("timestamp", MStr (now_iso e));
                          ("attempt", attempt_no attempt)]))
      end
  | None =>
      ret (Some (failure "Failed to build endpoint"
                   [("endpoint", MStr endpoint_id); ("params", MParams args);
                    ("timestamp", MStr (now_iso e))]))
  end.

(** The [except Exception as e] clause of one attempt. *)
Definition attempt_handler (e : env) (endpoint_id : string) (attempt : nat)
    (ex : exn) : M (option UnitResult) :=
  if (attempt <? max_retries - 1)%nat then
    sleep (backoff attempt) ;;; ret None
  else
    ret (Some (failure ("Processing error: " ++ exn_msg ex)
                 [("endpoint", MStr endpoint_id);
                  ("timestamp", MStr (now_iso e));
                  ("attempt", attempt_no attempt);
                  ("error_type", MStr (exn_type ex))])).

(** [for attempt in range(max_retries): ...] and the statement after
    the loop. *)
Fixpoint retry_loop (e : env) (endpoint_id : string) (args : dict)
    (attempts : list nat) : M UnitResult :=
  match attempts with
  | [] =>
      ret (failure "Max retries exceeded"
             [("endpoint", MStr endpoint_id);
              ("timestamp", MStr (now_iso e));
              ("max_retries", MInt (Z.of_nat max_retries))])
  | attempt :: rest =>
      r <- try_except (attempt_body e endpoint_id args attempt)
                      (attempt_handler e endpoint_id attempt) ;;
      match r with
      | Some u => ret u
      | None => retry_loop e endpoint_id args rest
      end
  end.

(** [requirements = None] stands for an argument that is falsy or
    has no [endpoint] attribute. *)
Definition _process_single (e : env) (requirements : option Requirements)
  : M UnitResult :=
  match requirements with
  | None =>
      ret (failure "Invalid requirements format"
             [("timestamp", MStr (now_iso e))])
  | Some req =>
      let endpoint_id := endpoint req in
      let args := _normalize_params (params req) in
      if PyStr.is_empty endpoint_id
         || match args with [] => true | _ => false end
      then
        ret (failure "Missing required parameters"
               [("timestamp", MStr (now_iso e))])
      else retry_loop e endpoint_id args (seq 0 max_retries)
  end.

(* ================================================================== *)
(** * Requirements splitter ([DataRequirementsSplitter]) *)
(* ================================================================== *)

(** One entry of [split_reqs]: [{'endpoint', 'params', 'metadata'}]. *)
Record SplitUnit : Type := mkSplit {
  su_endpoint : string;
  su_params : dict;
  su_metadata : list (string * scalar)
}.

(** [range(start, stop)] *)
Definition int_range (start stop : Z) : list Z :=
  map (fun i => (start + Z.of_nat i)%Z) (seq 0 (Z.to_nat (stop - start))).

Definition list_min (z : Z) (zs : list Z) : Z := fold_left Z.min zs z.
Definition list_max (z : Z) (zs : list Z) : Z := fold_left Z.max zs z.

(** [params.get(k, '')] *)
Definition get_or_empty (k : string) (d : dict) : value :=
  match dict_get k d with
  | Some v => v
  | None => VStr ""
  end.

(** The [if years:] block shared by the [year] and [season]
    branches: [(start_year, end_year)] after it. *)
Definition year_bounds (end_year : Z) (years : list scalar)
  : outcome (option Z * Z) :=
  match years with
  | [] => Ret (None, end_year)
  | _ =>
      obind (omap PyVal.py_int years) (fun ys =>
        match ys with
        | [] => Ret (None, end_year)
        | y :: r => Ret (Some (list_min y r), list_max y r)
        end)
  end.

(** The chain "Parse various time formats". *)
Definition time_range (end_year : Z) (args : dict) : outcome (option Z * Z) :=
  match dict_get "year" args with
  | Some (VList years) => year_bounds end_year years
  | _ =>
    match dict_get "season" args with
    | Some (VList years) => year_bounds end_year years
    | _ =>
      (* [str(params['year'])] of the since branch is [year_str]:
         the key is present once the text holds "since" *)
      let year_str := PyVal.py_str (get_or_empty "year" args) in
      if PyStr.contains "since" year_str then
        obind (PyVal.py_int
                 (SStr (PyStr.strip (PyStr.split_last "since" year_str))))
              (fun z => Ret (Some z, end_year))
      else if PyStr.contains "last decade" year_str then
        Ret (Some (end_year - 10)%Z, end_year)
      else Ret (None, end_year)
    end
  end.

(** [if not start_year: start_year = end_year - 5] *)
Definition default_start (start_year : option Z) (end_year : Z) : Z :=
  match start_year with
  | Some z => if (z =? 0)%Z then (end_year - 5)%Z else z
  | None => (end_year - 5)%Z
  end.

Definition not_year_key (kv : string * value) : bool :=
  negb (String.eqb (fst kv) "year" || String.eqb (fst kv) "season").

Definition year_unit (endpoint_id : string) (base_params : dict) (year : Z)
  : SplitUnit :=
  mkSplit endpoint_id
          (dict_set "year" (VStr (PyStr.of_Z year)) base_params)
          [("year", SInt year)].

(** [now_year] is [datetime.now().year]. *)
Definition split_historical (now_year : Z) (requirements : Requirements)
  : outcome (list SplitUnit) :=
  let args := params requirements in
  obind (time_range now_year args) (fun bounds =>
    let (start_year, end_year) := bounds in
    let start_year := default_start start_year end_year in
    let base_params := filter not_year_key args in
    Ret (map (year_unit (endpoint requirements) base_params)
             (int_range start_year (end_year + 1)))).

Definition metrics : list (string * string) :=
  [("DRIVERS.specific", "career_stats");
   ("RESULTS.race", "race_results");
   ("QUALIFYING.race", "qualifying_results");
   ("STANDINGS.driver_season", "championship_standings")].

Definition split_career (requirements : Requirements) : list SplitUnit :=
  map (fun metric =>
         mkSplit (fst metric) (params requirements)
                 [("metric", SStr (snd metric))])
      metrics.

(* ================================================================== *)
(** * Query classifier *)
(* ================================================================== *)

(** [isinstance(v, list) and len(v) > 1] *)
Definition long_list (v : option value) : bool :=
  match v with
  | Some (VList l) => (1 <? List.length l)%nat
  | _ => false
  end.

Definition any_term_in (terms : list string) (s : string) : bool :=
  existsb (fun term => PyStr.contains term s) terms.

Definition _is_historical_query (requirements : Requirements) : bool :=
  let args := params requirements in
  if long_list (dict_get "year" args) then true
  else if long_list (dict_get "season" args) then true
  else
    let year_str := PyVal.py_str (get_or_empty "year" args) in
    any_term_in ["since"; "from"; "decade"; "between"] (PyStr.lower year_str).

Definition _is_career_query (requirements : Requirements) : bool :=
  let args := params requirements in
  let query_str := PyStr.lower (PyVal.py_str (get_or_empty "query" args)) in
  any_term_in ["career"; "all time"; "lifetime"; "overall"] query_str.

Definition _is_multi_entity_query (requirements : Requirements) : bool :=
  let args := params requirements in
  PyVal.is_list (dict_get "driver" args)
  || PyVal.is_list (dict_get "constructor" args).

Inductive strategy : Type := Historical | Career | MultiEntity | Single.

(** The [if]/[elif] chain at the head of [process]. *)
Definition classify (requirements : Requirements) : strategy :=
  if _is_historical_query requirements then Historical
  else if _is_career_query requirements then Career
  else if _is_multi_entity_query requirements then MultiEntity
  else Single.

(* ================================================================== *)
(** * Result mergers and the compound strategies *)
(* ================================================================== *)

(** The [data] entry of a top-level response: [{'results': df}] or
    [{'results': {metric: df}}]. *)
Inductive payload : Type :=
| Results (df : DataFrame)
| Keyed (by_metric : list (string * DataFrame)).

Record PipelineResponse : Type := mkResp {
  success : bool;
  data : option payload;
  error : option string;
  metadata : metadata_dict
}.

(** What one pipeline run sees of the world: the calendar year and the
    clock reading, and the collaborators' behaviour towards its
    [i]-th dispatch. *)
Record world : Type := mkWorld {
  current_year : Z;
  timestamp : string;
  unit_env : nat -> env
}.

(** [asyncio.gather] with [return_exceptions=True]: every task runs,
    and a raised exception becomes that task's entry. *)
Definition gather {A} (tasks : list (M A)) : M (list (outcome A)) :=
  (List.concat (map fst tasks), Ret (map snd tasks)).

(** The tasks of a group: dispatch number [first + k] runs the [k]-th
    request. *)
Fixpoint dispatch_all (w : world) (first : nat) (reqs : list Requirements)
  : list (M UnitResult) :=
  match reqs with
  | [] => []
  | r :: rest =>
      _process_single (unit_env w first) (Some r)
      :: dispatch_all w (S first) rest
  end.

Definition unit_request (u : SplitUnit) : Requirements :=
  mkReq (su_endpoint u) (su_params u).

(** [result_dict.get('error', 'Unknown error')] inside an f-string. *)
Definition error_text (u : UnitResult) : string :=
  match u_error u with
  | Some s => s
  | None => "None"
  end.

(** [None if not errors else '; '.join(errors)] *)
Definition joined_errors (errors : list string) : option string :=
  match errors with
  | [] => None
  | _ => Some (PyStr.join "; " errors)
  end.

(** The variables of a row-concatenation merge loop. *)
Record merge_state : Type := mkMerge {
  m_success : bool;
  m_merged : DataFrame;
  m_errors : list string
}.

(** One iteration of the merge loop of [_process_historical] and of
    [_process_parallel]; the two differ in the column [col] that
    receives the grouping value [tag] and in the wording [what] of
    the error entries ("year 2019" or the entity). *)
Definition merge_step (col : string) (what : scalar -> string)
    (st : merge_state) (tr : scalar * outcome UnitResult) : merge_state :=
  let (tag, res) := tr in
  match res with
  | Raise ex =>
      mkMerge false (m_merged st)
        (m_errors st ++ ["Error processing " ++ what tag ++ ": " ++ exn_msg ex])
  | Ret u =>
      if negb (u_success u) then
        mkMerge false (m_merged st)
          (m_errors st
             ++ ["Failed to process " ++ what tag ++ ": " ++ error_text u])
      else
        match u_data u with
        | Some df =>
            if negb (DF.empty df) then
              let df := DF.set_column col tag df in
              if DF.empty (m_merged st)
              then mkMerge (m_success st) df (m_errors st)
              else mkMerge (m_success st) (DF.concat (m_merged st) df)
                           (m_errors st)
            else st
        | None => st
        end
  end.

Definition merge_rows (col : string) (what : scalar -> string)
    (tagged : list (scalar * outcome UnitResult)) : merge_state :=
  fold_left (merge_step col what) tagged (mkMerge true DF.empty_frame []).

(** The response built from the loop variables. *)
Definition rows_response (st : merge_state) (meta : metadata_dict) : PipelineResponse :=
  mkResp (m_success st && negb (DF.empty (m_merged st)))
         (if negb (DF.empty (m_merged st)) then Some (Results (m_merged st))
          else None)
         (joined_errors (m_errors st))
         meta.

Definition year_tag (u : SplitUnit) : scalar :=
  match dict_get "year" (su_metadata u) with
  | Some v => v
  | None => SNone
  end.

Definition year_what (tag : scalar) : string := "year " ++ PyVal.scalar_str tag.

(** Lines 150-185: the merge of the gathered [results]. *)
Definition merge_historical (now : string) (split_reqs : list SplitUnit)
    (results : list (outcome UnitResult)) : PipelineResponse :=
  rows_response
    (merge_rows "year" year_what (combine (map year_tag split_reqs) results))
    [("query_type", MStr "historical");
     ("years_processed", MInt (Z.of_nat (List.length split_reqs)));
     ("timestamp", MStr now)].

Definition lift {A} (r : outcome A) : M A := ([], r).

Definition _process_historical (w : world) (requirements : Requirements)
  : M PipelineResponse :=
  split_reqs <- lift (split_historical (current_year w) requirements) ;;
  results <- gather (dispatch_all w 0 (map unit_request split_reqs)) ;;
  ret (merge_historical (timestamp w) split_reqs results).

Definition metric_tag (u : SplitUnit) : string :=
  match dict_get "metric" (su_metadata u) with
  | Some v => PyVal.scalar_str v
  | None => ""
  end.

Record keyed_state : Type := mkKeyed {
  k_success : bool;
  k_merged : list (string * DataFrame);
  k_errors : list string
}.

(** One iteration of the merge loop of [_process_career]. *)
Definition keyed_step (st : keyed_state) (tr : string * outcome UnitResult)
  : keyed_state :=
  let (metric, res) := tr in
  match res with
  | Raise ex =>
      mkKeyed false (k_merged st)
        (k_errors st ++ ["Error processing " ++ metric ++ ": " ++ exn_msg ex])
  | Ret u =>
      if negb (u_success u) then
        mkKeyed false (k_merged st)
          (k_errors st
             ++ ["Failed to process " ++ metric ++ ": " ++ error_text u])
      else
        match u_data u with
        | Some df => mkKeyed (k_success st) (dict_set metric df (k_merged st))
                             (k_errors st)
        | None => st
        end
  end.

Definition merge_keyed (tagged : list (string * outcome UnitResult))
  : keyed_state :=
  fold_left keyed_step tagged (mkKeyed true [] []).

(** Lines 202-232. *)
Definition merge_career (now : string) (split_reqs : list SplitUnit)
    (results : list (outcome UnitResult)) : PipelineResponse :=
  let st := merge_keyed (combine (map metric_tag split_reqs) results) in
  mkResp (k_success st
          && existsb (fun df => negb (DF.empty df)) (dict_values (k_merged st)))
         (match k_merged st with
          | [] => None
          | _ => Some (Keyed (k_merged st))
          end)
         (joined_errors (k_errors st))
         [("query_type", MStr "career");
          ("metrics_processed", MInt (Z.of_nat (List.length split_reqs)));
          ("timestamp", MStr now)].

Definition _process_career (w : world) (requirements : Requirements)
  : M PipelineResponse :=
  let split_reqs := split_career requirements in
  results <- gather (dispatch_all w 0 (map unit_request split_reqs)) ;;
  ret (merge_career (timestamp w) split_reqs results).

(* ================================================================== *)
(** * Batch executor ([DataPipeline._process_parallel]) *)
(* ================================================================== *)

Definition batch_size : nat := 4.

(** [(len(entities) + batch_size - 1) // batch_size] *)
Definition total_batches (entities : list scalar) : nat :=
  (List.length entities + batch_size - 1) / batch_size.

(** "Determine what we're comparing": the entity list, its kind and
    the remaining parameters. *)
Definition select_entities (args : dict)
  : list scalar * option string * dict :=
  match dict_get "driver" args with
  | Some (VList l) => (l, Some "driver", dict_del "driver" args)
  | _ =>
    match dict_get "constructor" args with
    | Some (VList l) => (l, Some "constructor", dict_del "constructor" args)
    | _ => ([], None, args)
    end
  end.

Definition entity_request (endpoint_id : string) (base_params : dict)
    (entity_type : string) (entity : scalar) : Requirements :=
  mkReq endpoint_id (dict_set entity_type (VScalar entity) base_params).

(** [for i in range(0, len(entities), batch_size)]: the batches run one
    after the other, [all_results] collecting each batch's results. *)
Fixpoint run_batches (w : world) (endpoint_id : string) (base_params : dict)
    (entity_type : string) (entities : list scalar) (batch_starts : list nat)
  : M (list (outcome UnitResult)) :=
  match batch_starts with
  | [] => ret []
  | i :: rest =>
      let batch := firstn batch_size (skipn i entities) in
      batch_results <-
        gather (dispatch_all w i
                  (map (entity_request endpoint_id base_params entity_type)
                       batch)) ;;
      later <- run_batches w endpoint_id base_params entity_type entities rest ;;
      ret (batch_results ++ later)%list
  end.

Definition merge_parallel (now : string) (entity_type : string)
    (entities : list scalar) (all_results : list (outcome UnitResult))
  : PipelineResponse :=
  rows_response
    (merge_rows entity_type PyVal.scalar_str (combine entities all_results))
    [("entity_type", MStr entity_type);
     ("entities", MEntities entities);
     ("timestamp", MStr now);
     ("batch_size", MInt (Z.of_nat batch_size));
     ("total_batches", MInt (Z.of_nat (total_batches entities)))].

Definition no_entities (now : string) : PipelineResponse :=
  mkResp false None (Some "No parallel entities found")
         [("timestamp", MStr now)].

Definition _process_parallel (w : world) (requirements : Requirements)
  : M PipelineResponse :=
  match select_entities (params requirements) with
  | (e :: es, Some entity_type, base_params) =>
      let entities := e :: es in
      all_results <-
        run_batches w (endpoint requirements) base_params entity_type entities
          (map (fun j => j * batch_size)%nat (seq 0 (total_batches entities))) ;;
      ret (merge_parallel (timestamp w) entity_type entities all_results)
  | _ => ret (no_entities (timestamp w))
  end.

(* ================================================================== *)
(** * Entry point ([DataPipeline.process]) *)
(* ================================================================== *)

(** A unit result returned as the top-level response. *)
Definition response_of_unit (u : UnitResult) : PipelineResponse :=
  mkResp (u_success u) (option_map Results (u_data u)) (u_error u)
         (u_metadata u).

Definition unexpected_error (now : string) (ex : exn) : PipelineResponse :=
  mkResp false None (Some (exn_msg ex))
         [("timestamp", MStr now); ("error_type", MStr (exn_type ex))].

Definition process (w : world) (requirements : Requirements)
  : M PipelineResponse :=
  try_except
    (match classify requirements with
     | Historical => _process_historical w requirements
     | Career => _process_career w requirements
     | MultiEntity => _process_parallel w requirements
     | Single =>
         u <- _process_single (unit_env w 0) (Some requirements) ;;
         ret (response_of_unit u)
     end)
    (fun ex => ret (unexpected_error (timestamp w) ex)).

(* ================================================================== *)
(** * The dispatcher's reading of its argument *)
(* ================================================================== *)

(** The argument of [_process_single] is annotated [Any]. It is read
    three times before the retry loop: its truth value and
    [hasattr(requirements, 'endpoint')] in the validation, then
    [requirements.endpoint] and [requirements.params]. An argument is
    a falsy value, or a truthy object of the type named [cls] (as
    error messages show it) that has or lacks each of the two
    attributes; a [params] attribute holds a mapping, or something
    that is not one. *)
Inductive pyobject : Type :=
| PyFalsy
| PyObject (cls : string) (endpoint_attr : option string)
           (params_attr : option (option dict)).

(** [obj.name] *)
Definition getattr {A : Type} (cls name : string) (attr : option A)
  : outcome A :=
  match attr with
  | Some v => Ret v
  | None =>
      Raise (Exn "AttributeError"
               ("'" ++ cls ++ "' object has no attribute '" ++ name ++ "'"))
  end.

(** [_process_single] from its first statement on, for an arbitrary
    argument. The two attribute reads come after the validation and
    before the [try] of the retry loop; a [params] that is not a
    mapping is normalized to [{}], as an empty mapping is. *)
Definition _process_single_object (e : env) (requirements : pyobject)
  : M UnitResult :=
  match requirements with
  | PyFalsy => _process_single e None
  | PyObject cls None _ => _process_single e None
  | PyObject cls (Some endpoint_id) params_attr =>
      p <- lift (getattr cls "params" params_attr) ;;
      _process_single e
        (Some (mkReq endpoint_id
                 (match p with Some d => d | None => [] end)))
  end.

(* ================================================================== *)
(** * The classifier as the specification words it *)
(* ================================================================== *)

Module Spec.

(** Case-insensitive substring match: some stretch of [s] reads as
    [term] once case is folded. *)
Definition occurs_ci (term s : string) : Prop :=
  exists pre mid post,
    s = pre ++ mid ++ post /\ PyStr.lower mid = PyStr.lower term.

Definition any_occurs_ci (terms : list string) (s : string) : Prop :=
  exists term, In term terms /\ occurs_ci term s.

(** "is a list with more than one element" *)
Definition is_long_list (v : option value) : Prop :=
  exists l, v = Some (VList l) /\ (1 < List.length l)%nat.

(** "is a list" *)
Definition is_a_list (v : option value) : Prop :=
  exists l, v = Some (VList l).

(** "the stringified [k] value", the parameter read with [''] as
    the default. *)
Definition stringified (k : string) (args : dict) : string :=
  PyVal.py_str (get_or_empty k args).

Definition historical (args : dict) : Prop :=
  is_long_list (dict_get "year" args)
  \/ is_long_list (dict_get "season" args)
  \/ any_occurs_ci ["since"; "from"; "decade"; "between"]
       (stringified "year" args).

Definition career (args : dict) : Prop :=
  any_occurs_ci ["career"; "all time"; "lifetime"; "overall"]
    (stringified "query" args).

Definition multi_entity (args : dict) : Prop :=
  is_a_list (dict_get "driver" args)
  \/ is_a_list (dict_get "constructor" args).

(** The fixed priority order, first match wins. *)
Inductive classified (args : dict) : strategy -> Prop :=
| c_historical :
    historical args -> classified args Historical
| c_career :
    ~ historical args -> career args -> classified args Career
| c_multi_entity :
    ~ historical args -> ~ career args -> multi_entity args ->
    classified args MultiEntity
| c_single :
    ~ historical args -> ~ career args -> ~ multi_entity args ->
    classified args Single.

End Spec.

(* ================================================================== *)
(** * Vocabulary of the statements *)
(* ================================================================== *)

(** What every entry of a normalizer output satisfies: the key is not
    the legacy alias and the value is in normal form for its key. *)
Definition settled (kv : string * value) : Prop :=
  fst kv <> "season" /\ normalize_value (fst kv) (snd kv) = snd kv.

Definition canonical (d : dict) : Prop :=
  NoDup (dict_keys d) /\ Forall settled d.

Definition kept (kv : string * value) : bool := negb (skipped (snd kv)).

(** The events of one attempt: the endpoint is built, and fetched
    when the build gave one ([f = Some full_endpoint]). *)
Definition segment (ep : string) (args : dict) (a : nat) (f : option string)
  : list event :=
  EvBuild a ep args
  :: match f with
     | Some full => [EvFetch a full args]
     | None => []
     end.

(** Attempts [a], [a+1], ... with the backoff sleep between
    consecutive ones. *)
Fixpoint schedule (ep : string) (args : dict) (a : nat)
    (segs : list (option string)) : list event :=
  match segs with
  | [] => []
  | f :: rest =>
      match rest with
      | [] => segment ep args a f
      | _ => segment ep args a f
             ++ EvSleep (backoff a) :: schedule ep args (S a) rest
      end
  end.

(** The failure kinds of the dispatcher, read off the message. *)
Inductive failure_kind : string -> Prop :=
| invalid_requirements : failure_kind "Invalid requirements format"
| missing_parameters : failure_kind "Missing required parameters"
| endpoint_build_failed : failure_kind "Failed to build endpoint"
| invalid_response_type ty : failure_kind ("Invalid response type: " ++ ty)
| no_data_retrieved err : failure_kind (error_or_default err)
| processing_error ex : failure_kind ("Processing error: " ++ exn_msg ex)
| max_retries_exceeded : failure_kind "Max retries exceeded".

(** A result is either a success carrying a dataset or a failure
    value [{success: False, data: None, error: <kind>}]. *)
Definition reported (u : UnitResult) : Prop :=
  (u_success u = true /\ u_error u = None /\ exists df, u_data u = Some df)
  \/ (u_success u = false /\ u_data u = None
      /\ exists msg, u_error u = Some msg /\ failure_kind msg).

Definition attempt (e : env) (ep : string) (args : dict) (a : nat)
  : M (option UnitResult) :=
  try_except (attempt_body e ep args a) (attempt_handler e ep a).

Definition failing_env : env :=
  mkEnv (fun _ _ _ => Ret (Some "https://api.example/f1/2021/results"))
        (fun _ _ _ => Ret (RespDict false None None))
        "2024-05-01T12:00:00".

(** The list that the splitter reads the range from: [year] when it
    is a list, else [season] when that is a list. *)
Definition year_list (args : dict) (ys : list scalar) : Prop :=
  dict_get "year" args = Some (VList ys)
  \/ (PyVal.is_list (dict_get "year" args) = false
      /\ dict_get "season" args = Some (VList ys)).

Definition sample_frame : DataFrame :=
  mkDF ["position"; "points"]
       [[("position", SInt 1); ("points", SInt 25)];
        [("position", SInt 2); ("points", SInt 18)]].

Definition serving_env : env :=
  mkEnv (fun _ _ _ => Ret (Some "https://api.example/f1/drivers"))
        (fun _ _ _ => Ret (RespDict true (Some sample_frame) None))
        "2024-05-01T12:00:00".

(** A unit succeeded: its task returned, with the success flag set. *)
Definition succeeded (res : outcome UnitResult) : Prop :=
  exists u, res = Ret u /\ u_success u = true.

(** The dataset a unit brings to the merge: that of a successful unit
    whose dataset is not empty. *)
Definition unit_frame (res : outcome UnitResult) : option DataFrame :=
  match res with
  | Ret u =>
      if u_success u then
        match u_data u with
        | Some df => if DF.empty df then None else Some df
        | None => None
        end
      else None
  | Raise _ => None
  end.

(** Its rows, each with the grouping value in column [col]. *)
Definition contribution (col : string) (tr : scalar * outcome UnitResult)
  : list row :=
  match unit_frame (snd tr) with
  | Some df => map (dict_set col (fst tr)) (rows df)
  | None => []
  end.

Definition unit_row_count (tr : scalar * outcome UnitResult) : nat :=
  match unit_frame (snd tr) with
  | Some df => DF.len df
  | None => 0
  end.

(** The rows of a response's dataset, none when [data] is [None]. *)
Definition response_rows (resp : PipelineResponse) : list row :=
  match data resp with
  | Some (Results df) => rows df
  | _ => []
  end.

(** The accumulator is either still without rows or not empty. *)
Definition accumulating (st : merge_state) : Prop :=
  DF.empty (m_merged st) = true -> rows (m_merged st) = [].

(** What the row-concatenation merge promises about a response built
    from the tagged unit results, in submission order. *)
Definition row_concatenation (col : string)
    (tagged : list (scalar * outcome UnitResult)) (resp : PipelineResponse)
  : Prop :=
  response_rows resp = flat_map (contribution col) tagged
  /\ List.length (response_rows resp) = list_sum (map unit_row_count tagged)
  /\ (forall tr rw, In tr tagged -> In rw (contribution col tr) ->
        dict_get col rw = Some (fst tr))
  /\ (forall tr, In tr tagged -> ~ succeeded (snd tr) ->
        contribution col tr = []).

(** The results a group of dispatches hands to the merge. *)
Definition unit_results (w : world) (reqs : list Requirements)
  : list (outcome UnitResult) :=
  map result (dispatch_all w 0 reqs).

(** The response carries a non-empty merged dataset. *)
Definition nonempty_results (resp : PipelineResponse) : Prop :=
  exists df, data resp = Some (Results df) /\ DF.empty df = false.

(** The response carries a keyed mapping holding a non-empty dataset. *)
Definition some_metric_nonempty (resp : PipelineResponse) : Prop :=
  exists m k df,
    data resp = Some (Keyed m) /\ In (k, df) m /\ DF.empty df = false.

(** A unit that succeeded with an empty dataset. *)
Definition succeeded_empty (res : outcome UnitResult) : Prop :=
  exists u df,
    res = Ret u /\ u_success u = true /\ u_data u = Some df
    /\ DF.empty df = true.

Definition empty_env : env :=
  mkEnv (fun _ _ _ => Ret (Some "https://api.example/f1/none"))
        (fun _ _ _ => Ret (RespDict true (Some DF.empty_frame) None))
        "2024-05-01T12:00:00".

Definition serving_world : world :=
  mkWorld 2026 "2026-03-01T09:30:00" (fun _ => serving_env).

Definition empty_world : world :=
  mkWorld 2026 "2026-03-01T09:30:00" (fun _ => empty_env).

Definition response_of (m : M PipelineResponse) : option PipelineResponse :=
  match result m with
  | Ret resp => Some resp
  | Raise _ => None
  end.

(** The value that ends up under [year]: that of the last pair, in
    iteration order, stored under [year] or [season] and not skipped. *)
Definition last_year_value (p : dict) : option value :=
  fold_left
    (fun found kv =>
       if (String.eqb (fst kv) "year" || String.eqb (fst kv) "season")
          && negb (skipped (snd kv))
       then Some (snd kv) else found)
    p None.

(** The request passes the dispatcher's validation: the endpoint is
    not empty and some parameter survives normalization. *)
Definition dispatchable (r : Requirements) : Prop :=
  endpoint r <> "" /\ _normalize_params (params r) <> [].

(** Attempt [a] is one the loop retries: the build or the fetch
    raised, or the fetch came back as a mapping without success or
    without a frame. *)
Definition retried (e : env) (ep : string) (args : dict) (a : nat) : Prop :=
  (exists ex, build_endpoint e a ep args = Raise ex)
  \/ (exists full,
        build_endpoint e a ep args = Ret (Some full)
        /\ PyStr.is_empty full = false
        /\ ((exists ex, fetch_f1_data e a full args = Raise ex)
            \/ (exists ok frame err,
                  fetch_f1_data e a full args = Ret (RespDict ok frame err)
                  /\ (ok = false \/ frame = None)))).

(** The number of fetches among the events. *)
Definition fetch_count (t : list event) : nat :=
  List.length (filter is_fetch t).

(** Collaborators whose fetch reports "busy" on the first attempt and
    serves the sample frame from the second on. *)
Definition flaky_env : env :=
  mkEnv (fun _ _ _ => Ret (Some "https://api.example/f1/2021/results"))
        (fun a _ _ =>
           if (a =? 0)%nat then Ret (RespDict false None (Some "busy"))
           else Ret (RespDict true (Some sample_frame) None))
        "2024-05-01T12:00:00".

(** Collaborators whose endpoint builder yields nothing. *)
Definition unbuildable_env : env :=
  mkEnv (fun _ _ _ => Ret None)
        (fun _ _ _ => Ret (RespDict true (Some sample_frame) None))
        "2024-05-01T12:00:00".

(** Collaborators whose fetch hands back a string. *)
Definition garbled_env : env :=
  mkEnv (fun _ _ _ => Ret (Some "https://api.example/f1/2021/results"))
        (fun _ _ _ => Ret (NotADict "<class 'str'>"))
        "2024-05-01T12:00:00".

(** Collaborators whose fetch times out, with the attempt in the text. *)
Definition timeout_env : env :=
  mkEnv (fun _ _ _ => Ret (Some "https://api.example/f1/2021/results"))
        (fun a _ _ =>
           Raise (Exn "TimeoutError"
                    ("timed out, attempt " ++ PyStr.of_Z (Z.of_nat a))))
        "2024-05-01T12:00:00".

(** Collaborators whose fetch reports an upstream error text. *)
Definition refusing_env : env :=
  mkEnv (fun _ _ _ => Ret (Some "https://api.example/f1/2021/results"))
        (fun _ _ _ => Ret (RespDict false None (Some "rate limited")))
        "2024-05-01T12:00:00".

Definition race_2021 : Requirements :=
  mkReq "RESULTS.race" [("year", VStr "2021")].

(** The start indices of the batches: [range(0, len(entities),
    batch_size)]. *)
Definition batch_starts_of (entities : list scalar) : list nat :=
  map (fun j => j * batch_size)%nat (seq 0 (total_batches entities)).

(** The slice [entities[i:i + batch_size]]. *)
Definition batch_at (entities : list scalar) (i : nat) : list scalar :=
  firstn batch_size (skipn i entities).

(** The entry a unit adds to the error list of a row-concatenation
    merge: none when it succeeded, else one naming the unit. *)
Definition unit_error (what : scalar -> string)
    (tr : scalar * outcome UnitResult) : list string :=
  match snd tr with
  | Raise ex => ["Error processing " ++ what (fst tr) ++ ": " ++ exn_msg ex]
  | Ret u =>
      if u_success u then []
      else ["Failed to process " ++ what (fst tr) ++ ": " ++ error_text u]
  end.

(** The dataset a unit brings to the keyed merge: that of a unit
    that returned with success, empty or not. *)
Definition unit_dataset (res : outcome UnitResult) : option DataFrame :=
  match res with
  | Ret u => if u_success u then u_data u else None
  | Raise _ => None
  end.

(** The dataset filed under [metric] in a response, if any. *)
Definition metric_dataset (metric : string) (resp : PipelineResponse)
  : option DataFrame :=
  match data resp with
  | Some (Keyed m) => dict_get metric m
  | _ => None
  end.

(** Collaborators that serve every dispatch but the one for the
    qualifying endpoint, which raises. *)
Definition no_qualifying_env : env :=
  mkEnv (fun _ ep _ =>
           if String.eqb ep "QUALIFYING.race"
           then Raise (Exn "KeyError" "'round'")
           else Ret (Some "https://api.example/f1/drivers"))
        (fun _ _ _ => Ret (RespDict true (Some sample_frame) None))
        "2024-05-01T12:00:00".

Definition no_qualifying_world : world :=
  mkWorld 2026 "2026-03-01T09:30:00" (fun _ => no_qualifying_env).

(** A world in which the dispatch of index 1 is refused and every
    other one is served. *)
Definition second_refused_world : world :=
  mkWorld 2026 "2026-03-01T09:30:00"
          (fun i => if (i =? 1)%nat then refusing_env else serving_env).

(** What an event of a dispatch may be: a build of the request's
    endpoint with the normalized parameters, a fetch of what the
    builder returned for that attempt with the same parameters, or a
    backoff sleep. *)
Definition lawful (e : env) (ep : string) (args : dict) (ev : event) : Prop :=
  match ev with
  | EvBuild a ep' args' => (a < max_retries)%nat /\ ep' = ep /\ args' = args
  | EvFetch a full args' =>
      (a < max_retries)%nat /\ args' = args
      /\ build_endpoint e a ep args = Ret (Some full) /\ full <> ""
  | EvSleep d => exists a, (a < max_retries - 1)%nat /\ d = backoff a
  end.

(** What the metadata of every dispatch result holds, and what it
    never holds. *)
Definition stamped (e : env) (u : UnitResult) : Prop :=
  dict_get "timestamp" (u_metadata u) = Some (MStr (now_iso e))
  /\ dict_get "max_retries" (u_metadata u) = None.

(** The failure value [{success: False, data: None, error: msg}]. *)
Definition fails (u : UnitResult) (msg : string) : Prop :=
  u_success u = false /\ u_data u = None /\ u_error u = Some msg.

(** Attempt [a] is the last one of the loop. *)
Definition last_attempt (a : nat) : Prop := (a = max_retries - 1)%nat.

(** What the attempt that ends a dispatch returns, by cause: the
    endpoint was not built, the fetch handed back something that is
    not a mapping, the fetch served a frame, or, on the last attempt
    only, the fetch served nothing or a collaborator raised. *)
Inductive verdict (e : env) (ep : string) (args : dict) (a : nat)
    (u : UnitResult) : Prop :=
| v_build_failed :
    build_endpoint e a ep args = Ret None
    \/ build_endpoint e a ep args = Ret (Some EmptyString) ->
    fails u "Failed to build endpoint" ->
    verdict e ep args a u
| v_response_type (full ty : string) :
    build_endpoint e a ep args = Ret (Some full) ->
    PyStr.is_empty full = false ->
    fetch_f1_data e a full args = Ret (NotADict ty) ->
    fails u ("Invalid response type: " ++ ty) ->
    verdict e ep args a u
| v_data_fetched (full : string) (df : DataFrame) (err : option string) :
    build_endpoint e a ep args = Ret (Some full) ->
    PyStr.is_empty full = false ->
    fetch_f1_data e a full args = Ret (RespDict true (Some df) err) ->
    u_success u = true -> u_data u = Some df -> u_error u = None ->
    verdict e ep args a u
| v_no_data (full : string) (ok : bool) (frame : option DataFrame)
    (err : option string) :
    last_attempt a ->
    build_endpoint e a ep args = Ret (Some full) ->
    PyStr.is_empty full = false ->
    fetch_f1_data e a full args = Ret (RespDict ok frame err) ->
    ok = false \/ frame = None ->
    fails u (error_or_default err) ->
    verdict e ep args a u
| v_raised (ex : exn) :
    last_attempt a ->
    build_endpoint e a ep args = Raise ex
    \/ (exists full,
          build_endpoint e a ep args = Ret (Some full)
          /\ PyStr.is_empty full = false
          /\ fetch_f1_data e a full args = Raise ex) ->
    fails u ("Processing error: " ++ exn_msg ex) ->
    verdict e ep args a u.

(** What a dispatch returns, by cause: an invalid argument, a request
    that fails the validation, or the verdict of the first attempt
    that is not retried. *)
Inductive dispatched (e : env) : option Requirements -> UnitResult -> Prop :=
| d_invalid (u : UnitResult) :
    fails u "Invalid requirements format" ->
    dispatched e None u
| d_missing (r : Requirements) (u : UnitResult) :
    endpoint r = EmptyString \/ _normalize_params (params r) = [] ->
    fails u "Missing required parameters" ->
    dispatched e (Some r) u
| d_attempt (r : Requirements) (a : nat) (u : UnitResult) :
    dispatchable r ->
    (a < max_retries)%nat ->
    (forall i, (i < a)%nat ->
       retried e (endpoint r) (_normalize_params (params r)) i) ->
    verdict e (endpoint r) (_normalize_params (params r)) a u ->
    dispatched e (Some r) u.

(* ================================================================== *)
(** * Worked examples *)
(* ================================================================== *)

Example lower_ex : PyStr.lower "Since 2015" = "since 2015".
Proof. reflexivity. Qed.

Example strip_ex : PyStr.strip "  ab c  " = "ab c".
Proof. reflexivity. Qed.

Example split_last_ex :
  PyStr.strip (PyStr.split_last "since" "since 2010 since 2015") = "2015".
Proof. reflexivity. Qed.

Example of_Z_ex : PyStr.of_Z 2019 = "2019" /\ PyStr.of_Z 0 = "0" /\ PyStr.of_Z (-4) = "-4".
Proof. repeat split; reflexivity. Qed.

Example to_Z_ex :
  PyStr.to_Z " 2019 " = Some 2019%Z /\ PyStr.to_Z "-3" = Some (-3)%Z /\
  PyStr.to_Z "20x" = None /\ PyStr.to_Z "" = None.
Proof. repeat split; reflexivity. Qed.

(** [int] skips TAB..CR and blanks around the digits, not FS..US,
    which [str.strip] does remove. *)
Example to_Z_space_ex :
  PyStr.to_Z (String (ascii_of_nat 9) "2019" ++ String (ascii_of_nat 10) " ")
  = Some 2019%Z
  /\ PyStr.to_Z (String (ascii_of_nat 31) "2019") = None
  /\ PyStr.strip (String (ascii_of_nat 31) "2019") = "2019"
  /\ PyStr.to_Z "+ 5" = None /\ PyStr.to_Z "1_000" = Some 1000%Z.
Proof. repeat split; reflexivity. Qed.

(** The [ValueError] of [int] shows at most 200 characters of the
    literal's [repr]. *)
Example invalid_literal_ex :
  PyVal.invalid_literal "next"
  = "invalid literal for int() with base 10: 'next'"
  /\ String.length
       (PyVal.invalid_literal
          (String.concat EmptyString (List.repeat "abcdefghij" 30)))
     = (40 + 200)%nat.
Proof. split; reflexivity. Qed.

Example repr_ex :
  PyVal.py_str (VList [SStr "since 2010"; SInt 3; SNone]) = "['since 2010', 3, None]".
Proof. reflexivity. Qed.

Example backoff_ex : backoff 0 = 1%float /\ backoff 1 = 2%float.
Proof. split; reflexivity. Qed.

Example normalize_ex :
  _normalize_params
    [("season", VStr " 2021 "); ("driver", VStr "Max Verstappen");
     ("round", VNone); ("limit", VInt 5);
     ("constructor", VList [SStr " Red Bull "; SInt 1])]
  = [("year", VStr "2021"); ("driver", VStr "max_verstappen");
     ("limit", VInt 5); ("constructor", VList [SStr "Red Bull"; SInt 1])].
Proof. reflexivity. Qed.

(** Scenario: [year=[2021, 2019]] splits into 2019, 2020, 2021. *)
Example split_historical_ex :
  split_historical 2026
    (mkReq "RESULTS.race" [("year", VList [SInt 2021; SInt 2019]); ("driver", VStr "x")])
  = Ret [ mkSplit "RESULTS.race" [("driver", VStr "x"); ("year", VStr "2019")] [("year", SInt 2019)];
          mkSplit "RESULTS.race" [("driver", VStr "x"); ("year", VStr "2020")] [("year", SInt 2020)];
          mkSplit "RESULTS.race" [("driver", VStr "x"); ("year", VStr "2021")] [("year", SInt 2021)] ].
Proof. reflexivity. Qed.

Example split_since_ex :
  option_map (map year_tag)
    (match split_historical 2026 (mkReq "e" [("year", VStr "since 2024")]) with
     | Ret l => Some l
     | Raise _ => None
     end)
  = Some [SInt 2024; SInt 2025; SInt 2026].
Proof. reflexivity. Qed.

Example classify_ex :
  classify (mkReq "e" [("year", VStr "Since 2015")]) = Historical
  /\ classify (mkReq "e" [("query", VStr "Career stats")]) = Career
  /\ classify (mkReq "e" [("driver", VList [SStr "a"; SStr "b"])]) = MultiEntity
  /\ classify (mkReq "e" [("driver", VStr "a"); ("year", VList [SInt 2020])]) = Single.
Proof. repeat split; reflexivity. Qed.

(* ================================================================== *)
(** * Facts about strings *)
(* ================================================================== *)

Section StringFacts.

Lemma lower_char_idem (c : ascii) :
  PyStr.lower_char (PyStr.lower_char c) = PyStr.lower_char c.
Proof.
  destruct c as [[] [] [] [] [] [] [] []]; reflexivity.
Qed.

Lemma lower_idem (s : string) : PyStr.lower (PyStr.lower s) = PyStr.lower s.
Proof.
  induction s as [|c r IH]; simpl; [reflexivity|].
  now rewrite lower_char_idem, IH.
Qed.

Lemma lower_app (a b : string) :
  PyStr.lower (a ++ b) = PyStr.lower a ++ PyStr.lower b.
Proof.
  induction a as [|c r IH]; simpl; [reflexivity|]. now rewrite IH.
Qed.

(** A split of the folded text comes from a split of the text. *)
Lemma lower_app_inv (a b s : string) :
  PyStr.lower s = a ++ b ->
  exists a0 b0, s = a0 ++ b0 /\ PyStr.lower a0 = a /\ PyStr.lower b0 = b.
Proof.
  revert s. induction a as [|c r IH]; intros s H.
  - exists EmptyString, s. simpl in *. auto.
  - destruct s as [|c0 s0]; simpl in H; [discriminate|].
    injection H as Hc Hr.
    destruct (IH _ Hr) as (a0 & b0 & -> & Ha & Hb).
    exists (String c0 a0), b0. simpl. now rewrite Hc, Ha.
Qed.

Lemma driver_char_fixed (c : ascii) :
  let d := if Ascii.eqb (PyStr.lower_char c) " " then "_"%char
           else PyStr.lower_char c in
  PyStr.lower_char d = d /\ Ascii.eqb d " " = false.
Proof.
  destruct c as [[] [] [] [] [] [] [] []]; split; reflexivity.
Qed.

(** The driver rule, lower-casing then blanks to underscores, is a
    projection. *)
Lemma driver_rule_idem (s : string) :
  let f := fun t => PyStr.replace_char " " "_" (PyStr.lower t) in
  f (f s) = f s.
Proof.
  induction s as [|c r IH]; simpl in *; [reflexivity|].
  destruct (driver_char_fixed c) as [H1 H2]. cbv zeta in H1, H2.
  now rewrite H1, H2, IH.
Qed.

Lemma lstrip_idem (s : string) : PyStr.lstrip (PyStr.lstrip s) = PyStr.lstrip s.
Proof.
  induction s as [|c r IH]; simpl; [reflexivity|].
  destruct (PyStr.is_space c) eqn:E; [exact IH|]. simpl. now rewrite E.
Qed.

Lemma rstrip_idem (s : string) : PyStr.rstrip (PyStr.rstrip s) = PyStr.rstrip s.
Proof.
  induction s as [|c r IH]; simpl; [reflexivity|].
  destruct (PyStr.is_space c && PyStr.is_empty (PyStr.rstrip r)) eqn:E;
    [reflexivity|].
  simpl. now rewrite IH, E.
Qed.

Lemma rstrip_lstrip_comm (s : string) :
  PyStr.rstrip (PyStr.lstrip s) = PyStr.lstrip (PyStr.rstrip s).
Proof.
  induction s as [|c r IH]; simpl; [reflexivity|].
  destruct (PyStr.is_space c) eqn:E; simpl.
  - rewrite IH. destruct (PyStr.rstrip r) eqn:R; simpl; [reflexivity|].
    now rewrite E.
  - now rewrite E.
Qed.

Lemma strip_idem (s : string) : PyStr.strip (PyStr.strip s) = PyStr.strip s.
Proof.
  unfold PyStr.strip.
  now rewrite rstrip_lstrip_comm, rstrip_idem, lstrip_idem.
Qed.

Lemma prefix_app (a s : string) :
  prefix a s = true <-> exists post, s = a ++ post.
Proof.
  revert s. induction a as [|c r IH]; intros s; simpl.
  - split; [intros _; now exists s | intros _; now destruct s].
  - destruct s as [|c0 s0].
    + split; [discriminate | intros [post H]; discriminate].
    + simpl. destruct (ascii_dec c c0) as [->|N].
      * rewrite IH. split; intros [post H]; exists post.
        -- now rewrite H.
        -- simpl in H. now injection H.
      * split; [discriminate|]. intros [post H]. simpl in H.
        injection H as H _. congruence.
Qed.

(** [sub in s] holds exactly when [s] reads [pre ++ sub ++ post]. *)
Lemma contains_app (sub s : string) :
  PyStr.contains sub s = true <-> exists pre post, s = pre ++ sub ++ post.
Proof.
  induction s as [|c r IH]; cbn [PyStr.contains].
  - rewrite prefix_app. split.
    + intros [post H]. now exists EmptyString, post.
    + intros (pre & post & H). destruct pre; simpl in H; [now exists post|].
      discriminate.
  - rewrite orb_true_iff, IH, prefix_app. split.
    + intros [[post H] | (pre & post & H)].
      * now exists EmptyString, post.
      * exists (String c pre), post. simpl. now rewrite H.
    + intros (pre & post & H). destruct pre as [|c0 pre]; simpl in H.
      * left. now exists post.
      * right. injection H as _ H. now exists pre, post.
Qed.

(** The code's test, the term looked up in the lower-cased text, is
    the case-insensitive match for a lower-case term. *)
Lemma contains_lower_ci (term s : string) :
  PyStr.lower term = term ->
  PyStr.contains term (PyStr.lower s) = true <-> Spec.occurs_ci term s.
Proof.
  intros Ht. rewrite contains_app. unfold Spec.occurs_ci. split.
  - intros (pre & post & H).
    destruct (lower_app_inv _ _ _ H) as (a0 & b0 & -> & Ha & Hb).
    destruct (lower_app_inv _ _ _ Hb) as (m0 & p0 & -> & Hm & Hp).
    exists a0, m0, p0. split; [reflexivity|]. now rewrite Ht.
  - intros (pre & mid & post & -> & H).
    exists (PyStr.lower pre), (PyStr.lower post).
    rewrite !lower_app, H. now rewrite Ht.
Qed.

End StringFacts.

(* ================================================================== *)
(** * Facts about dictionaries *)
(* ================================================================== *)

Section DictFacts.
Context {A : Type}.
Implicit Types (d : list (string * A)) (k : string) (v : A).

Lemma dict_set_keys_in k v d k' :
  In k' (dict_keys (dict_set k v d)) <-> k' = k \/ In k' (dict_keys d).
Proof.
  unfold dict_keys. induction d as [|[k0 v0] r IH]; simpl.
  - intuition.
  - destruct (String.eqb_spec k0 k) as [->|N]; simpl.
    + intuition.
    + rewrite IH. intuition.
Qed.

Lemma dict_set_NoDup k v d :
  NoDup (dict_keys d) -> NoDup (dict_keys (dict_set k v d)).
Proof.
  unfold dict_keys. induction d as [|[k0 v0] r IH]; simpl; intros H.
  - constructor; [intros []|constructor].
  - inversion H as [|? ? Hn Hr]; subst.
    destruct (String.eqb_spec k0 k) as [->|N]; simpl.
    + now constructor.
    + constructor; [|now apply IH].
      intros Hin. apply (dict_set_keys_in k v r k0) in Hin.
      destruct Hin as [->|Hin]; [now apply N | now apply Hn].
Qed.

Lemma dict_set_Forall (P : string * A -> Prop) k v d :
  P (k, v) -> Forall P d -> Forall P (dict_set k v d).
Proof.
  intros Hk. induction 1 as [|[k0 v0] r H0 Hr IH]; simpl.
  - now repeat constructor.
  - destruct (String.eqb k0 k); constructor; auto.
Qed.

(** Assigning to an absent key appends. *)
Lemma dict_set_fresh k v d :
  ~ In k (dict_keys d) -> dict_set k v d = (d ++ [(k, v)])%list.
Proof.
  unfold dict_keys. induction d as [|[k0 v0] r IH]; simpl; intros H.
  - reflexivity.
  - destruct (String.eqb_spec k0 k) as [->|N]; [tauto|].
    rewrite IH; tauto.
Qed.

Lemma dict_get_set_same k v d : dict_get k (dict_set k v d) = Some v.
Proof.
  induction d as [|[k0 v0] r IH]; simpl.
  - now rewrite String.eqb_refl.
  - destruct (String.eqb_spec k0 k) as [->|N]; simpl.
    + now rewrite String.eqb_refl.
    + destruct (String.eqb_spec k0 k); [contradiction | exact IH].
Qed.

Lemma dict_get_fresh k d : ~ In k (dict_keys d) -> dict_get k d = None.
Proof.
  unfold dict_keys. induction d as [|[k0 v0] r IH]; simpl; intros H.
  - reflexivity.
  - destruct (String.eqb_spec k0 k) as [->|N]; [tauto|]. apply IH. tauto.
Qed.
End DictFacts.

(* ================================================================== *)
(** * The normalizer applied twice *)
(* ================================================================== *)

Section Normalizer.

Lemma normalize_str_idem (key s : string) :
  normalize_str key (normalize_str key s) = normalize_str key s.
Proof.
  unfold normalize_str. destruct (String.eqb key "driver").
  - apply driver_rule_idem.
  - apply strip_idem.
Qed.

Lemma normalize_elem_idem (key : string) (x : scalar) :
  normalize_elem key (normalize_elem key x) = normalize_elem key x.
Proof.
  destruct x; simpl; try reflexivity. now rewrite normalize_str_idem.
Qed.

Lemma normalize_value_idem (key : string) (v : value) :
  normalize_value key (normalize_value key v) = normalize_value key v.
Proof.
  destruct v as [[| | |s]|l]; simpl; try reflexivity.
  - now rewrite normalize_str_idem.
  - f_equal. rewrite map_map. apply map_ext. intros. apply normalize_elem_idem.
Qed.

Lemma normalize_step_canonical (d : dict) (kv : string * value) :
  canonical d -> canonical (normalize_step d kv).
Proof.
  intros [Hn Hf]. destruct kv as [k v]. unfold normalize_step.
  destruct (skipped v); [now split|].
  split; [now apply dict_set_NoDup|].
  apply dict_set_Forall; [|exact Hf]. split; simpl.
  - destruct (String.eqb_spec k "season") as [->|N]; [discriminate | exact N].
  - apply normalize_value_idem.
Qed.

Lemma fold_normalize_canonical (p acc : dict) :
  canonical acc -> canonical (fold_left normalize_step p acc).
Proof.
  revert acc. induction p as [|kv r IH]; simpl; intros acc H; [exact H|].
  apply IH. now apply normalize_step_canonical.
Qed.

Lemma normalize_canonical (p : dict) : canonical (_normalize_params p).
Proof.
  assert (canonical []) as H0 by (split; constructor).
  destruct p as [|kv r]; [exact H0|].
  unfold _normalize_params. now apply fold_normalize_canonical.
Qed.

(** On a canonical mapping the loop only drops the skipped pairs. *)
Lemma fold_normalize_settled (d acc : dict) :
  NoDup (dict_keys (acc ++ d)%list) -> Forall settled d ->
  fold_left normalize_step d acc = (acc ++ filter kept d)%list.
Proof.
  revert acc. induction d as [|[k v] r IH]; simpl; intros acc Hn Hf.
  - now rewrite app_nil_r.
  - inversion Hf as [|? ? [Hk Hv] Hr]; subst. simpl in Hk, Hv.
    unfold kept at 1. simpl.
    assert (NoDup (dict_keys (acc ++ r)%list)) as Hn'.
    { unfold dict_keys in *. rewrite map_app in *. simpl in Hn.
      now apply NoDup_remove_1 in Hn. }
    destruct (skipped v) eqn:Es; simpl.
    + now apply IH.
    + destruct (String.eqb_spec k "season") as [->|_]; [contradiction|].
      rewrite Hv.
      assert (~ In k (dict_keys acc)) as Hfresh.
      { unfold dict_keys in *. rewrite map_app in Hn. simpl in Hn.
        apply NoDup_remove_2 in Hn. intros Hin. apply Hn.
        apply in_or_app. now left. }
      rewrite (dict_set_fresh k v acc Hfresh).
      rewrite IH.
      * now rewrite <- app_assoc.
      * rewrite <- app_assoc. exact Hn.
      * exact Hr.
Qed.

(** Normalizing a normalizer output drops its skipped values and
    changes nothing else. *)
Lemma normalize_twice (p : dict) :
  _normalize_params (_normalize_params p) = filter kept (_normalize_params p).
Proof.
  destruct (normalize_canonical p) as [Hn Hf].
  destruct (_normalize_params p) as [|kv r] eqn:E; [reflexivity|].
  unfold _normalize_params at 1.
  now rewrite (fold_normalize_settled (kv :: r) []).
Qed.

Lemma filter_all {X} (f : X -> bool) (l : list X) :
  Forall (fun x => f x = true) l -> filter f l = l.
Proof.
  induction 1 as [|x r H _ IH]; simpl; [reflexivity|]. now rewrite H, IH.
Qed.

(** No empty string reaches the output when no string of the input
    is made of whitespace only. *)
Lemma normalize_no_empty_output (p : dict) :
  Forall (fun kv => forall s, snd kv = VStr s -> s <> "" -> PyStr.strip s <> "") p ->
  Forall (fun kv => snd kv <> VStr "") (_normalize_params p).
Proof.
  intros H.
  assert (forall acc,
             Forall (fun kv : string * value => snd kv <> VStr "") acc ->
             Forall (fun kv => snd kv <> VStr "")
                    (fold_left normalize_step p acc)) as Hfold.
  { induction H as [|[k v] r Hkv _ IH]; simpl; intros acc Ha; [exact Ha|].
    apply IH. destruct (skipped v) eqn:E; [exact Ha|].
    apply dict_set_Forall; [|exact Ha]. simpl in *.
    destruct v as [[| | |s]|l]; simpl; try discriminate.
    unfold normalize_str.
    destruct (String.eqb (if String.eqb k "season" then "year" else k) "driver").
    - destruct s; simpl; discriminate.
    - intros [= E']. destruct s as [|c s]; [discriminate|].
      now apply (Hkv (String c s) eq_refl). }
  unfold _normalize_params. destruct p; [constructor|].
  apply Hfold. constructor.
Qed.

End Normalizer.

(** C6 (counterexample): a whitespace-only string under a key other
    than [driver] is stripped to the empty string by the first pass,
    and the second pass drops the pair. *)
Lemma C6_normalize_not_idempotent :
  let p := [("round", VStr " ")] in
  _normalize_params p = [("round", VStr "")]
  /\ _normalize_params (_normalize_params p) = []
  /\ _normalize_params (_normalize_params p) <> _normalize_params p.
Proof.
  cbv zeta. repeat split. discriminate.
Qed.

(** C6 (amended): normalize(normalize(p)) equals normalize(p) for every
    parameter mapping p whose normalized form holds no empty-string
    value. *)
Theorem C6_normalize_idempotent (p : dict) :
  Forall (fun kv => snd kv <> VStr "") (_normalize_params p) ->
  _normalize_params (_normalize_params p) = _normalize_params p.
Proof.
  intros H. rewrite normalize_twice. apply filter_all.
  destruct (normalize_canonical p) as [_ Hs].
  rewrite Forall_forall in *. intros [k v] Hin.
  specialize (H _ Hin). specialize (Hs _ Hin). simpl in H.
  unfold kept. simpl. destruct v as [[| | |s]|l]; try reflexivity.
  - (* a stored [None] would have been skipped by the pass that built it *)
    exfalso. clear H Hs.
    assert (Forall (fun kv => snd kv <> VNone) (_normalize_params p)) as Hn.
    { assert (forall q acc, Forall (fun kv : string * value => snd kv <> VNone) acc ->
                Forall (fun kv => snd kv <> VNone) (fold_left normalize_step q acc)) as Hfold.
      { induction q as [|[k0 v0] r IH]; simpl; intros acc Ha; [exact Ha|].
        apply IH. destruct (skipped v0) eqn:E; [exact Ha|].
        apply dict_set_Forall; [|exact Ha]. simpl.
        destruct v0 as [[]|]; simpl in *; discriminate. }
      destruct p; [constructor|]. apply Hfold. constructor. }
    rewrite Forall_forall in Hn. now apply (Hn _ Hin).
  - destruct s; [contradiction | reflexivity].
Qed.

Lemma C6_normalize_idempotent_witness :
  let p := [("season", VStr " 2021 "); ("driver", VStr "Max Verstappen");
            ("round", VNone); ("year", VList [SStr " "; SInt 3])] in
  _normalize_params (_normalize_params p) = _normalize_params p.
Proof.
  cbv zeta. apply C6_normalize_idempotent.
  repeat constructor; discriminate.
Defined.

(* ================================================================== *)
(** * The retry loop of the single-unit dispatcher *)
(* ================================================================== *)

Section Dispatcher.

Lemma failure_reported (msg : string) (meta : metadata_dict) :
  failure_kind msg -> reported (failure msg meta).
Proof. intros H. right. simpl. eauto. Qed.

(** One attempt never raises: it returns, or it sleeps and goes on,
    and it goes on only while attempts remain. *)
Lemma attempt_step (e : env) (ep : string) (args : dict) (a : nat) :
  exists f r,
    attempt e ep args a
    = ((segment ep args a f
        ++ match r with None => [EvSleep (backoff a)] | Some _ => [] end)%list,
       Ret r)
    /\ (r = None -> (a < max_retries - 1)%nat)
    /\ (forall u, r = Some u -> reported u).
Proof.
  unfold attempt, attempt_body, attempt_handler, try_except, bind, call.
  destruct (build_endpoint e a ep args) as [[full|]|ex].
  - destruct (PyStr.is_empty full) eqn:Efull.
    + exists None. eexists (Some _). simpl. split; [reflexivity|].
      split; [discriminate|]. intros u [= <-].
      apply failure_reported. constructor.
    + exists (Some full). unfold ret.
      destruct (fetch_f1_data e a full args) as [[ty|ok frame err]|ex].
      * eexists (Some _). simpl. split; [reflexivity|].
        split; [discriminate|]. intros u [= <-].
        apply failure_reported. constructor.
      * destruct ok, frame as [df|];
          try (destruct (a <? max_retries - 1)%nat eqn:Ea;
               [ exists None; simpl; split; [reflexivity|];
                 split; [intros _; now apply Nat.ltb_lt | discriminate]
               | eexists (Some _); simpl; split; [reflexivity|];
                 split; [discriminate|]; intros u [= <-];
                 apply failure_reported; constructor ]).
        eexists (Some _). simpl. split; [reflexivity|].
        split; [discriminate|]. intros u [= <-]. left. simpl. eauto.
      * destruct (a <? max_retries - 1)%nat eqn:Ea.
        -- exists None. simpl. split; [reflexivity|].
           split; [intros _; now apply Nat.ltb_lt | discriminate].
        -- eexists (Some _). simpl. split; [reflexivity|].
           split; [discriminate|]. intros u [= <-].
           apply failure_reported. constructor.
  - exists None. eexists (Some _). simpl. split; [reflexivity|].
    split; [discriminate|]. intros u [= <-].
    apply failure_reported. constructor.
  - exists None. destruct (a <? max_retries - 1)%nat eqn:Ea.
    + exists None. simpl. split; [reflexivity|].
      split; [intros _; now apply Nat.ltb_lt | discriminate].
    + eexists (Some _). simpl. split; [reflexivity|].
      split; [discriminate|]. intros u [= <-].
      apply failure_reported. constructor.
Qed.

Lemma retry_loop_unfold (e : env) (ep : string) (args : dict) (a : nat)
    (rest : list nat) :
  retry_loop e ep args (a :: rest)
  = bind (attempt e ep args a)
         (fun r => match r with
                   | Some u => ret u
                   | None => retry_loop e ep args rest
                   end).
Proof. reflexivity. Qed.

(** The loop over the attempts still to make returns a reported
    result after at most that many attempts, with the backoff sleeps
    in between. *)
Lemma retry_loop_schedule (e : env) (ep : string) (args : dict) :
  forall n a, (a + S n = max_retries)%nat ->
    exists segs u,
      (0 < List.length segs <= S n)%nat
      /\ retry_loop e ep args (seq a (S n)) = (schedule ep args a segs, Ret u)
      /\ reported u.
Proof.
  induction n as [|n IH]; intros a Ha;
    cbn [seq]; rewrite retry_loop_unfold;
    destruct (attempt_step e ep args a) as (f & r & -> & Hcont & Hrep).
  - destruct r as [u|].
    + exists [f], u. split; [simpl; lia|]. split; [|auto].
      unfold bind, ret. cbn [schedule]. now rewrite !app_nil_r.
    + specialize (Hcont eq_refl). unfold max_retries in *. lia.
  - destruct r as [u|].
    + exists [f], u. split; [simpl; lia|]. split; [|auto].
      unfold bind, ret. cbn [schedule]. now rewrite !app_nil_r.
    + destruct (IH (S a)) as (segs & u & Hlen & Hloop & Hu); [lia|].
      exists (f :: segs), u. split; [simpl; lia|]. split; [|exact Hu].
      unfold bind. cbn [seq] in Hloop. rewrite Hloop.
      destruct segs as [|f' segs']; [simpl in Hlen; lia|].
      cbn [schedule]. now rewrite <- app_assoc.
Qed.

(** The dispatcher as a whole. *)
Lemma process_single_schedule (e : env) (requirements : option Requirements) :
  exists ep args segs u,
    (List.length segs <= max_retries)%nat
    /\ _process_single e requirements = (schedule ep args 0 segs, Ret u)
    /\ reported u.
Proof.
  destruct requirements as [r|]; simpl.
  - destruct (PyStr.is_empty (endpoint r)
              || match _normalize_params (params r) with
                 | [] => true
                 | _ => false
                 end).
    + exists "", [], [], (failure "Missing required parameters"
                            [("timestamp", MStr (now_iso e))]).
      repeat split; [simpl; lia|]. apply failure_reported. constructor.
    + destruct (retry_loop_schedule e (endpoint r)
                  (_normalize_params (params r)) 2 0 eq_refl)
        as (segs & u & Hlen & Hloop & Hu).
      exists (endpoint r), (_normalize_params (params r)), segs, u.
      repeat split; [unfold max_retries; lia | exact Hloop | exact Hu].
  - exists "", [], [], (failure "Invalid requirements format"
                          [("timestamp", MStr (now_iso e))]).
    repeat split; [simpl; lia|]. apply failure_reported. constructor.
Qed.

Lemma schedule_fetches (ep : string) (args : dict) (segs : list (option string)) :
  forall a,
    (List.length (filter is_fetch (schedule ep args a segs))
     <= List.length segs)%nat.
Proof.
  induction segs as [|f rest IH]; intros a; [simpl; lia|].
  cbn [schedule]. destruct rest as [|f' rest'].
  - destruct f; simpl; lia.
  - rewrite filter_app, length_app. specialize (IH (S a)).
    cbn [filter is_fetch]. cbn [List.length] in *.
    destruct f; unfold segment; cbn [filter is_fetch List.length]; lia.
Qed.

Lemma schedule_sleeps (ep : string) (args : dict) (segs : list (option string)) :
  forall a,
    sleeps (schedule ep args a segs)
    = map backoff (seq a (List.length segs - 1)).
Proof.
  induction segs as [|f rest IH]; intros a; [reflexivity|].
  cbn [schedule]. destruct rest as [|f' rest'].
  - destruct f; reflexivity.
  - specialize (IH (S a)). cbn [List.length] in *.
    replace (S (S (List.length rest')) - 1)%nat
      with (S (S (List.length rest') - 1))%nat by lia.
    cbn [seq map]. rewrite <- IH. destruct f; reflexivity.
Qed.

End Dispatcher.

(** C4: the dispatcher makes at most 3 fetch attempts; consecutive
    attempts are separated by a sleep of retry_delay * (attempt + 1)
    seconds, 1.0 s between attempts 1 and 2 and 2.0 s between attempts
    2 and 3; and when every fetch returns [{success: False, data:
    None}] for a request that reaches the fetch, the result has
    success false, the error "No data retrieved" and
    metadata.attempt = 3, after three fetches and the sleeps 1.0, 2.0. *)
Theorem C4_retry_backoff (e : env) (requirements : option Requirements) :
  let run := _process_single e requirements in
  (List.length (filter is_fetch (trace run)) <= 3)%nat
  /\ (exists ep args segs,
        (List.length segs <= 3)%nat /\ trace run = schedule ep args 0 segs)
  /\ (exists n, (n <= 2)%nat
                /\ sleeps (trace run) = firstn n [1%float; 2%float])
  /\ (backoff 0 = 1%float /\ backoff 1 = 2%float)
  /\ (forall r,
        requirements = Some r ->
        endpoint r <> "" ->
        _normalize_params (params r) <> [] ->
        (forall a, (a < 3)%nat ->
           exists full,
             build_endpoint e a (endpoint r) (_normalize_params (params r))
             = Ret (Some full) /\ full <> "") ->
        (forall a full, (a < 3)%nat ->
           fetch_f1_data e a full (_normalize_params (params r))
           = Ret (RespDict false None None)) ->
        exists u,
          result run = Ret u
          /\ u_success u = false
          /\ u_data u = None
          /\ u_error u = Some "No data retrieved"
          /\ dict_get "attempt" (u_metadata u) = Some (MInt 3)
          /\ List.length (filter is_fetch (trace run)) = 3%nat
          /\ sleeps (trace run) = [1%float; 2%float]).
Proof.
  cbv zeta.
  destruct (process_single_schedule e requirements)
    as (ep & args & segs & u & Hlen & Hrun & Hu).
  unfold max_retries in Hlen.
  split; [|split; [|split; [|split]]].
  - rewrite Hrun. unfold trace. simpl fst.
    pose proof (schedule_fetches ep args segs 0). lia.
  - exists ep, args, segs. now rewrite Hrun.
  - exists (List.length segs - 1)%nat. split; [lia|].
    rewrite Hrun. unfold trace. simpl fst. rewrite schedule_sleeps.
    destruct segs as [|? [|? [|? [|]]]]; simpl in Hlen; try lia; reflexivity.
  - split; reflexivity.
  - clear. intros r -> Hep Hargs Hb Hf.
    destruct (Hb 0%nat) as (f0 & B0 & N0); [lia|].
    destruct (Hb 1%nat) as (f1 & B1 & N1); [lia|].
    destruct (Hb 2%nat) as (f2 & B2 & N2); [lia|].
    pose proof (Hf 0%nat f0 ltac:(lia)) as F0.
    pose proof (Hf 1%nat f1 ltac:(lia)) as F1.
    pose proof (Hf 2%nat f2 ltac:(lia)) as F2.
    unfold _process_single.
    destruct (endpoint r) as [|c ep] eqn:Eep; [contradiction|].
    destruct (_normalize_params (params r)) as [|kv args] eqn:Eargs;
      [contradiction|].
    cbn [PyStr.is_empty orb max_retries seq retry_loop].
    unfold attempt_body, call, bind, try_except.
    rewrite B0, B1, B2.
    destruct f0 as [|c0 f0]; [contradiction|].
    destruct f1 as [|c1 f1]; [contradiction|].
    destruct f2 as [|c2 f2]; [contradiction|].
    cbn [PyStr.is_empty]. rewrite F0, F1, F2.
    eexists. repeat split.
Qed.

Lemma C4_retry_backoff_witness :
  let run :=
    _process_single failing_env
      (Some (mkReq "RESULTS.race" [("year", VStr "2021")])) in
  exists u,
    result run = Ret u
    /\ u_success u = false
    /\ u_data u = None
    /\ u_error u = Some "No data retrieved"
    /\ dict_get "attempt" (u_metadata u) = Some (MInt 3)
    /\ List.length (filter is_fetch (trace run)) = 3%nat
    /\ sleeps (trace run) = [1%float; 2%float].
Proof.
  cbv zeta.
  destruct (C4_retry_backoff failing_env
              (Some (mkReq "RESULTS.race" [("year", VStr "2021")])))
    as (_ & _ & _ & _ & H).
  apply (H (mkReq "RESULTS.race" [("year", VStr "2021")])).
  - reflexivity.
  - discriminate.
  - discriminate.
  - intros a _. eexists. split; [reflexivity | discriminate].
  - reflexivity.
Defined.

(* ================================================================== *)
(** * The classifier against the specification's decision table *)
(* ================================================================== *)

Section Classifier.

Lemma long_list_iff (v : option value) :
  long_list v = true <-> Spec.is_long_list v.
Proof.
  unfold Spec.is_long_list. split.
  - destruct v as [[[]|l]|]; simpl; try discriminate.
    intros H. exists l. split; [reflexivity | now apply Nat.ltb_lt].
  - intros (l & -> & H). simpl. now apply Nat.ltb_lt.
Qed.

Lemma is_list_iff (v : option value) :
  PyVal.is_list v = true <-> Spec.is_a_list v.
Proof.
  unfold Spec.is_a_list. split.
  - destruct v as [[[]|l]|]; simpl; try discriminate. now exists l.
  - intros (l & ->). reflexivity.
Qed.

Lemma any_term_in_iff (terms : list string) (s : string) :
  Forall (fun t => PyStr.lower t = t) terms ->
  any_term_in terms (PyStr.lower s) = true <-> Spec.any_occurs_ci terms s.
Proof.
  intros Hl. unfold any_term_in, Spec.any_occurs_ci.
  rewrite existsb_exists. rewrite Forall_forall in Hl.
  split; intros (t & Hin & H); exists t; (split; [exact Hin|]);
    now apply (contains_lower_ci t s (Hl t Hin)).
Qed.

Lemma historical_iff (r : Requirements) :
  _is_historical_query r = true <-> Spec.historical (params r).
Proof.
  unfold _is_historical_query, Spec.historical, Spec.stringified.
  rewrite <- !long_list_iff, <- any_term_in_iff by (repeat constructor).
  destruct (long_list (dict_get "year" (params r)));
    destruct (long_list (dict_get "season" (params r))); intuition discriminate.
Qed.

Lemma career_iff (r : Requirements) :
  _is_career_query r = true <-> Spec.career (params r).
Proof.
  unfold _is_career_query, Spec.career, Spec.stringified.
  now rewrite <- any_term_in_iff by (repeat constructor).
Qed.

Lemma multi_entity_iff (r : Requirements) :
  _is_multi_entity_query r = true <-> Spec.multi_entity (params r).
Proof.
  unfold _is_multi_entity_query, Spec.multi_entity.
  now rewrite orb_true_iff, !is_list_iff.
Qed.

End Classifier.

(** C3: classification depends on the params only and follows the
    fixed priority order: historical when year or season is a list of
    more than one element or the stringified year matches one of
    since/from/decade/between ignoring case; otherwise career when the
    stringified query matches one of career/all time/lifetime/overall
    ignoring case; otherwise multi_entity when driver or constructor is
    a list; otherwise single. *)
Theorem C3_classification (requirements : Requirements) (s : strategy) :
  classify requirements = s <-> Spec.classified (params requirements) s.
Proof.
  unfold classify.
  pose proof (historical_iff requirements) as Hh.
  pose proof (career_iff requirements) as Hc.
  pose proof (multi_entity_iff requirements) as Hm.
  destruct (_is_historical_query requirements);
    [|destruct (_is_career_query requirements);
      [|destruct (_is_multi_entity_query requirements)]].
  all: split;
    [ intros <-; constructor; first [ now apply Hh | now apply Hc | now apply Hm
                                    | (intros X; first [apply Hh in X | apply Hc in X | apply Hm in X]; discriminate) ]
    | intros H; inversion H; subst; try reflexivity; exfalso;
      repeat match goal with
             | X : ~ _ |- _ => apply X; first [ now apply Hh | now apply Hc | now apply Hm ]
             | X : Spec.historical _ |- _ => apply Hh in X; discriminate
             | X : Spec.career _ |- _ => apply Hc in X; discriminate
             | X : Spec.multi_entity _ |- _ => apply Hm in X; discriminate
             end ].
Qed.

(* ================================================================== *)
(** * The historical and career splits *)
(* ================================================================== *)

Section Splitter.

Lemma int_range_length (lo hi : Z) :
  List.length (int_range lo hi) = Z.to_nat (hi - lo).
Proof. unfold int_range. now rewrite length_map, length_seq. Qed.

Lemma int_range_nth (lo hi : Z) (i : nat) :
  (i < Z.to_nat (hi - lo))%nat ->
  nth_error (int_range lo hi) i = Some (lo + Z.of_nat i)%Z.
Proof.
  intros H. unfold int_range.
  rewrite nth_error_map, nth_error_seq.
  apply Nat.ltb_lt in H. now rewrite H.
Qed.

Lemma list_min_spec (y : Z) (ys : list Z) :
  In (list_min y ys) (y :: ys)
  /\ Forall (fun z => (list_min y ys <= z)%Z) (y :: ys).
Proof.
  unfold list_min. revert y. induction ys as [|x r IH]; intros y.
  - simpl. split; [now left | repeat constructor; lia].
  - cbn [fold_left]. destruct (IH (Z.min y x)) as [Hin Hall]. split.
    + destruct Hin as [E|Hin]; [|now right; right].
      rewrite <- E. destruct (Z.min_spec y x) as [[_ ->]|[_ ->]];
        [now left | now right; left].
    + inversion Hall as [|? ? H0 Hr]; subst.
      constructor; [lia|]. constructor; [lia | exact Hr].
Qed.

Lemma list_max_spec (y : Z) (ys : list Z) :
  In (list_max y ys) (y :: ys)
  /\ Forall (fun z => (z <= list_max y ys)%Z) (y :: ys).
Proof.
  unfold list_max. revert y. induction ys as [|x r IH]; intros y.
  - simpl. split; [now left | repeat constructor; lia].
  - cbn [fold_left]. destruct (IH (Z.max y x)) as [Hin Hall]. split.
    + destruct Hin as [E|Hin]; [|now right; right].
      rewrite <- E. destruct (Z.max_spec y x) as [[_ ->]|[_ ->]];
        [now right; left | now left].
    + inversion Hall as [|? ? H0 Hr]; subst.
      constructor; [lia|]. constructor; [lia | exact Hr].
Qed.

(** The base parameters hold no [year] key, so the year is appended. *)
Lemma base_params_year (args : dict) (v : value) :
  dict_set "year" v (filter not_year_key args)
  = (filter not_year_key args ++ [("year", v)])%list.
Proof.
  apply dict_set_fresh. unfold dict_keys. intros Hin.
  apply in_map_iff in Hin. destruct Hin as ([k x] & Hk & Hin).
  apply filter_In in Hin. destruct Hin as [_ Hf].
  simpl in Hk. subst k. discriminate.
Qed.

Lemma time_range_year_list (now_year : Z) (args : dict) (ys : list scalar) :
  year_list args ys -> time_range now_year args = year_bounds now_year ys.
Proof.
  unfold time_range. intros [->|[Hy ->]]; [reflexivity|].
  destruct (dict_get "year" args) as [[[]|l]|]; try reflexivity.
  discriminate.
Qed.

Lemma omap_length {A B} (f : A -> outcome B) (xs : list A) (ys : list B) :
  omap f xs = Ret ys -> List.length ys = List.length xs.
Proof.
  revert ys. induction xs as [|x r IH]; simpl; intros ys H.
  - now injection H as <-.
  - destruct (f x); [|discriminate]. simpl in H.
    destruct (omap f r) as [l|]; [|discriminate]. simpl in H.
    injection H as <-. simpl. now rewrite (IH l eq_refl).
Qed.

End Splitter.

(** C2 (counterexample): with [year] an empty list, the non-empty
    [season] list [2019, 2021] is not consulted; the split falls back
    to the last five years and yields six units, not three. *)
Lemma C2_empty_year_hides_season :
  let r := mkReq "RESULTS.race"
             [("year", VList []); ("season", VList [SInt 2019; SInt 2021])] in
  exists units,
    split_historical 2026 r = Ret units
    /\ map year_tag units
       = [SInt 2021; SInt 2022; SInt 2023; SInt 2024; SInt 2025; SInt 2026]
    /\ List.length units <> Z.to_nat (2021 - 2019 + 1).
Proof.
  cbv zeta. eexists. split; [reflexivity|]. split; [reflexivity|].
  discriminate.
Qed.

(** The truth test on [start_year] also sends a minimum of 0 to the
    default. *)
Example split_from_year_zero :
  option_map (map year_tag)
    (match split_historical 2026 (mkReq "e" [("year", VList [SInt 0; SInt 1])]) with
     | Ret l => Some l
     | Raise _ => None
     end)
  = Some [SInt (-4); SInt (-3); SInt (-2); SInt (-1); SInt 0; SInt 1].
Proof. reflexivity. Qed.

(** C2 (amended): when the year list -- [year] if it is a list, else
    [season] if that is a list -- is non-empty, all its values parse
    as integers and their minimum is not 0, split_historical yields
    exactly max - min + 1 units, one per year from min to max in
    ascending order, each with the original params minus [year] and
    [season] plus [year] set to the decimal string of its year, and
    tagged [{year: <int>}]. *)
Theorem C2_split_historical_years (now_year : Z) (r : Requirements)
    (ys : list scalar) (z : Z) (zs : list Z) :
  year_list (params r) ys ->
  omap PyVal.py_int ys = Ret (z :: zs) ->
  list_min z zs <> 0%Z ->
  let lo := list_min z zs in
  let hi := list_max z zs in
  (In lo (z :: zs) /\ Forall (fun y => (lo <= y)%Z) (z :: zs))
  /\ (In hi (z :: zs) /\ Forall (fun y => (y <= hi)%Z) (z :: zs))
  /\ split_historical now_year r
     = Ret (map (fun y =>
                   mkSplit (endpoint r)
                     (filter not_year_key (params r)
                        ++ [("year", VStr (PyStr.of_Z y))])%list
                     [("year", SInt y)])
                (int_range lo (hi + 1)))
  /\ List.length (int_range lo (hi + 1)) = Z.to_nat (hi - lo + 1)
  /\ (forall i, (i < Z.to_nat (hi - lo + 1))%nat ->
        nth_error (int_range lo (hi + 1)) i = Some (lo + Z.of_nat i)%Z).
Proof.
  intros Hy Hparse Hlo lo hi.
  split; [apply list_min_spec|]. split; [apply list_max_spec|].
  split; [|split].
  - unfold split_historical. rewrite (time_range_year_list _ _ _ Hy).
    unfold year_bounds.
    destruct ys as [|y0 ys0];
      [simpl in Hparse; discriminate|].
    rewrite Hparse. cbn [obind]. unfold default_start.
    fold lo hi. destruct (Z.eqb_spec lo 0) as [E|_]; [contradiction|].
    f_equal. apply map_ext. intros y. unfold year_unit.
    now rewrite base_params_year.
  - rewrite int_range_length. f_equal. lia.
  - intros i Hi. apply int_range_nth.
    replace (hi + 1 - lo)%Z with (hi - lo + 1)%Z by lia. exact Hi.
Qed.

Lemma C2_split_historical_years_witness :
  let r := mkReq "RESULTS.race"
             [("year", VList [SInt 2021; SStr "2019"]); ("driver", VStr "x")] in
  split_historical 2026 r
  = Ret (map (fun y =>
                mkSplit "RESULTS.race"
                  [("driver", VStr "x"); ("year", VStr (PyStr.of_Z y))]
                  [("year", SInt y)])
             [2019; 2020; 2021]%Z).
Proof.
  cbv zeta.
  destruct (C2_split_historical_years 2026
              (mkReq "RESULTS.race"
                 [("year", VList [SInt 2021; SStr "2019"]); ("driver", VStr "x")])
              [SInt 2021; SStr "2019"] 2021 [2019%Z])
    as (_ & _ & H & _).
  - left. reflexivity.
  - reflexivity.
  - discriminate.
  - exact H.
Defined.

(** C10: the classifier folds case before looking for its terms, the
    historical splitter does not. When neither [year] nor [season] is
    a list and the stringified year matches a classifier term ignoring
    case (as in "Since 2015" or "Last Decade") while holding neither
    the lower-case "since" nor "last decade", the request is classified
    historical, yet the splitter takes neither the since branch nor the
    last-decade branch and falls through to the default range
    [current_year - 5, current_year]. *)
Theorem C10_case_mismatch (now_year : Z) (r : Requirements) :
  PyVal.is_list (dict_get "year" (params r)) = false ->
  PyVal.is_list (dict_get "season" (params r)) = false ->
  Spec.any_occurs_ci ["since"; "from"; "decade"; "between"]
    (Spec.stringified "year" (params r)) ->
  PyStr.contains "since" (Spec.stringified "year" (params r)) = false ->
  PyStr.contains "last decade" (Spec.stringified "year" (params r)) = false ->
  classify r = Historical
  /\ time_range now_year (params r) = Ret (None, now_year)
  /\ split_historical now_year r
     = Ret (map (year_unit (endpoint r) (filter not_year_key (params r)))
                [now_year - 5; now_year - 4; now_year - 3;
                 now_year - 2; now_year - 1; now_year]%Z).
Proof.
  intros Hy Hs Hci Hsince Hdecade.
  assert (time_range now_year (params r) = Ret (None, now_year)) as Ht.
  { unfold time_range. unfold Spec.stringified in Hsince, Hdecade.
    destruct (dict_get "year" (params r)) as [[[]|l]|] eqn:Ey;
      try discriminate;
      destruct (dict_get "season" (params r)) as [[[]|l']|] eqn:Es;
      try discriminate;
      now rewrite Hsince, Hdecade. }
  split; [|split; [exact Ht|]].
  - unfold classify.
    rewrite (proj2 (historical_iff r)); [reflexivity|].
    right. right. exact Hci.
  - unfold split_historical. rewrite Ht. cbn [obind default_start].
    f_equal. f_equal. unfold int_range.
    replace (now_year + 1 - (now_year - 5))%Z with 6%Z by lia.
    change (Z.to_nat 6) with 6%nat. cbn [seq map].
    repeat (f_equal; try lia).
Qed.

Lemma C10_case_mismatch_witness :
  let r := mkReq "RESULTS.race"
             [("year", VStr "Since 2015"); ("driver", VStr "max_verstappen")] in
  classify r = Historical
  /\ time_range 2026 (params r) = Ret (None, 2026%Z)
  /\ split_historical 2026 r
     = Ret (map (year_unit (endpoint r) (filter not_year_key (params r)))
                [2026 - 5; 2026 - 4; 2026 - 3; 2026 - 2; 2026 - 1; 2026]%Z).
Proof.
  cbv zeta. apply C10_case_mismatch.
  - reflexivity.
  - reflexivity.
  - exists "since". split; [now left|].
    exists "", "Since", " 2015". split; reflexivity.
  - reflexivity.
  - reflexivity.
Defined.

Example last_decade_capitalised :
  let r := mkReq "RESULTS.race" [("year", VStr "Last Decade")] in
  classify r = Historical
  /\ option_map (map year_tag)
       (match split_historical 2026 r with Ret l => Some l | Raise _ => None end)
     = Some [SInt 2021; SInt 2022; SInt 2023; SInt 2024; SInt 2025; SInt 2026].
Proof. split; reflexivity. Qed.

(* ================================================================== *)
(** * The batch executor without entities *)
(* ================================================================== *)

(** C9: when the entity list is empty ([driver] is the empty list, or
    [driver] is not a list and [constructor] is the empty list) or no
    entity list is present, the batch executor returns at once the
    failure [{success: False, data: None, error: "No parallel entities
    found", metadata: {timestamp}}], and performs no build, fetch or
    sleep. *)
Theorem C9_no_entities (w : world) (r : Requirements) :
  dict_get "driver" (params r) = Some (VList [])
  \/ (PyVal.is_list (dict_get "driver" (params r)) = false
      /\ dict_get "constructor" (params r) = Some (VList []))
  \/ (PyVal.is_list (dict_get "driver" (params r)) = false
      /\ PyVal.is_list (dict_get "constructor" (params r)) = false) ->
  trace (_process_parallel w r) = []
  /\ result (_process_parallel w r)
     = Ret (mkResp false None (Some "No parallel entities found")
              [("timestamp", MStr (timestamp w))]).
Proof.
  intros H. unfold _process_parallel, select_entities.
  destruct H as [-> | [[Hd ->] | [Hd Hc]]].
  - split; reflexivity.
  - destruct (dict_get "driver" (params r)) as [[[]|l]|];
      try discriminate; split; reflexivity.
  - destruct (dict_get "driver" (params r)) as [[[]|l]|];
      try discriminate;
      destruct (dict_get "constructor" (params r)) as [[[]|l']|];
      try discriminate; split; reflexivity.
Qed.

Lemma C9_no_entities_witness :
  let w := mkWorld 2026 "2026-03-01T09:30:00" (fun _ => failing_env) in
  let r := mkReq "DRIVERS.specific"
             [("driver", VList []); ("constructor", VList [SStr "ferrari"])] in
  trace (_process_parallel w r) = []
  /\ result (_process_parallel w r)
     = Ret (mkResp false None (Some "No parallel entities found")
              [("timestamp", MStr "2026-03-01T09:30:00")]).
Proof.
  cbv zeta. apply C9_no_entities. left. reflexivity.
Defined.

(* ================================================================== *)
(** * The career strategy *)
(* ================================================================== *)

Lemma keyed_step_ok (st : keyed_state) (metric : string) (u : UnitResult)
    (d : DataFrame) :
  u_success u = true -> u_data u = Some d ->
  keyed_step st (metric, Ret u)
  = mkKeyed (k_success st) (dict_set metric d (k_merged st)) (k_errors st).
Proof. intros S D. unfold keyed_step. now rewrite S, D. Qed.

(** C7: the career split always yields the four fixed units, tagged
    career_stats, race_results, qualifying_results and
    championship_standings, each carrying the request's params
    unchanged; the four dispatches all return, and when all four
    report success the keyed merge maps exactly those four metric keys
    to the four units' datasets. *)
Theorem C7_career_split_and_merge (w : world) (r : Requirements) :
  split_career r
  = [ mkSplit "DRIVERS.specific" (params r) [("metric", SStr "career_stats")];
      mkSplit "RESULTS.race" (params r) [("metric", SStr "race_results")];
      mkSplit "QUALIFYING.race" (params r)
              [("metric", SStr "qualifying_results")];
      mkSplit "STANDINGS.driver_season" (params r)
              [("metric", SStr "championship_standings")] ]
  /\ exists u1 u2 u3 u4 resp,
       map result (dispatch_all w 0 (map unit_request (split_career r)))
       = [Ret u1; Ret u2; Ret u3; Ret u4]
       /\ result (_process_career w r) = Ret resp
       /\ (u_success u1 = true -> u_success u2 = true ->
           u_success u3 = true -> u_success u4 = true ->
           exists d1 d2 d3 d4,
             u_data u1 = Some d1 /\ u_data u2 = Some d2
             /\ u_data u3 = Some d3 /\ u_data u4 = Some d4
             /\ error resp = None
             /\ data resp
                = Some (Keyed [("career_stats", d1); ("race_results", d2);
                               ("qualifying_results", d3);
                               ("championship_standings", d4)])).
Proof.
  split; [reflexivity|].
  unfold _process_career, gather, bind, ret.
  cbn [split_career metrics map dispatch_all fst snd].
  unfold unit_request. cbn [su_endpoint su_params].
  destruct (process_single_schedule (unit_env w 0)
              (Some (mkReq "DRIVERS.specific" (params r))))
    as (? & ? & ? & u1 & _ & -> & R1).
  destruct (process_single_schedule (unit_env w 1)
              (Some (mkReq "RESULTS.race" (params r))))
    as (? & ? & ? & u2 & _ & -> & R2).
  destruct (process_single_schedule (unit_env w 2)
              (Some (mkReq "QUALIFYING.race" (params r))))
    as (? & ? & ? & u3 & _ & -> & R3).
  destruct (process_single_schedule (unit_env w 3)
              (Some (mkReq "STANDINGS.driver_season" (params r))))
    as (? & ? & ? & u4 & _ & -> & R4).
  exists u1, u2, u3, u4. eexists. split; [reflexivity|].
  split; [reflexivity|].
  intros S1 S2 S3 S4.
  destruct R1 as [(_ & _ & d1 & D1) | (F & _)]; [|congruence].
  destruct R2 as [(_ & _ & d2 & D2) | (F & _)]; [|congruence].
  destruct R3 as [(_ & _ & d3 & D3) | (F & _)]; [|congruence].
  destruct R4 as [(_ & _ & d4 & D4) | (F & _)]; [|congruence].
  exists d1, d2, d3, d4. repeat (split; [assumption|]).
  cbn [snd]. unfold merge_career, merge_keyed.
  cbn [map combine fold_left].
  rewrite (keyed_step_ok _ _ u1 d1 S1 D1), (keyed_step_ok _ _ u2 d2 S2 D2),
    (keyed_step_ok _ _ u3 d3 S3 D3), (keyed_step_ok _ _ u4 d4 S4 D4).
  split; reflexivity.
Qed.

Lemma C7_career_split_and_merge_witness :
  let w := mkWorld 2026 "2026-03-01T09:30:00" (fun _ => serving_env) in
  let r := mkReq "DRIVERS.specific"
             [("driver", VStr "Max Verstappen"); ("query", VStr "career stats")] in
  exists resp,
    result (_process_career w r) = Ret resp
    /\ data resp
       = Some (Keyed [("career_stats", sample_frame);
                      ("race_results", sample_frame);
                      ("qualifying_results", sample_frame);
                      ("championship_standings", sample_frame)]).
Proof.
  cbv zeta.
  destruct (C7_career_split_and_merge
              (mkWorld 2026 "2026-03-01T09:30:00" (fun _ => serving_env))
              (mkReq "DRIVERS.specific"
                 [("driver", VStr "Max Verstappen");
                  ("query", VStr "career stats")]))
    as (_ & u1 & u2 & u3 & u4 & resp & Hres & Hresp & H).
  injection Hres as <- <- <- <-.
  destruct H as (d1 & d2 & d3 & d4 & D1 & D2 & D3 & D4 & _ & Hd);
    try reflexivity.
  injection D1 as <-. injection D2 as <-.
  injection D3 as <-. injection D4 as <-.
  exists resp. split; [exact Hresp | exact Hd].
Defined.

(* ================================================================== *)
(** * The row-concatenation merge *)
(* ================================================================== *)

Section RowMerge.

Lemma empty_false (df : DataFrame) :
  DF.empty df = false <-> columns df <> [] /\ rows df <> [].
Proof.
  unfold DF.empty. destruct (columns df), (rows df); simpl; split;
    try discriminate; try (intros [? ?]; congruence); intros _; split; discriminate.
Qed.

Lemma set_column_nonempty (c : string) (v : scalar) (df : DataFrame) :
  DF.empty df = false -> DF.empty (DF.set_column c v df) = false.
Proof.
  rewrite !empty_false. intros [Hc Hr]. unfold DF.set_column. simpl. split.
  - destruct (DF.has_column c df); [exact Hc|].
    destruct (columns df); discriminate.
  - destruct (rows df); [contradiction | discriminate].
Qed.

Lemma concat_nonempty (a b : DataFrame) :
  DF.empty a = false -> DF.empty (DF.concat a b) = false.
Proof.
  rewrite !empty_false. intros [Hc Hr]. unfold DF.concat. simpl. split.
  - destruct (columns a); [contradiction | discriminate].
  - destruct (rows a); [contradiction | discriminate].
Qed.

Lemma merge_step_spec (col : string) (what : scalar -> string)
    (st : merge_state) (tr : scalar * outcome UnitResult) :
  accumulating st ->
  let st' := merge_step col what st tr in
  accumulating st'
  /\ rows (m_merged st') = (rows (m_merged st) ++ contribution col tr)%list
  /\ (m_success st' = true <-> m_success st = true /\ succeeded (snd tr)).
Proof.
  intros Hacc. destruct tr as [tag [u|ex]]; cbv zeta;
    unfold merge_step, contribution, unit_frame, succeeded; simpl.
  - destruct (u_success u) eqn:Su; simpl.
    + assert (m_success st = true <->
              m_success st = true
              /\ (exists u0, Ret u = Ret u0 /\ u_success u0 = true)) as Hs
        by (split; [eauto | tauto]).
      destruct (u_data u) as [df|] eqn:Du.
      * destruct (DF.empty df) eqn:Edf; simpl.
        -- rewrite app_nil_r.
           split; [exact Hacc | split; [reflexivity | exact Hs]].
        -- destruct (DF.empty (m_merged st)) eqn:Em; simpl.
           ++ rewrite (Hacc Em).
              split; [|split; [reflexivity | exact Hs]].
              unfold accumulating. simpl. intros E.
              now rewrite set_column_nonempty in E.
           ++ split; [|split; [reflexivity | exact Hs]].
              unfold accumulating. simpl. intros E.
              now rewrite concat_nonempty in E.
      * rewrite app_nil_r.
        split; [exact Hacc | split; [reflexivity | exact Hs]].
    + rewrite app_nil_r. split; [exact Hacc|]. split; [reflexivity|].
      split; [discriminate|].
      intros (_ & u' & [= <-] & S). congruence.
  - rewrite app_nil_r. split; [exact Hacc|]. split; [reflexivity|].
    split; [discriminate|].
    intros (_ & u' & E & _). discriminate.
Qed.

Lemma merge_fold_spec (col : string) (what : scalar -> string)
    (tagged : list (scalar * outcome UnitResult)) :
  forall st, accumulating st ->
    let st' := fold_left (merge_step col what) tagged st in
    accumulating st'
    /\ rows (m_merged st')
       = (rows (m_merged st) ++ flat_map (contribution col) tagged)%list
    /\ (m_success st' = true <->
        m_success st = true /\ Forall (fun tr => succeeded (snd tr)) tagged).
Proof.
  induction tagged as [|tr rest IH]; intros st Hacc; cbv zeta; simpl.
  - rewrite app_nil_r. intuition.
  - destruct (merge_step_spec col what st tr Hacc) as (Hacc' & Hrows & Hs).
    destruct (IH _ Hacc') as (Hacc'' & Hrows' & Hs').
    split; [exact Hacc''|]. split.
    + rewrite Hrows', Hrows. now rewrite <- app_assoc.
    + rewrite Hs', Hs. split.
      * intros [[? ?] ?]. split; [assumption|]. now constructor.
      * intros [? H]. inversion H; subst. tauto.
Qed.

Lemma merge_rows_spec (col : string) (what : scalar -> string)
    (tagged : list (scalar * outcome UnitResult)) :
  let st := merge_rows col what tagged in
  accumulating st
  /\ rows (m_merged st) = flat_map (contribution col) tagged
  /\ (m_success st = true <-> Forall (fun tr => succeeded (snd tr)) tagged).
Proof.
  destruct (merge_fold_spec col what tagged (mkMerge true DF.empty_frame []))
    as (Ha & Hr & Hs); [intros _; reflexivity|].
  cbv zeta. unfold merge_rows. split; [exact Ha|]. split; [exact Hr|].
  rewrite Hs. simpl. tauto.
Qed.

Lemma response_rows_merge (st : merge_state) (meta : metadata_dict) :
  accumulating st ->
  response_rows (rows_response st meta) = rows (m_merged st).
Proof.
  intros Hacc. unfold response_rows, rows_response. simpl.
  destruct (DF.empty (m_merged st)) eqn:E; simpl; [|reflexivity].
  now rewrite (Hacc E).
Qed.

Lemma flat_map_length_sum {X Y} (f : X -> list Y) (l : list X) :
  List.length (flat_map f l) = list_sum (map (fun x => List.length (f x)) l).
Proof.
  induction l as [|x r IH]; simpl; [reflexivity|].
  now rewrite length_app, IH.
Qed.

Lemma contribution_length (col : string) (tr : scalar * outcome UnitResult) :
  List.length (contribution col tr) = unit_row_count tr.
Proof.
  unfold contribution, unit_row_count, DF.len.
  destruct (unit_frame (snd tr)); [apply length_map | reflexivity].
Qed.

Lemma contribution_tagged (col : string) (tr : scalar * outcome UnitResult)
    (rw : row) :
  In rw (contribution col tr) -> dict_get col rw = Some (fst tr).
Proof.
  unfold contribution. destruct (unit_frame (snd tr)); [|intros []].
  intros H. apply in_map_iff in H. destruct H as (r0 & <- & _).
  apply dict_get_set_same.
Qed.

Lemma contribution_failed (col : string) (tr : scalar * outcome UnitResult) :
  ~ succeeded (snd tr) -> contribution col tr = [].
Proof.
  unfold contribution, unit_frame, succeeded. destruct tr as [tag [u|ex]]; simpl.
  - destruct (u_success u) eqn:S; [|reflexivity]. intros H. exfalso. eauto.
  - reflexivity.
Qed.

Lemma rows_response_concatenation (col : string) (what : scalar -> string)
    (tagged : list (scalar * outcome UnitResult)) (meta : metadata_dict) :
  row_concatenation col tagged
    (rows_response (merge_rows col what tagged) meta).
Proof.
  destruct (merge_rows_spec col what tagged) as (Ha & Hr & _).
  assert (response_rows (rows_response (merge_rows col what tagged) meta)
          = flat_map (contribution col) tagged) as E.
  { now rewrite response_rows_merge, Hr. }
  split; [exact E|]. split.
  - rewrite E, flat_map_length_sum. f_equal. apply map_ext.
    intros tr. apply contribution_length.
  - split.
    + intros tr rw _. apply contribution_tagged.
    + intros tr _. apply contribution_failed.
Qed.

End RowMerge.

(** C5: in the row-concatenation merge of the historical and of the
    multi-entity strategy, the unit results are taken in submission
    order; every successful unit with a non-empty dataset has its
    grouping value (the year, or the entity) set as a constant column
    on each of its rows, and its rows follow those already
    accumulated. Hence the output row count is the sum of the row
    counts of the successful non-empty unit datasets, every output
    row carries its unit's grouping value in the added column, and a
    failed unit contributes no rows. *)
Theorem C5_row_concatenation :
  (forall now split_reqs results,
      row_concatenation "year" (combine (map year_tag split_reqs) results)
        (merge_historical now split_reqs results))
  /\ (forall now entity_type entities all_results,
        row_concatenation entity_type (combine entities all_results)
          (merge_parallel now entity_type entities all_results)).
Proof.
  split; intros; apply rows_response_concatenation.
Qed.

(* ================================================================== *)
(** * What the compound strategies return *)
(* ================================================================== *)

Section Pipeline.

Lemma result_bind {A B} (m : M A) (k : A -> M B) :
  result (bind m k) = obind (result m) (fun a => result (k a)).
Proof.
  destruct m as [t [a|e]]; simpl; [|reflexivity].
  now destruct (k a).
Qed.

Lemma result_gather {A} (tasks : list (M A)) :
  result (gather tasks) = Ret (map result tasks).
Proof. reflexivity. Qed.

Lemma result_try_except {A} (m : M A) (h : exn -> M A) :
  result (try_except m h)
  = match result m with
    | Ret a => Ret a
    | Raise e => result (h e)
    end.
Proof.
  destruct m as [t [a|e]]; simpl; [reflexivity|]. now destruct (h e).
Qed.

Lemma process_historical_result (w : world) (r : Requirements) :
  result (_process_historical w r)
  = obind (split_historical (current_year w) r) (fun split_reqs =>
      Ret (merge_historical (timestamp w) split_reqs
             (unit_results w (map unit_request split_reqs)))).
Proof.
  unfold _process_historical. rewrite result_bind. unfold lift, result at 1.
  simpl snd. destruct (split_historical (current_year w) r); [|reflexivity].
  cbn [obind]. now rewrite result_bind, result_gather.
Qed.

Lemma process_career_result (w : world) (r : Requirements) :
  result (_process_career w r)
  = Ret (merge_career (timestamp w) (split_career r)
           (unit_results w (map unit_request (split_career r)))).
Proof.
  unfold _process_career. now rewrite result_bind, result_gather.
Qed.

Lemma dispatch_all_app (w : world) (l1 l2 : list Requirements) :
  forall i,
    dispatch_all w i (l1 ++ l2)
    = (dispatch_all w i l1 ++ dispatch_all w (i + List.length l1) l2)%list.
Proof.
  induction l1 as [|x r IH]; intros i; simpl.
  - now rewrite Nat.add_0_r.
  - rewrite IH. now rewrite Nat.add_succ_r.
Qed.

Lemma firstn_add {X} (a b : nat) (l : list X) :
  firstn (a + b) l = (firstn a l ++ firstn b (skipn a l))%list.
Proof.
  revert l. induction a as [|a IH]; intros l; simpl; [reflexivity|].
  destruct l as [|x r]; simpl.
  - now rewrite firstn_nil.
  - now rewrite IH.
Qed.

(** The batches, run one after the other, hand back the results of
    all their entities in list order. *)
Lemma run_batches_result (w : world) (ep : string) (base : dict)
    (ty : string) (entities : list scalar) :
  forall n s,
    result (run_batches w ep base ty entities
              (map (fun j => j * batch_size)%nat (seq s n)))
    = Ret (map result
             (dispatch_all w (s * batch_size)
                (map (entity_request ep base ty)
                     (firstn (n * batch_size)
                             (skipn (s * batch_size) entities))))).
Proof.
  induction n as [|n IH]; intros s; [reflexivity|].
  cbn [seq map run_batches].
  rewrite result_bind, result_gather. cbn [obind].
  rewrite result_bind, IH. cbn [obind]. unfold ret, result at 1. cbn [snd].
  f_equal. rewrite <- map_app. f_equal.
  change (S n * batch_size)%nat with (batch_size + n * batch_size)%nat.
  rewrite firstn_add, map_app, dispatch_all_app, skipn_skipn.
  f_equal. rewrite length_map.
  change (S s * batch_size)%nat with (batch_size + s * batch_size)%nat.
  destruct (Nat.le_gt_cases batch_size
              (List.length (skipn (s * batch_size) entities))) as [Hge|Hlt].
  - rewrite length_firstn, Nat.min_l by exact Hge.
    now rewrite (Nat.add_comm (s * batch_size)).
  - rewrite (skipn_all2 entities); [now rewrite firstn_nil|].
    rewrite length_skipn in Hlt. lia.
Qed.

Lemma total_batches_cover (entities : list scalar) :
  (List.length entities <= total_batches entities * batch_size)%nat.
Proof.
  unfold total_batches, batch_size.
  pose proof (Nat.div_mod_eq (List.length entities + 4 - 1) 4).
  pose proof (Nat.mod_upper_bound (List.length entities + 4 - 1) 4).
  lia.
Qed.

Lemma process_parallel_result (w : world) (r : Requirements) :
  result (_process_parallel w r)
  = Ret (match select_entities (params r) with
         | (e :: es, Some ty, base) =>
             merge_parallel (timestamp w) ty (e :: es)
               (unit_results w
                  (map (entity_request (endpoint r) base ty) (e :: es)))
         | _ => no_entities (timestamp w)
         end).
Proof.
  unfold _process_parallel.
  destruct (select_entities (params r)) as [[[|e es] [ty|]] base];
    try reflexivity.
  rewrite result_bind, (run_batches_result w _ _ _ _ _ 0). cbn [obind].
  cbn [Nat.mul skipn]. rewrite firstn_all2 by apply total_batches_cover.
  reflexivity.
Qed.

(** The entry point never raises; per strategy, its response is the
    merge of the unit results (or the catch-all failure when the
    split raised). *)
Lemma process_result (w : world) (r : Requirements) :
  result (process w r)
  = Ret (match classify r with
         | Historical =>
             match split_historical (current_year w) r with
             | Ret split_reqs =>
                 merge_historical (timestamp w) split_reqs
                   (unit_results w (map unit_request split_reqs))
             | Raise ex => unexpected_error (timestamp w) ex
             end
         | Career =>
             merge_career (timestamp w) (split_career r)
               (unit_results w (map unit_request (split_career r)))
         | MultiEntity =>
             match select_entities (params r) with
             | (e :: es, Some ty, base) =>
                 merge_parallel (timestamp w) ty (e :: es)
                   (unit_results w
                      (map (entity_request (endpoint r) base ty) (e :: es)))
             | _ => no_entities (timestamp w)
             end
         | Single =>
             match result (_process_single (unit_env w 0) (Some r)) with
             | Ret u => response_of_unit u
             | Raise ex => unexpected_error (timestamp w) ex
             end
         end).
Proof.
  unfold process. rewrite result_try_except.
  destruct (classify r).
  - rewrite process_historical_result.
    now destruct (split_historical (current_year w) r).
  - now rewrite process_career_result.
  - now rewrite process_parallel_result.
  - rewrite result_bind.
    now destruct (result (_process_single (unit_env w 0) (Some r))).
Qed.

End Pipeline.

(* ================================================================== *)
(** * Aggregate success *)
(* ================================================================== *)

Section Success.

Lemma dispatch_all_length (w : world) (reqs : list Requirements) :
  forall i, List.length (dispatch_all w i reqs) = List.length reqs.
Proof.
  induction reqs as [|x r IH]; intros i; simpl; [reflexivity|].
  now rewrite IH.
Qed.

Lemma unit_results_length (w : world) (reqs : list Requirements) :
  List.length (unit_results w reqs) = List.length reqs.
Proof. unfold unit_results. now rewrite length_map, dispatch_all_length. Qed.

Lemma Forall_combine_snd {X Y} (P : Y -> Prop) (l1 : list X) (l2 : list Y) :
  Forall P l2 -> Forall (fun p => P (snd p)) (combine l1 l2).
Proof.
  intros H. revert l1. induction H as [|y r Hy _ IH]; intros [|x l1]; simpl;
    constructor; auto.
Qed.

Lemma Forall_combine_snd_inv {X Y} (P : Y -> Prop) (l1 : list X) (l2 : list Y) :
  List.length l1 = List.length l2 ->
  Forall (fun p => P (snd p)) (combine l1 l2) -> Forall P l2.
Proof.
  revert l2. induction l1 as [|x r IH]; intros [|y l2] Hl H;
    simpl in *; try discriminate; constructor.
  - now inversion H.
  - apply IH; [lia | now inversion H].
Qed.

(** A successful row-concatenation merge: every unit succeeded and
    the merged dataset is not empty. *)
Lemma rows_response_success (col : string) (what : scalar -> string)
    (tags : list scalar) (results : list (outcome UnitResult)) (meta : metadata_dict) :
  List.length tags = List.length results ->
  success (rows_response (merge_rows col what (combine tags results)) meta)
  = true ->
  Forall succeeded results
  /\ nonempty_results
       (rows_response (merge_rows col what (combine tags results)) meta).
Proof.
  intros Hlen H. unfold rows_response in *. simpl in H.
  apply andb_true_iff in H. destruct H as [Hs He].
  apply negb_true_iff in He.
  destruct (merge_rows_spec col what (combine tags results)) as (_ & _ & Hok).
  split.
  - apply (Forall_combine_snd_inv _ tags results Hlen). now apply Hok.
  - unfold nonempty_results. simpl. rewrite He. simpl. eauto.
Qed.

(** Units that all succeeded with empty datasets make the
    row-concatenation merge fail. *)
Lemma rows_response_all_empty (col : string) (what : scalar -> string)
    (tags : list scalar) (results : list (outcome UnitResult)) (meta : metadata_dict) :
  Forall succeeded_empty results ->
  success (rows_response (merge_rows col what (combine tags results)) meta)
  = false.
Proof.
  intros H. unfold rows_response. simpl.
  assert (flat_map (contribution col) (combine tags results) = []) as E.
  { apply (Forall_combine_snd _ tags) in H.
    induction H as [|tr rest (u & df & Eu & Su & Du & Ed) _ IH];
      simpl; [reflexivity|].
    rewrite IH, app_nil_r. unfold contribution, unit_frame.
    now rewrite Eu, Su, Du, Ed. }
  destruct (merge_rows_spec col what (combine tags results)) as (_ & Hr & _).
  rewrite E in Hr. unfold DF.empty. rewrite Hr. simpl.
  rewrite orb_true_r. simpl. apply andb_false_r.
Qed.

Lemma keyed_fold_spec (tagged : list (string * outcome UnitResult)) :
  forall st,
    let st' := fold_left keyed_step tagged st in
    (k_success st' = true <->
     k_success st = true /\ Forall (fun tr => succeeded (snd tr)) tagged)
    /\ (forall P : DataFrame -> Prop,
          Forall P (dict_values (k_merged st)) ->
          Forall (fun tr : string * outcome UnitResult =>
                    forall u df, snd tr = Ret u -> u_data u = Some df -> P df)
                 tagged ->
          Forall P (dict_values (k_merged st'))).
Proof.
  induction tagged as [|[metric res] rest IH]; intros st; cbv zeta; simpl.
  - split; [intuition|]. intros P H _. exact H.
  - destruct (IH (keyed_step st (metric, res))) as [Hs Hv]. split.
    + rewrite Hs. unfold keyed_step, succeeded.
      destruct res as [u|ex]; simpl.
      * destruct (u_success u) eqn:Su; simpl.
        -- assert (k_success (match u_data u with
                              | Some df => mkKeyed (k_success st)
                                             (dict_set metric df (k_merged st))
                                             (k_errors st)
                              | None => st
                              end) = k_success st) as ->
             by now destruct (u_data u).
           split.
           ++ intros [? ?]. split; [assumption|].
              constructor; [now exists u | assumption].
           ++ intros [? H]. inversion H; subst. tauto.
        -- split; [intros [? _]; discriminate|].
           intros [_ H]. inversion H as [|? ? Hx _]; subst.
           destruct Hx as (u' & E & S). simpl in E. injection E as <-.
           congruence.
      * split; [intros [? _]; discriminate|].
        intros [_ H]. inversion H as [|? ? Hx _]; subst.
        destruct Hx as (u' & E & _). discriminate.
    + intros P H0 Hall. inversion Hall as [|? ? Hres Hrest]; subst.
      apply Hv; [|exact Hrest]. simpl in Hres.
      unfold keyed_step. destruct res as [u|ex]; simpl; [|exact H0].
      destruct (u_success u); simpl; [|exact H0].
      destruct (u_data u) as [df|] eqn:Du; simpl; [|exact H0].
      unfold dict_values in *. rewrite Forall_map in *.
      apply dict_set_Forall; [|exact H0]. simpl. now apply (Hres u).
Qed.

Lemma merge_career_success (now : string) (split_reqs : list SplitUnit)
    (results : list (outcome UnitResult)) :
  List.length split_reqs = List.length results ->
  success (merge_career now split_reqs results) = true ->
  Forall succeeded results
  /\ some_metric_nonempty (merge_career now split_reqs results).
Proof.
  intros Hlen H. unfold merge_career in *. simpl in H.
  apply andb_true_iff in H. destruct H as [Hs He].
  destruct (keyed_fold_spec (combine (map metric_tag split_reqs) results)
              (mkKeyed true [] [])) as [Hok _].
  cbv zeta in Hok. fold (merge_keyed (combine (map metric_tag split_reqs) results)) in Hok.
  split.
  - apply (Forall_combine_snd_inv _ (map metric_tag split_reqs) results);
      [now rewrite length_map|].
    now apply Hok.
  - apply existsb_exists in He. destruct He as (df & Hin & Hne).
    apply negb_true_iff in Hne. unfold dict_values in Hin.
    apply in_map_iff in Hin. destruct Hin as ([k df'] & <- & Hin).
    unfold some_metric_nonempty. simpl.
    destruct (k_merged (merge_keyed (combine (map metric_tag split_reqs) results)))
      as [|kv m] eqn:Em; [destruct Hin|].
    exists (kv :: m), k, df'. auto.
Qed.

Lemma merge_career_all_empty (now : string) (split_reqs : list SplitUnit)
    (results : list (outcome UnitResult)) :
  Forall succeeded_empty results ->
  success (merge_career now split_reqs results) = false.
Proof.
  intros H. unfold merge_career. simpl.
  destruct (keyed_fold_spec (combine (map metric_tag split_reqs) results)
              (mkKeyed true [] [])) as [_ Hv].
  cbv zeta in Hv.
  specialize (Hv (fun df => DF.empty df = true)).
  fold (merge_keyed (combine (map metric_tag split_reqs) results)) in Hv.
  assert (Forall (fun df => DF.empty df = true)
            (dict_values (k_merged (merge_keyed
               (combine (map metric_tag split_reqs) results))))) as Hall.
  { apply Hv; [constructor|].
    apply (Forall_combine_snd _ (map metric_tag split_reqs)) in H.
    eapply Forall_impl; [|exact H].
    intros tr (u & df & Eu & _ & Du & Ed) u' df' Eu' Du'.
    rewrite Eu in Eu'. injection Eu' as <-. congruence. }
  clear Hv H.
  assert (existsb (fun df => negb (DF.empty df))
            (dict_values (k_merged (merge_keyed
               (combine (map metric_tag split_reqs) results)))) = false) as ->.
  { induction Hall as [|df l Hdf _ IH]; simpl; [reflexivity|].
    now rewrite Hdf, IH. }
  apply andb_false_r.
Qed.

End Success.

(** C1 (counterexample): under the single strategy nothing is merged
    and the unit's result is the response; a unit that succeeds with
    an empty dataset gives a response with success true and an empty
    dataset. *)
Lemma C1_single_success_with_empty_dataset :
  let r := mkReq "RESULTS.race" [("year", VStr "2021")] in
  classify r = Single
  /\ succeeded_empty (result (_process_single (unit_env empty_world 0) (Some r)))
  /\ exists resp,
       result (process empty_world r) = Ret resp
       /\ success resp = true
       /\ data resp = Some (Results DF.empty_frame)
       /\ DF.empty DF.empty_frame = true.
Proof.
  cbv zeta. split; [reflexivity|]. split.
  - eexists. exists DF.empty_frame. repeat split.
  - eexists. repeat split.
Qed.

(** C1 (amended): for a request processed under a compound strategy
    the top-level response reports success only if no contributing
    unit failed and the merge is not empty. Under the historical and
    the multi-entity strategy (row concatenation) a successful
    response means every unit succeeded and the merged dataset is
    non-empty; under the career strategy (keyed merge) it means every
    unit succeeded and some metric's dataset is non-empty. In
    particular, under these strategies, when every unit succeeds with
    an empty dataset the response reports failure. Under the single
    strategy success means that the one unit succeeded. *)
Theorem C1_success_only_if_merged (w : world) (r : Requirements) :
  exists resp,
    result (process w r) = Ret resp
    /\ match classify r with
       | Historical =>
           (success resp = true ->
            exists split_reqs,
              split_historical (current_year w) r = Ret split_reqs
              /\ Forall succeeded
                   (unit_results w (map unit_request split_reqs))
              /\ nonempty_results resp)
           /\ (forall split_reqs,
                 split_historical (current_year w) r = Ret split_reqs ->
                 Forall succeeded_empty
                   (unit_results w (map unit_request split_reqs)) ->
                 success resp = false)
       | Career =>
           (success resp = true ->
            Forall succeeded
              (unit_results w (map unit_request (split_career r)))
            /\ some_metric_nonempty resp)
           /\ (Forall succeeded_empty
                 (unit_results w (map unit_request (split_career r))) ->
               success resp = false)
       | MultiEntity =>
           (success resp = true ->
            exists entities ty base,
              select_entities (params r) = (entities, Some ty, base)
              /\ Forall succeeded
                   (unit_results w
                      (map (entity_request (endpoint r) base ty) entities))
              /\ nonempty_results resp)
           /\ (forall entities ty base,
                 select_entities (params r) = (entities, Some ty, base) ->
                 Forall succeeded_empty
                   (unit_results w
                      (map (entity_request (endpoint r) base ty) entities)) ->
                 success resp = false)
       | Single =>
           success resp = true ->
           succeeded (result (_process_single (unit_env w 0) (Some r)))
       end.
Proof.
  eexists. split; [apply process_result|].
  destruct (classify r).
  - destruct (split_historical (current_year w) r) as [units|ex]; split.
    + intros H. exists units. split; [reflexivity|].
      apply rows_response_success in H; [exact H|].
      now rewrite length_map, unit_results_length, length_map.
    + intros ? [= <-] H. now apply rows_response_all_empty.
    + discriminate.
    + discriminate.
  - split.
    + intros H. apply merge_career_success in H; [exact H|].
      now rewrite unit_results_length, length_map.
    + apply merge_career_all_empty.
  - destruct (select_entities (params r)) as [[[|e es] [ty|]] base];
      (split; [try discriminate | try reflexivity]).
    + intros H. exists (e :: es), ty, base. split; [reflexivity|].
      apply rows_response_success in H; [exact H|].
      now rewrite unit_results_length, length_map.
    + intros ? ? ? [= <- <- <-] H. now apply rows_response_all_empty.
  - destruct (result (_process_single (unit_env w 0) (Some r))) as [u|ex];
      simpl; [|discriminate].
    intros H. now exists u.
Qed.

(* ================================================================== *)
(** * Scenarios *)
(* ================================================================== *)

(** Two years, each served two rows: four rows, year column set. *)
Example historical_scenario :
  let r := mkReq "RESULTS.race" [("year", VList [SInt 2021; SInt 2020])] in
  option_map success (response_of (process serving_world r)) = Some true
  /\ option_map (fun resp => map (dict_get "year") (response_rows resp))
       (response_of (process serving_world r))
     = Some [Some (SInt 2020); Some (SInt 2020);
             Some (SInt 2021); Some (SInt 2021)].
Proof. split; reflexivity. Qed.

(** Two drivers form one batch; the rows carry the [driver] column. *)
Example multi_entity_scenario :
  let r := mkReq "DRIVERS.specific"
             [("driver", VList [SStr "max_verstappen"; SStr "lewis_hamilton"])] in
  classify r = MultiEntity
  /\ option_map (fun resp => map (dict_get "driver") (response_rows resp))
       (response_of (process serving_world r))
     = Some [Some (SStr "max_verstappen"); Some (SStr "max_verstappen");
             Some (SStr "lewis_hamilton"); Some (SStr "lewis_hamilton")]
  /\ List.length (filter is_fetch (trace (process serving_world r))) = 2%nat.
Proof. repeat split; reflexivity. Qed.

(** Five entities run as a batch of four and a batch of one. *)
Example five_entities_scenario :
  let r := mkReq "DRIVERS.specific"
             [("driver", VList [SStr "a"; SStr "b"; SStr "c"; SStr "d"; SStr "e"])] in
  option_map (fun resp => dict_get "total_batches" (metadata resp))
    (response_of (process serving_world r)) = Some (Some (MInt 2))
  /\ option_map (fun resp => List.length (response_rows resp))
       (response_of (process serving_world r)) = Some 10%nat.
Proof. split; reflexivity. Qed.

(** Every unit succeeds with an empty dataset: the merges fail. *)
Example all_empty_scenario :
  option_map success
    (response_of (process empty_world
       (mkReq "RESULTS.race" [("year", VList [SInt 2021; SInt 2020])])))
  = Some false
  /\ option_map success
       (response_of (process empty_world
          (mkReq "DRIVERS.specific" [("query", VStr "career stats"); ("driver", VStr "x")])))
     = Some false
  /\ option_map success
       (response_of (process empty_world
          (mkReq "DRIVERS.specific" [("driver", VList [SStr "a"; SStr "b"])])))
     = Some false.
Proof. repeat split; reflexivity. Qed.

(** A raising fetch is retried twice and reported as a value. *)
Example raising_fetch_scenario :
  let e := mkEnv (fun _ _ _ => Ret (Some "https://api.example/f1"))
                 (fun _ _ _ => Raise (Exn "TimeoutError" "timed out"))
                 "2024-05-01T12:00:00" in
  let run := _process_single e (Some (mkReq "RESULTS.race" [("year", VStr "2021")])) in
  sleeps (trace run) = [1%float; 2%float]
  /\ match result run with
     | Ret u => u_success u = false
                /\ u_error u = Some "Processing error: timed out"
     | Raise _ => False
     end.
Proof. split; [reflexivity | split; reflexivity]. Qed.

(* ================================================================== *)
(** * Further properties of the splitter *)
(* ================================================================== *)

Section SplitterMore.

Lemma dict_get_set_other {A} (k k' : string) (v : A) (d : list (string * A)) :
  k <> k' -> dict_get k (dict_set k' v d) = dict_get k d.
Proof.
  intros N. induction d as [|[k0 v0] r IH]; simpl.
  - destruct (String.eqb_spec k' k); [congruence | reflexivity].
  - destruct (String.eqb_spec k0 k') as [->|N0]; simpl.
    + destruct (String.eqb_spec k' k); [congruence | reflexivity].
    + destruct (String.eqb_spec k0 k); [reflexivity | exact IH].
Qed.

Lemma dict_get_filter_pass {A} (f : string * A -> bool) (k : string)
    (d : list (string * A)) :
  (forall v, f (k, v) = true) -> dict_get k (filter f d) = dict_get k d.
Proof.
  intros Hf. induction d as [|[k0 v0] r IH]; simpl; [reflexivity|].
  destruct (String.eqb_spec k0 k) as [->|N].
  - rewrite Hf. simpl. now rewrite String.eqb_refl.
  - destruct (f (k0, v0)); simpl; [|exact IH].
    destruct (String.eqb_spec k0 k); [contradiction | exact IH].
Qed.

Lemma dict_get_filter_block {A} (f : string * A -> bool) (k : string)
    (d : list (string * A)) :
  (forall v, f (k, v) = false) -> dict_get k (filter f d) = None.
Proof.
  intros Hf. induction d as [|[k0 v0] r IH]; simpl; [reflexivity|].
  destruct (f (k0, v0)) eqn:E; simpl; [|exact IH].
  destruct (String.eqb_spec k0 k) as [->|N]; [|exact IH].
  rewrite Hf in E. discriminate.
Qed.

(** With neither [year] nor [season] a list, the range is read off
    the stringified year. *)
Lemma time_range_text (now_year : Z) (args : dict) :
  PyVal.is_list (dict_get "year" args) = false ->
  PyVal.is_list (dict_get "season" args) = false ->
  time_range now_year args
  = let year_str := PyVal.py_str (get_or_empty "year" args) in
    if PyStr.contains "since" year_str then
      obind (PyVal.py_int
               (SStr (PyStr.strip (PyStr.split_last "since" year_str))))
            (fun z => Ret (Some z, now_year))
    else if PyStr.contains "last decade" year_str then
      Ret (Some (now_year - 10)%Z, now_year)
    else Ret (None, now_year).
Proof.
  intros Hy Hs. unfold time_range.
  destruct (dict_get "year" args) as [[x|l]|]; try discriminate;
    destruct (dict_get "season" args) as [[x'|l']|]; try discriminate;
    reflexivity.
Qed.

Lemma contains_lower (sub s : string) :
  PyStr.contains sub s = true ->
  PyStr.contains (PyStr.lower sub) (PyStr.lower s) = true.
Proof.
  rewrite !contains_app. intros (pre & post & ->).
  exists (PyStr.lower pre), (PyStr.lower post). now rewrite !lower_app.
Qed.

(** A stringified year holding "since" is classified historical. *)
Lemma since_is_historical (r : Requirements) :
  PyStr.contains "since" (PyVal.py_str (get_or_empty "year" (params r))) = true ->
  classify r = Historical.
Proof.
  intros H. unfold classify, _is_historical_query.
  destruct (long_list (dict_get "year" (params r))); [reflexivity|].
  destruct (long_list (dict_get "season" (params r))); [reflexivity|].
  apply contains_lower in H. unfold any_term_in. simpl existsb.
  change (PyStr.lower "since") with "since" in H. now rewrite H.
Qed.

Lemma int_range_empty (lo hi : Z) : (hi <= lo)%Z -> int_range lo hi = [].
Proof.
  intros H. unfold int_range.
  replace (Z.to_nat (hi - lo)) with 0%nat by lia. reflexivity.
Qed.

Lemma process_historical_raise (w : world) (r : Requirements) (ex : exn) :
  classify r = Historical ->
  split_historical (current_year w) r = Raise ex ->
  process w r = ([], Ret (unexpected_error (timestamp w) ex)).
Proof.
  intros Hc Hs. unfold process. rewrite Hc.
  unfold _process_historical. now rewrite Hs.
Qed.

End SplitterMore.

(** X1: the entry point never raises. Whatever the request and the
    collaborators do, and also when the historical split itself
    raises, [process] returns a response value. *)
Theorem X1_process_never_raises (w : world) (r : Requirements) :
  exists resp, result (process w r) = Ret resp.
Proof.
  eexists. apply process_result.
Qed.

(** X2: a [year] list of more than one element with a value that
    [int] rejects makes [process] return the catch-all failure
    carrying the exception's text and type, and nothing is built,
    fetched or slept on. *)
Theorem X2_bad_year_list_reported (w : world) (r : Requirements)
    (ys : list scalar) (ex : exn) :
  dict_get "year" (params r) = Some (VList ys) ->
  (1 < List.length ys)%nat ->
  omap PyVal.py_int ys = Raise ex ->
  process w r
  = ([], Ret (mkResp false None (Some (exn_msg ex))
                [("timestamp", MStr (timestamp w));
                 ("error_type", MStr (exn_type ex))])).
Proof.
  intros Hy Hlen Hex. apply process_historical_raise.
  - unfold classify, _is_historical_query. rewrite Hy. simpl.
    apply Nat.ltb_lt in Hlen. now rewrite Hlen.
  - unfold split_historical, time_range. rewrite Hy. unfold year_bounds.
    destruct ys as [|y ys']; [simpl in Hlen; lia|]. now rewrite Hex.
Qed.

Lemma X2_bad_year_list_reported_witness :
  let w := mkWorld 2026 "2026-03-01T09:30:00" (fun _ => serving_env) in
  let r := mkReq "RESULTS.race" [("year", VList [SInt 2019; SStr "next"])] in
  process w r
  = ([], Ret (mkResp false None
                (Some "invalid literal for int() with base 10: 'next'")
                [("timestamp", MStr "2026-03-01T09:30:00");
                 ("error_type", MStr "ValueError")])).
Proof.
  cbv zeta.
  refine (X2_bad_year_list_reported
            (mkWorld 2026 "2026-03-01T09:30:00" (fun _ => serving_env))
            (mkReq "RESULTS.race" [("year", VList [SInt 2019; SStr "next"])])
            [SInt 2019; SStr "next"]
            (Exn "ValueError" "invalid literal for int() with base 10: 'next'")
            _ _ _).
  - reflexivity.
  - simpl. lia.
  - reflexivity.
Defined.

(** X3: when neither [year] nor [season] is a list and the
    stringified year holds "since" followed, after its last
    occurrence, by an integer [z] other than 0, the split yields one
    unit per year from [z] to the current year. *)
Theorem X3_split_since (now_year : Z) (r : Requirements) (z : Z) :
  PyVal.is_list (dict_get "year" (params r)) = false ->
  PyVal.is_list (dict_get "season" (params r)) = false ->
  PyStr.contains "since" (PyVal.py_str (get_or_empty "year" (params r))) = true ->
  PyStr.to_Z (PyStr.strip (PyStr.split_last "since"
                (PyVal.py_str (get_or_empty "year" (params r))))) = Some z ->
  z <> 0%Z ->
  split_historical now_year r
  = Ret (map (year_unit (endpoint r) (filter not_year_key (params r)))
             (int_range z (now_year + 1)))
  /\ List.length (int_range z (now_year + 1)) = Z.to_nat (now_year - z + 1).
Proof.
  intros Hy Hs Hsince Hz Hz0. split.
  - unfold split_historical. rewrite (time_range_text _ _ Hy Hs). cbv zeta.
    rewrite Hsince. unfold PyVal.py_int. rewrite Hz. cbn [obind].
    unfold default_start. destruct (Z.eqb_spec z 0); [contradiction|].
    reflexivity.
  - rewrite int_range_length. f_equal. lia.
Qed.

Lemma X3_split_since_witness :
  let r := mkReq "RESULTS.race"
             [("year", VStr "since 2010 or since 2024"); ("driver", VStr "x")] in
  split_historical 2026 r
  = Ret (map (year_unit "RESULTS.race" [("driver", VStr "x")])
             (int_range 2024 (2026 + 1)))
  /\ List.length (int_range 2024 (2026 + 1)) = Z.to_nat (2026 - 2024 + 1).
Proof.
  cbv zeta.
  apply (X3_split_since 2026
           (mkReq "RESULTS.race"
              [("year", VStr "since 2010 or since 2024"); ("driver", VStr "x")])
           2024); try reflexivity.
  discriminate.
Defined.

(** X4: a "since" that is not followed by an integer makes the split
    raise [ValueError]; [process] classifies the request historical
    and returns the catch-all failure with that error type, without
    any build, fetch or sleep. The error text shows the stripped text
    after the last "since" by its [repr], cut after 200 characters. *)
Theorem X4_since_without_year (w : world) (r : Requirements) :
  PyVal.is_list (dict_get "year" (params r)) = false ->
  PyVal.is_list (dict_get "season" (params r)) = false ->
  PyStr.contains "since" (PyVal.py_str (get_or_empty "year" (params r))) = true ->
  PyStr.to_Z (PyStr.strip (PyStr.split_last "since"
                (PyVal.py_str (get_or_empty "year" (params r))))) = None ->
  process w r
  = ([], Ret (mkResp false None
                (Some ("invalid literal for int() with base 10: "
                       ++ PyStr.take 200
                            (PyVal.repr_str
                               (PyStr.strip
                                  (PyStr.split_last "since"
                                     (PyVal.py_str
                                        (get_or_empty "year" (params r))))))))
                [("timestamp", MStr (timestamp w));
                 ("error_type", MStr "ValueError")])).
Proof.
  intros Hy Hs Hsince Hz.
  apply (process_historical_raise w r
           (Exn "ValueError"
              ("invalid literal for int() with base 10: "
               ++ PyStr.take 200
                    (PyVal.repr_str
                       (PyStr.strip
                          (PyStr.split_last "since"
                             (PyVal.py_str (get_or_empty "year" (params r)))))))));
    [now apply since_is_historical|].
  unfold split_historical. rewrite (time_range_text _ _ Hy Hs). cbv zeta.
  rewrite Hsince. unfold PyVal.py_int. rewrite Hz. reflexivity.
Qed.

Lemma X4_since_without_year_witness :
  let w := mkWorld 2026 "2026-03-01T09:30:00" (fun _ => serving_env) in
  process w (mkReq "RESULTS.race" [("year", VStr "since the start")])
  = ([], Ret (mkResp false None
                (Some "invalid literal for int() with base 10: 'the start'")
                [("timestamp", MStr "2026-03-01T09:30:00");
                 ("error_type", MStr "ValueError")])).
Proof.
  cbv zeta.
  refine (X4_since_without_year
           (mkWorld 2026 "2026-03-01T09:30:00" (fun _ => serving_env))
           (mkReq "RESULTS.race" [("year", VStr "since the start")])
           _ _ _ _);
    reflexivity.
Defined.

(** X5: when neither [year] nor [season] is a list and the
    stringified year holds "last decade" but not "since", the split
    yields the eleven units of the years [current_year - 10] to
    [current_year] (the current year not being 10). *)
Theorem X5_split_last_decade (now_year : Z) (r : Requirements) :
  PyVal.is_list (dict_get "year" (params r)) = false ->
  PyVal.is_list (dict_get "season" (params r)) = false ->
  PyStr.contains "since" (PyVal.py_str (get_or_empty "year" (params r))) = false ->
  PyStr.contains "last decade"
    (PyVal.py_str (get_or_empty "year" (params r))) = true ->
  now_year <> 10%Z ->
  exists units,
    split_historical now_year r = Ret units
    /\ map year_tag units
       = map (fun i => SInt (now_year - 10 + Z.of_nat i)) (seq 0 11).
Proof.
  intros Hy Hs Hsince Hdec Hnow. eexists. split.
  - unfold split_historical. rewrite (time_range_text _ _ Hy Hs). cbv zeta.
    rewrite Hsince, Hdec. cbn [obind]. unfold default_start.
    destruct (Z.eqb_spec (now_year - 10) 0) as [E|_]; [lia|]. reflexivity.
  - rewrite map_map. unfold int_range.
    replace (now_year + 1 - (now_year - 10))%Z with 11%Z by lia.
    change (Z.to_nat 11) with 11%nat. rewrite map_map. reflexivity.
Qed.

Lemma X5_split_last_decade_witness :
  exists units,
    split_historical 2026 (mkReq "STANDINGS.driver_season"
                             [("year", VStr "the last decade")]) = Ret units
    /\ map year_tag units
       = map (fun i => SInt (2026 - 10 + Z.of_nat i)) (seq 0 11).
Proof.
  refine (X5_split_last_decade 2026
            (mkReq "STANDINGS.driver_season" [("year", VStr "the last decade")])
            _ _ _ _ _); try reflexivity.
  discriminate.
Defined.

(** X6: every unit of the historical split, whichever branch chose
    the range, keeps the request's endpoint, is tagged with its year,
    carries that year's decimal string under [year], has no [season]
    key, and leaves every other parameter as it was. *)
Theorem X6_year_unit_params (now_year : Z) (r : Requirements)
    (units : list SplitUnit) (u : SplitUnit) :
  split_historical now_year r = Ret units ->
  In u units ->
  exists y,
    su_endpoint u = endpoint r
    /\ su_metadata u = [("year", SInt y)]
    /\ dict_get "year" (su_params u) = Some (VStr (PyStr.of_Z y))
    /\ dict_get "season" (su_params u) = None
    /\ (forall k, k <> "year" -> k <> "season" ->
          dict_get k (su_params u) = dict_get k (params r)).
Proof.
  unfold split_historical. intros Hs Hin.
  destruct (time_range now_year (params r)) as [[start_year end_year]|ex];
    [|discriminate].
  cbn [obind] in Hs. injection Hs as <-.
  apply in_map_iff in Hin. destruct Hin as (y & <- & _).
  exists y. unfold year_unit. cbn [su_endpoint su_metadata su_params].
  split; [reflexivity|]. split; [reflexivity|].
  split; [apply dict_get_set_same|]. split.
  - rewrite dict_get_set_other by discriminate.
    apply dict_get_filter_block. reflexivity.
  - intros k Hk1 Hk2. rewrite dict_get_set_other by congruence.
    apply dict_get_filter_pass. intros v. unfold not_year_key. simpl.
    destruct (String.eqb_spec k "year"); [contradiction|].
    destruct (String.eqb_spec k "season"); [contradiction|]. reflexivity.
Qed.

Lemma X6_year_unit_params_witness :
  exists y,
    su_endpoint (year_unit "RESULTS.race" [("driver", VStr "x")] 2020)
    = "RESULTS.race"
    /\ su_metadata (year_unit "RESULTS.race" [("driver", VStr "x")] 2020)
       = [("year", SInt y)]
    /\ dict_get "year"
         (su_params (year_unit "RESULTS.race" [("driver", VStr "x")] 2020))
       = Some (VStr (PyStr.of_Z y))
    /\ dict_get "season"
         (su_params (year_unit "RESULTS.race" [("driver", VStr "x")] 2020))
       = None
    /\ (forall k, k <> "year" -> k <> "season" ->
          dict_get k
            (su_params (year_unit "RESULTS.race" [("driver", VStr "x")] 2020))
          = dict_get k
              [("season", VList [SInt 2021; SInt 2019]); ("driver", VStr "x")]).
Proof.
  refine (X6_year_unit_params 2026
            (mkReq "RESULTS.race"
               [("season", VList [SInt 2021; SInt 2019]); ("driver", VStr "x")])
            _ (year_unit "RESULTS.race" [("driver", VStr "x")] 2020) _ _).
  - reflexivity.
  - simpl. right. left. reflexivity.
Defined.

(** X7: a "since" year that lies after the current year gives an
    empty range: [process] then answers with success false, no data,
    no error message and [years_processed] 0, having built, fetched
    and slept on nothing. *)
Theorem X7_since_future_year (w : world) (r : Requirements) (z : Z) :
  PyVal.is_list (dict_get "year" (params r)) = false ->
  PyVal.is_list (dict_get "season" (params r)) = false ->
  PyStr.contains "since" (PyVal.py_str (get_or_empty "year" (params r))) = true ->
  PyStr.to_Z (PyStr.strip (PyStr.split_last "since"
                (PyVal.py_str (get_or_empty "year" (params r))))) = Some z ->
  z <> 0%Z ->
  (current_year w < z)%Z ->
  process w r
  = ([], Ret (mkResp false None None
                [("query_type", MStr "historical");
                 ("years_processed", MInt 0);
                 ("timestamp", MStr (timestamp w))])).
Proof.
  intros Hy Hs Hsince Hz Hz0 Hlt.
  unfold process. rewrite (since_is_historical r Hsince).
  unfold _process_historical, split_historical.
  rewrite (time_range_text _ _ Hy Hs). cbv zeta.
  rewrite Hsince. unfold PyVal.py_int. rewrite Hz. cbn [obind].
  unfold default_start. destruct (Z.eqb_spec z 0); [contradiction|].
  rewrite int_range_empty by lia. reflexivity.
Qed.

Lemma X7_since_future_year_witness :
  process (mkWorld 2026 "2026-03-01T09:30:00" (fun _ => serving_env))
          (mkReq "RESULTS.race" [("year", VStr "since 2030")])
  = ([], Ret (mkResp false None None
                [("query_type", MStr "historical");
                 ("years_processed", MInt 0);
                 ("timestamp", MStr "2026-03-01T09:30:00")])).
Proof.
  refine (X7_since_future_year
            (mkWorld 2026 "2026-03-01T09:30:00" (fun _ => serving_env))
            (mkReq "RESULTS.race" [("year", VStr "since 2030")]) 2030
            _ _ _ _ _ _); try reflexivity.
  discriminate.
Defined.

(* ================================================================== *)
(** * Further properties of the normalizer *)
(* ================================================================== *)

Section NormalizerMore.

Lemma fold_normalize_no_none (p acc : dict) :
  Forall (fun kv : string * value => snd kv <> VNone) acc ->
  Forall (fun kv => snd kv <> VNone) (fold_left normalize_step p acc).
Proof.
  revert acc. induction p as [|[k v] r IH]; simpl; intros acc Ha; [exact Ha|].
  apply IH. destruct (skipped v) eqn:E; [exact Ha|].
  apply dict_set_Forall; [|exact Ha]. simpl.
  destruct v as [[]|]; simpl in *; discriminate.
Qed.

(** How the loop treats a key other than [year] and [season]. *)
Lemma fold_normalize_lookup (k : string) (p : dict) :
  k <> "season" -> k <> "year" ->
  forall acc,
    NoDup (dict_keys p) ->
    dict_get k (fold_left normalize_step p acc)
    = match dict_get k p with
      | Some v => if skipped v then dict_get k acc
                  else Some (normalize_value k v)
      | None => dict_get k acc
      end.
Proof.
  intros Hs Hy. induction p as [|[k0 v0] r IH]; intros acc Hn;
    [reflexivity|].
  unfold dict_keys in Hn. simpl in Hn. inversion Hn as [|? ? Hk0 Hr]; subst.
  cbn [fold_left dict_get]. rewrite (IH _ Hr).
  destruct (String.eqb_spec k0 k) as [->|N].
  - rewrite (dict_get_fresh k r Hk0). unfold normalize_step.
    destruct (skipped v0); [reflexivity|].
    destruct (String.eqb_spec k "season"); [contradiction|].
    apply dict_get_set_same.
  - assert (dict_get k (normalize_step acc (k0, v0)) = dict_get k acc) as E.
    { unfold normalize_step. destruct (skipped v0); [reflexivity|].
      apply dict_get_set_other.
      destruct (String.eqb_spec k0 "season"); congruence. }
    now rewrite E.
Qed.

(** How the loop fills [year]. *)
Lemma fold_normalize_year (p : dict) :
  forall acc found,
    dict_get "year" acc = option_map (normalize_value "year") found ->
    dict_get "year" (fold_left normalize_step p acc)
    = option_map (normalize_value "year")
        (fold_left
           (fun found kv =>
              if (String.eqb (fst kv) "year" || String.eqb (fst kv) "season")
                 && negb (skipped (snd kv))
              then Some (snd kv) else found)
           p found).
Proof.
  induction p as [|[k v] r IH]; intros acc found H; [exact H|].
  cbn [fold_left]. apply IH. unfold normalize_step. cbn [fst snd].
  destruct (skipped v); cbn [negb]; [now rewrite andb_false_r|].
  rewrite andb_true_r.
  destruct (String.eqb_spec k "season") as [->|Ns].
  - simpl. apply dict_get_set_same.
  - rewrite orb_false_r. destruct (String.eqb_spec k "year") as [->|Ny].
    + apply dict_get_set_same.
    + now rewrite dict_get_set_other by congruence.
Qed.

Lemma normalize_year_last (p : dict) :
  dict_get "year" (_normalize_params p)
  = option_map (normalize_value "year") (last_year_value p).
Proof.
  unfold _normalize_params, last_year_value.
  destruct p as [|kv r] eqn:E; [reflexivity|]. rewrite <- E.
  now apply fold_normalize_year.
Qed.

Lemma last_year_other_keys (q : dict) (found : option value) :
  Forall (fun kv => not_year_key kv = true) q ->
  fold_left
    (fun found kv =>
       if (String.eqb (fst kv) "year" || String.eqb (fst kv) "season")
          && negb (skipped (snd kv))
       then Some (snd kv) else found)
    q found
  = found.
Proof.
  intros H. revert found. induction H as [|kv r Hkv _ IH]; intros found;
    [reflexivity|].
  cbn [fold_left]. unfold not_year_key in Hkv.
  apply negb_true_iff in Hkv. rewrite Hkv. cbn [andb]. apply IH.
Qed.

Lemma normalize_all_skipped (p : dict) :
  Forall (fun kv => skipped (snd kv) = true) p -> _normalize_params p = [].
Proof.
  intros H. unfold _normalize_params. destruct p as [|kv0 r0]; [reflexivity|].
  assert (forall q acc, Forall (fun kv : string * value => skipped (snd kv) = true) q ->
            fold_left normalize_step q acc = acc) as Hfold.
  { induction q as [|[k v] r IH]; intros acc Hq; [reflexivity|].
    inversion Hq as [|? ? Hv Hr]; subst. simpl in Hv.
    cbn [fold_left]. unfold normalize_step at 2. rewrite Hv. now apply IH. }
  now apply Hfold.
Qed.

Lemma driver_no_blank (s : string) :
  PyStr.contains " " (normalize_str "driver" s) = false.
Proof.
  unfold normalize_str. simpl String.eqb.
  induction s as [|c r IH]; [reflexivity|].
  cbn [PyStr.lower PyStr.replace_char PyStr.contains].
  rewrite IH, orb_false_r.
  destruct (driver_char_fixed c) as [_ H2]. cbv zeta in H2.
  cbn [prefix].
  destruct (ascii_dec " "
              (if Ascii.eqb (PyStr.lower_char c) " " then "_"%char
               else PyStr.lower_char c)) as [E|_]; [|reflexivity].
  rewrite <- E in H2. discriminate.
Qed.

End NormalizerMore.

(** X8: whatever the input, the normalized mapping has pairwise
    distinct keys, no [season] key and no [None] value, and each of
    its values is in normal form for its key. *)
Theorem X8_normalized_shape (p : dict) :
  NoDup (dict_keys (_normalize_params p))
  /\ dict_get "season" (_normalize_params p) = None
  /\ Forall (fun kv => snd kv <> VNone
                       /\ normalize_value (fst kv) (snd kv) = snd kv)
            (_normalize_params p).
Proof.
  destruct (normalize_canonical p) as [Hn Hs].
  assert (Forall (fun kv => snd kv <> VNone) (_normalize_params p)) as Hnone.
  { unfold _normalize_params. destruct p; [constructor|].
    apply fold_normalize_no_none. constructor. }
  split; [exact Hn|]. split.
  - apply dict_get_fresh. unfold dict_keys. intros Hin.
    apply in_map_iff in Hin. destruct Hin as (kv & Hk & Hin).
    rewrite Forall_forall in Hs. destruct (Hs kv Hin) as [Hne _]. congruence.
  - rewrite Forall_forall in *. intros kv Hin. split.
    + now apply Hnone.
    + now apply Hs.
Qed.

(** X9: on a mapping with distinct keys, a key other than [year] and
    [season] is dropped when its value is [None] or the empty string
    and otherwise keeps its value, normalized for that key; a key
    absent from the input is absent from the output. *)
Theorem X9_normalize_lookup (p : dict) (k : string) :
  NoDup (dict_keys p) ->
  k <> "season" -> k <> "year" ->
  dict_get k (_normalize_params p)
  = match dict_get k p with
    | Some v => if skipped v then None else Some (normalize_value k v)
    | None => None
    end.
Proof.
  intros Hn Hs Hy. unfold _normalize_params.
  destruct p as [|kv r] eqn:E; [reflexivity|]. rewrite <- E in *.
  now rewrite (fold_normalize_lookup k p Hs Hy [] Hn).
Qed.

Lemma X9_normalize_lookup_witness :
  dict_get "driver"
    (_normalize_params [("driver", VStr "Max Verstappen"); ("round", VStr "")])
  = match dict_get "driver"
            [("driver", VStr "Max Verstappen"); ("round", VStr "")] with
    | Some v => if skipped v then None else Some (normalize_value "driver" v)
    | None => None
    end.
Proof.
  refine (X9_normalize_lookup
            [("driver", VStr "Max Verstappen"); ("round", VStr "")] "driver"
            _ _ _).
  - repeat constructor; simpl; intuition discriminate.
  - discriminate.
  - discriminate.
Defined.

(** [season] is an alias of [year]: the output's [year] is the
    normalized value of the last pair, in the mapping's order, that is
    stored under [year] or [season] and is neither [None] nor the
    empty string; without such a pair the output has no [year]. *)
Lemma year_alias_last (p : dict) :
  dict_get "year" (_normalize_params p)
  = option_map (normalize_value "year") (last_year_value p).
Proof. apply normalize_year_last. Qed.

(** X11: when the mapping holds both [year] and [season], the one
    that comes later decides the output's [year], provided its value
    is neither [None] nor the empty string. *)
Theorem X11_later_alias_wins (a b c : dict) (k1 k2 : string) (v1 v2 : value) :
  Forall (fun kv => not_year_key kv = true) (a ++ b ++ c)%list ->
  k1 = "year" \/ k1 = "season" ->
  k2 = "year" \/ k2 = "season" ->
  skipped v2 = false ->
  dict_get "year"
    (_normalize_params (a ++ (k1, v1) :: b ++ (k2, v2) :: c)%list)
  = Some (normalize_value "year" v2).
Proof.
  intros Hother _ Hk2 Hv2. rewrite normalize_year_last.
  unfold last_year_value.
  apply Forall_app in Hother. destruct Hother as [_ Hbc].
  apply Forall_app in Hbc. destruct Hbc as [_ Hc].
  rewrite fold_left_app. cbn [fold_left].
  rewrite fold_left_app. cbn [fold_left fst snd].
  rewrite Hv2. cbn [negb]. rewrite andb_true_r.
  assert (String.eqb k2 "year" || String.eqb k2 "season" = true) as ->
    by (destruct Hk2 as [-> | ->]; reflexivity).
  now rewrite (last_year_other_keys c _ Hc).
Qed.

Lemma X11_later_alias_wins_witness :
  dict_get "year"
    (_normalize_params
       ([("driver", VStr "x")] ++ ("year", VStr "2020") :: []
          ++ ("season", VStr " 2019 ") :: [("round", VInt 3)])%list)
  = Some (normalize_value "year" (VStr " 2019 ")).
Proof.
  refine (X11_later_alias_wins [("driver", VStr "x")] [] [("round", VInt 3)]
            "year" "season" (VStr "2020") (VStr " 2019 ") _ _ _ _).
  - repeat constructor.
  - now left.
  - now right.
  - reflexivity.
Defined.

(** X10: a driver name comes out without any blank, and unchanged by
    a further lower-casing. *)
Theorem X10_driver_name (s : string) :
  PyStr.contains " " (normalize_str "driver" s) = false
  /\ PyStr.lower (normalize_str "driver" s) = normalize_str "driver" s.
Proof.
  split; [apply driver_no_blank|].
  - unfold normalize_str. simpl String.eqb.
    induction s as [|c r IH]; [reflexivity|].
    cbn [PyStr.lower PyStr.replace_char].
    destruct (driver_char_fixed c) as [H1 _]. cbv zeta in H1.
    now rewrite H1, IH.
Qed.

(* ================================================================== *)
(** * Further properties of the single-unit dispatcher *)
(* ================================================================== *)

Section DispatcherMore.

Lemma sleeps_app (t1 t2 : list event) :
  sleeps (t1 ++ t2) = (sleeps t1 ++ sleeps t2)%list.
Proof.
  induction t1 as [|ev r IH]; simpl; [reflexivity|].
  destruct ev; simpl; now rewrite IH.
Qed.

Lemma sleeps_segment (ep : string) (args : dict) (a : nat) (f : option string) :
  sleeps (segment ep args a f) = [].
Proof. now destruct f. Qed.

Lemma fetch_count_app (t1 t2 : list event) :
  fetch_count (t1 ++ t2) = (fetch_count t1 + fetch_count t2)%nat.
Proof. unfold fetch_count. now rewrite filter_app, length_app. Qed.

Lemma fetch_count_segment (ep : string) (args : dict) (a : nat)
    (f : option string) :
  (fetch_count (segment ep args a f) <= 1)%nat.
Proof. destruct f; unfold fetch_count; simpl; lia. Qed.

(** A retried attempt sleeps its backoff and goes on. *)
Lemma retried_attempt (e : env) (ep : string) (args : dict) (a : nat) :
  retried e ep args a -> (a < max_retries - 1)%nat ->
  exists f,
    attempt e ep args a
    = ((segment ep args a f ++ [EvSleep (backoff a)])%list, Ret None).
Proof.
  intros H Ha. apply Nat.ltb_lt in Ha.
  unfold attempt, attempt_body, attempt_handler, try_except, bind, call.
  destruct H as [[ex Hb] | (full & Hb & Hfull & Hf)]; rewrite Hb.
  - exists None. now rewrite Ha.
  - exists (Some full). rewrite Hfull.
    destruct Hf as [[ex Hf] | (ok & frame & err & Hf & Hno)]; rewrite Hf.
    + now rewrite Ha.
    + destruct Hno as [-> | ->].
      * now rewrite Ha.
      * destruct ok; now rewrite Ha.
Qed.

Lemma process_single_dispatchable (e : env) (r : Requirements) :
  dispatchable r ->
  _process_single e (Some r)
  = retry_loop e (endpoint r) (_normalize_params (params r))
      (seq 0 max_retries).
Proof.
  intros [Hep Hargs]. unfold _process_single.
  destruct (endpoint r); [contradiction|].
  destruct (_normalize_params (params r)); [contradiction|]. reflexivity.
Qed.

(** The first attempt that is not retried decides the result; the
    backoff sleeps of the earlier attempts precede it. *)
Lemma loop_decided (e : env) (ep : string) (args : dict) (a : nat)
    (t : list event) (u : UnitResult) :
  (a < max_retries)%nat ->
  (forall i, (i < a)%nat -> retried e ep args i) ->
  attempt e ep args a = (t, Ret (Some u)) ->
  result (retry_loop e ep args (seq 0 max_retries)) = Ret u
  /\ sleeps (trace (retry_loop e ep args (seq 0 max_retries)))
     = (map backoff (seq 0 a) ++ sleeps t)%list
  /\ (fetch_count (trace (retry_loop e ep args (seq 0 max_retries)))
      <= a + fetch_count t)%nat.
Proof.
  intros Ha Hret Hatt. unfold max_retries in *. cbn [seq].
  destruct a as [|[|[|a]]]; try lia.
  - rewrite retry_loop_unfold, Hatt. unfold bind, ret, trace, result.
    cbn [fst snd]. rewrite app_nil_r. repeat split. lia.
  - destruct (retried_attempt e ep args 0 (Hret 0%nat ltac:(lia)))
      as [f0 E0]; [unfold max_retries; lia|].
    rewrite retry_loop_unfold, E0. unfold bind at 1.
    rewrite retry_loop_unfold, Hatt. unfold bind, ret, trace, result.
    cbn [fst snd]. rewrite app_nil_r.
    rewrite !sleeps_app, sleeps_segment, !fetch_count_app.
    pose proof (fetch_count_segment ep args 0 f0).
    split; [reflexivity|]. split; [reflexivity|].
    change (fetch_count [EvSleep (backoff 0)]) with 0%nat. lia.
  - destruct (retried_attempt e ep args 0 (Hret 0%nat ltac:(lia)))
      as [f0 E0]; [unfold max_retries; lia|].
    destruct (retried_attempt e ep args 1 (Hret 1%nat ltac:(lia)))
      as [f1 E1]; [unfold max_retries; lia|].
    rewrite retry_loop_unfold, E0. unfold bind at 1.
    rewrite retry_loop_unfold, E1. unfold bind at 1.
    rewrite retry_loop_unfold, Hatt. unfold bind, ret, trace, result.
    cbn [fst snd]. rewrite app_nil_r.
    rewrite !sleeps_app, !sleeps_segment, !fetch_count_app.
    pose proof (fetch_count_segment ep args 0 f0).
    pose proof (fetch_count_segment ep args 1 f1).
    split; [reflexivity|]. split; [reflexivity|].
    change (fetch_count [EvSleep (backoff 0)]) with 0%nat.
    change (fetch_count [EvSleep (backoff 1)]) with 0%nat. lia.
Qed.

(** An attempt is either retried, which only an attempt before the
    last can be, or it returns a result, and then for one of the
    causes of [verdict]. *)
Lemma attempt_outcome (e : env) (ep : string) (args : dict) (a : nat) :
  (a < max_retries)%nat ->
  (retried e ep args a /\ (a < max_retries - 1)%nat)
  \/ (exists t u,
        attempt e ep args a = (t, Ret (Some u)) /\ verdict e ep args a u).
Proof.
  intros Ha.
  assert (Hlast : (a <? max_retries - 1)%nat = false -> last_attempt a).
  { intros H. apply Nat.ltb_ge in H.
    unfold last_attempt, max_retries in *. lia. }
  unfold attempt, attempt_body, attempt_handler, try_except, bind, call.
  destruct (build_endpoint e a ep args) as [[full|]|ex] eqn:Hb.
  - destruct (PyStr.is_empty full) eqn:Efull.
    + right. do 2 eexists. split; [reflexivity|].
      apply v_build_failed; [|repeat split].
      right. rewrite Hb. destruct full; [reflexivity|discriminate].
    + unfold ret.
      destruct (fetch_f1_data e a full args) as [[ty|ok frame err]|ex] eqn:Hf.
      * right. do 2 eexists. split; [reflexivity|].
        apply (v_response_type e ep args a _ full ty Hb Efull Hf).
        repeat split.
      * assert (Hserved :
          (exists df, ok = true /\ frame = Some df)
          \/ (ok = false \/ frame = None)).
        { destruct ok; [destruct frame as [df|]|]; eauto. }
        destruct Hserved as [(df & -> & ->) | Hno].
        -- right. do 2 eexists. split; [reflexivity|].
           now apply (v_data_fetched e ep args a _ full df err Hb Efull Hf).
        -- destruct (a <? max_retries - 1)%nat eqn:Ea.
           ++ left. split; [|now apply Nat.ltb_lt].
              right. exists full. split; [exact Hb|]. split; [exact Efull|].
              right. now exists ok, frame, err.
           ++ right.
              exists [EvBuild a ep args; EvFetch a full args],
                     (failure (error_or_default err)
                        [("endpoint", MStr full); ("params", MParams args);
                         ("timestamp", MStr (now_iso e));
                         ("attempt", attempt_no a)]).
              split.
              ** destruct Hno as [-> | ->]; [|destruct ok]; reflexivity.
              ** apply (v_no_data e ep args a _ full ok frame err
                          (Hlast eq_refl) Hb Efull Hf Hno).
                 repeat split.
      * destruct (a <? max_retries - 1)%nat eqn:Ea.
        -- left. split; [|now apply Nat.ltb_lt].
           right. exists full. split; [exact Hb|]. split; [exact Efull|].
           left. now exists ex.
        -- right. do 2 eexists. split; [reflexivity|].
           apply (v_raised e ep args a _ ex (Hlast eq_refl));
             [|repeat split].
           right. now exists full.
  - right. do 2 eexists. split; [reflexivity|].
    apply v_build_failed; [|repeat split]. now left.
  - destruct (a <? max_retries - 1)%nat eqn:Ea.
    + left. split; [|now apply Nat.ltb_lt]. left. now exists ex.
    + right. do 2 eexists. split; [reflexivity|].
      apply (v_raised e ep args a _ ex (Hlast eq_refl)); [|repeat split].
      now left.
Qed.

(** A request either fails the validation or is dispatchable. *)
Lemma validation_cases (r : Requirements) :
  (PyStr.is_empty (endpoint r)
   || match _normalize_params (params r) with [] => true | _ => false end
   = true
   /\ (endpoint r = EmptyString \/ _normalize_params (params r) = []))
  \/ dispatchable r.
Proof.
  unfold dispatchable.
  destruct (endpoint r) as [|c ep]; [left; split; [reflexivity|now left]|].
  destruct (_normalize_params (params r)) as [|kv args];
    [left; split; [reflexivity|now right]|].
  right. split; discriminate.
Qed.

End DispatcherMore.


(** X12: a request with an empty endpoint, or whose parameter values
    are all [None] or empty strings (an empty mapping included), is
    answered "Missing required parameters" before anything is built,
    fetched or slept on. *)
Theorem X12_missing_parameters (e : env) (r : Requirements) :
  endpoint r = ""
  \/ Forall (fun kv => skipped (snd kv) = true) (params r) ->
  _process_single e (Some r)
  = ([], Ret (failure "Missing required parameters"
                [("timestamp", MStr (now_iso e))])).
Proof.
  intros H. unfold _process_single.
  destruct H as [-> | H]; [reflexivity|].
  rewrite (normalize_all_skipped _ H). now rewrite orb_true_r.
Qed.

Lemma X12_missing_parameters_witness :
  _process_single serving_env
    (Some (mkReq "RESULTS.race" [("year", VNone); ("driver", VStr "")]))
  = ([], Ret (failure "Missing required parameters"
                [("timestamp", MStr "2024-05-01T12:00:00")])).
Proof.
  refine (X12_missing_parameters serving_env
            (mkReq "RESULTS.race" [("year", VNone); ("driver", VStr "")]) _).
  right. repeat constructor.
Defined.

(** X13: when the attempts before attempt [a] are retried and attempt
    [a] builds an endpoint and fetches a frame with success, the
    dispatch succeeds with that frame, records the built endpoint,
    [attempt = a + 1] and [rows = len(df)], has slept the backoffs of
    the [a] earlier attempts only, and has fetched at most [a + 1]
    times. *)
Theorem X13_success_after_retries (e : env) (r : Requirements) (a : nat)
    (full : string) (df : DataFrame) (err : option string) :
  dispatchable r ->
  (a < 3)%nat ->
  (forall i, (i < a)%nat ->
     retried e (endpoint r) (_normalize_params (params r)) i) ->
  build_endpoint e a (endpoint r) (_normalize_params (params r))
  = Ret (Some full) ->
  full <> "" ->
  fetch_f1_data e a full (_normalize_params (params r))
  = Ret (RespDict true (Some df) err) ->
  result (_process_single e (Some r))
  = Ret (mkUnit true (Some df) None
           [("endpoint", MStr full);
            ("params", MParams (_normalize_params (params r)));
            ("timestamp", MStr (now_iso e));
            ("attempt", MInt (Z.of_nat (a + 1)));
            ("rows", MInt (Z.of_nat (DF.len df)))])
  /\ sleeps (trace (_process_single e (Some r))) = map backoff (seq 0 a)
  /\ (fetch_count (trace (_process_single e (Some r))) <= a + 1)%nat.
Proof.
  intros Hd Ha Hret Hb Hfull Hf. rewrite (process_single_dispatchable e r Hd).
  destruct (loop_decided e (endpoint r) (_normalize_params (params r)) a
              [EvBuild a (endpoint r) (_normalize_params (params r));
               EvFetch a full (_normalize_params (params r))]
              (mkUnit true (Some df) None
                 [("endpoint", MStr full);
                  ("params", MParams (_normalize_params (params r)));
                  ("timestamp", MStr (now_iso e));
                  ("attempt", MInt (Z.of_nat (a + 1)));
                  ("rows", MInt (Z.of_nat (DF.len df)))]) Ha Hret)
    as (Hres & Hsl & Hfc).
  - unfold attempt, attempt_body, try_except, bind, call. rewrite Hb.
    destruct full; [contradiction|]. cbn [PyStr.is_empty]. now rewrite Hf.
  - split; [exact Hres|]. split.
    + rewrite Hsl. cbn [sleeps]. apply app_nil_r.
    + exact Hfc.
Qed.

Lemma X13_success_after_retries_witness :
  result (_process_single flaky_env (Some race_2021))
  = Ret (mkUnit true (Some sample_frame) None
           [("endpoint", MStr "https://api.example/f1/2021/results");
            ("params", MParams (_normalize_params (params race_2021)));
            ("timestamp", MStr (now_iso flaky_env));
            ("attempt", MInt (Z.of_nat (1 + 1)));
            ("rows", MInt (Z.of_nat (DF.len sample_frame)))])
  /\ sleeps (trace (_process_single flaky_env (Some race_2021)))
     = map backoff (seq 0 1)
  /\ (fetch_count (trace (_process_single flaky_env (Some race_2021)))
      <= 1 + 1)%nat.
Proof.
  refine (X13_success_after_retries flaky_env race_2021 1
            "https://api.example/f1/2021/results" sample_frame None
            _ _ _ _ _ _).
  - split; discriminate.
  - lia.
  - intros i Hi. assert (i = 0%nat) as -> by lia.
    right. exists "https://api.example/f1/2021/results".
    split; [reflexivity|]. split; [reflexivity|]. right.
    exists false, None, (Some "busy"). split; [reflexivity | now left].
  - reflexivity.
  - discriminate.
  - reflexivity.
Defined.

(** X14: an endpoint that cannot be built ends the dispatch at once:
    when attempt [a] (the earlier ones having been retried) gets
    [None] or an empty string from the builder, the result is "Failed
    to build endpoint" with the logical endpoint and the parameters in
    the metadata; that attempt neither fetches nor sleeps. *)
Theorem X14_build_failure_not_retried (e : env) (r : Requirements) (a : nat) :
  dispatchable r ->
  (a < 3)%nat ->
  (forall i, (i < a)%nat ->
     retried e (endpoint r) (_normalize_params (params r)) i) ->
  build_endpoint e a (endpoint r) (_normalize_params (params r)) = Ret None
  \/ build_endpoint e a (endpoint r) (_normalize_params (params r))
     = Ret (Some "") ->
  result (_process_single e (Some r))
  = Ret (failure "Failed to build endpoint"
           [("endpoint", MStr (endpoint r));
            ("params", MParams (_normalize_params (params r)));
            ("timestamp", MStr (now_iso e))])
  /\ sleeps (trace (_process_single e (Some r))) = map backoff (seq 0 a)
  /\ (fetch_count (trace (_process_single e (Some r))) <= a)%nat.
Proof.
  intros Hd Ha Hret Hb. rewrite (process_single_dispatchable e r Hd).
  destruct (loop_decided e (endpoint r) (_normalize_params (params r)) a
              [EvBuild a (endpoint r) (_normalize_params (params r))]
              (failure "Failed to build endpoint"
                 [("endpoint", MStr (endpoint r));
                  ("params", MParams (_normalize_params (params r)));
                  ("timestamp", MStr (now_iso e))]) Ha Hret)
    as (Hres & Hsl & Hfc).
  - unfold attempt, attempt_body, try_except, bind, call.
    destruct Hb as [-> | ->]; reflexivity.
  - split; [exact Hres|]. split.
    + rewrite Hsl. cbn [sleeps]. apply app_nil_r.
    + change (fetch_count
                [EvBuild a (endpoint r) (_normalize_params (params r))])
        with 0%nat in Hfc.
      lia.
Qed.

Lemma X14_build_failure_not_retried_witness :
  result (_process_single unbuildable_env (Some race_2021))
  = Ret (failure "Failed to build endpoint"
           [("endpoint", MStr (endpoint race_2021));
            ("params", MParams (_normalize_params (params race_2021)));
            ("timestamp", MStr (now_iso unbuildable_env))])
  /\ sleeps (trace (_process_single unbuildable_env (Some race_2021)))
     = map backoff (seq 0 0)
  /\ (fetch_count (trace (_process_single unbuildable_env (Some race_2021)))
      <= 0)%nat.
Proof.
  refine (X14_build_failure_not_retried unbuildable_env race_2021 0 _ _ _ _).
  - split; discriminate.
  - lia.
  - intros i Hi. lia.
  - left. reflexivity.
Defined.

(** X15: a fetch that hands back something other than a mapping ends
    the dispatch at once: the result is "Invalid response type: "
    followed by the type, with the attempt number in the metadata,
    and no sleep follows that attempt. *)
Theorem X15_invalid_response_not_retried (e : env) (r : Requirements)
    (a : nat) (full ty : string) :
  dispatchable r ->
  (a < 3)%nat ->
  (forall i, (i < a)%nat ->
     retried e (endpoint r) (_normalize_params (params r)) i) ->
  build_endpoint e a (endpoint r) (_normalize_params (params r))
  = Ret (Some full) ->
  full <> "" ->
  fetch_f1_data e a full (_normalize_params (params r)) = Ret (NotADict ty) ->
  result (_process_single e (Some r))
  = Ret (failure ("Invalid response type: " ++ ty)
           [("endpoint", MStr full);
            ("params", MParams (_normalize_params (params r)));
            ("timestamp", MStr (now_iso e));
            ("attempt", MInt (Z.of_nat (a + 1)))])
  /\ sleeps (trace (_process_single e (Some r))) = map backoff (seq 0 a).
Proof.
  intros Hd Ha Hret Hb Hfull Hf. rewrite (process_single_dispatchable e r Hd).
  destruct (loop_decided e (endpoint r) (_normalize_params (params r)) a
              [EvBuild a (endpoint r) (_normalize_params (params r));
               EvFetch a full (_normalize_params (params r))]
              (failure ("Invalid response type: " ++ ty)
                 [("endpoint", MStr full);
                  ("params", MParams (_normalize_params (params r)));
                  ("timestamp", MStr (now_iso e));
                  ("attempt", MInt (Z.of_nat (a + 1)))]) Ha Hret)
    as (Hres & Hsl & _).
  - unfold attempt, attempt_body, try_except, bind, call. rewrite Hb.
    destruct full; [contradiction|]. cbn [PyStr.is_empty]. now rewrite Hf.
  - split; [exact Hres|]. rewrite Hsl. cbn [sleeps]. apply app_nil_r.
Qed.

Lemma X15_invalid_response_not_retried_witness :
  result (_process_single garbled_env (Some race_2021))
  = Ret (failure ("Invalid response type: " ++ "<class 'str'>")
           [("endpoint", MStr "https://api.example/f1/2021/results");
            ("params", MParams (_normalize_params (params race_2021)));
            ("timestamp", MStr (now_iso garbled_env));
            ("attempt", MInt (Z.of_nat (0 + 1)))])
  /\ sleeps (trace (_process_single garbled_env (Some race_2021)))
     = map backoff (seq 0 0).
Proof.
  refine (X15_invalid_response_not_retried garbled_env race_2021 0
            "https://api.example/f1/2021/results" "<class 'str'>"
            _ _ _ _ _ _).
  - split; discriminate.
  - lia.
  - intros i Hi. lia.
  - reflexivity.
  - discriminate.
  - reflexivity.
Defined.

(** X16: when the first two attempts are retried and the third one
    raises, in the builder or in the fetch, the dispatch returns
    "Processing error: " followed by that last exception's text, with
    [attempt = 3] and the exception's type name in the metadata, after
    the sleeps 1.0 and 2.0; the exception does not escape. *)
Theorem X16_last_exception_reported (e : env) (r : Requirements) (ex : exn) :
  dispatchable r ->
  (forall i, (i < 2)%nat ->
     retried e (endpoint r) (_normalize_params (params r)) i) ->
  build_endpoint e 2 (endpoint r) (_normalize_params (params r)) = Raise ex
  \/ (exists full,
        build_endpoint e 2 (endpoint r) (_normalize_params (params r))
        = Ret (Some full)
        /\ full <> ""
        /\ fetch_f1_data e 2 full (_normalize_params (params r)) = Raise ex) ->
  result (_process_single e (Some r))
  = Ret (failure ("Processing error: " ++ exn_msg ex)
           [("endpoint", MStr (endpoint r));
            ("timestamp", MStr (now_iso e));
            ("attempt", MInt 3);
            ("error_type", MStr (exn_type ex))])
  /\ sleeps (trace (_process_single e (Some r))) = [1%float; 2%float].
Proof.
  intros Hd Hret Hraise. rewrite (process_single_dispatchable e r Hd).
  assert (exists t,
             attempt e (endpoint r) (_normalize_params (params r)) 2
             = (t, Ret (Some (failure ("Processing error: " ++ exn_msg ex)
                                [("endpoint", MStr (endpoint r));
                                 ("timestamp", MStr (now_iso e));
                                 ("attempt", MInt 3);
                                 ("error_type", MStr (exn_type ex))])))
             /\ sleeps t = []) as (t & Hatt & Ht).
  { unfold attempt, attempt_body, attempt_handler, try_except, bind, call.
    destruct Hraise as [Hb | (full & Hb & Hfull & Hf)]; rewrite Hb.
    - eexists. split; reflexivity.
    - destruct full; [contradiction|]. cbn [PyStr.is_empty]. rewrite Hf.
      eexists. split; reflexivity. }
  destruct (loop_decided e (endpoint r) (_normalize_params (params r)) 2
              t _ ltac:(unfold max_retries; lia) Hret Hatt)
    as (Hres & Hsl & _).
  split; [exact Hres|]. rewrite Hsl, Ht. reflexivity.
Qed.

Lemma X16_last_exception_reported_witness :
  result (_process_single timeout_env (Some race_2021))
  = Ret (failure ("Processing error: "
                  ++ exn_msg (Exn "TimeoutError" "timed out, attempt 2"))
           [("endpoint", MStr (endpoint race_2021));
            ("timestamp", MStr (now_iso timeout_env));
            ("attempt", MInt 3);
            ("error_type",
             MStr (exn_type (Exn "TimeoutError" "timed out, attempt 2")))])
  /\ sleeps (trace (_process_single timeout_env (Some race_2021)))
     = [1%float; 2%float].
Proof.
  refine (X16_last_exception_reported timeout_env race_2021
            (Exn "TimeoutError" "timed out, attempt 2") _ _ _).
  - split; discriminate.
  - intros i Hi. right. exists "https://api.example/f1/2021/results".
    split; [reflexivity|]. split; [reflexivity|]. left.
    eexists. reflexivity.
  - right. exists "https://api.example/f1/2021/results".
    split; [reflexivity|]. split; [discriminate | reflexivity].
Defined.

(** X17: when the first two attempts are retried and the third fetch
    again reports no success or no frame but carries a non-empty error
    text, that upstream text is the error of the result, in place of
    "No data retrieved". *)
Theorem X17_upstream_error_carried (e : env) (r : Requirements)
    (full msg : string) (ok : bool) (frame : option DataFrame) :
  dispatchable r ->
  (forall i, (i < 2)%nat ->
     retried e (endpoint r) (_normalize_params (params r)) i) ->
  build_endpoint e 2 (endpoint r) (_normalize_params (params r))
  = Ret (Some full) ->
  full <> "" ->
  fetch_f1_data e 2 full (_normalize_params (params r))
  = Ret (RespDict ok frame (Some msg)) ->
  ok = false \/ frame = None ->
  msg <> "" ->
  result (_process_single e (Some r))
  = Ret (failure msg
           [("endpoint", MStr full);
            ("params", MParams (_normalize_params (params r)));
            ("timestamp", MStr (now_iso e));
            ("attempt", MInt 3)]).
Proof.
  intros Hd Hret Hb Hfull Hf Hno Hmsg.
  rewrite (process_single_dispatchable e r Hd).
  assert (exists t,
             attempt e (endpoint r) (_normalize_params (params r)) 2
             = (t, Ret (Some (failure msg
                                [("endpoint", MStr full);
                                 ("params",
                                  MParams (_normalize_params (params r)));
                                 ("timestamp", MStr (now_iso e));
                                 ("attempt", MInt 3)]))))
    as (t & Hatt).
  { unfold attempt, attempt_body, try_except, bind, call. rewrite Hb.
    destruct full; [contradiction|]. cbn [PyStr.is_empty]. rewrite Hf.
    destruct msg; [contradiction|].
    destruct Hno as [-> | ->]; [|destruct ok]; eexists; reflexivity. }
  now destruct (loop_decided e (endpoint r) (_normalize_params (params r)) 2
                  t _ ltac:(unfold max_retries; lia) Hret Hatt)
    as (Hres & _).
Qed.

Lemma X17_upstream_error_carried_witness :
  result (_process_single refusing_env (Some race_2021))
  = Ret (failure "rate limited"
           [("endpoint", MStr "https://api.example/f1/2021/results");
            ("params", MParams (_normalize_params (params race_2021)));
            ("timestamp", MStr (now_iso refusing_env));
            ("attempt", MInt 3)]).
Proof.
  refine (X17_upstream_error_carried refusing_env race_2021
            "https://api.example/f1/2021/results" "rate limited" false None
            _ _ _ _ _ _ _).
  - split; discriminate.
  - intros i Hi. right. exists "https://api.example/f1/2021/results".
    split; [reflexivity|]. split; [reflexivity|]. right.
    exists false, None, (Some "rate limited"). split; [reflexivity | now left].
  - reflexivity.
  - discriminate.
  - reflexivity.
  - now left.
  - discriminate.
Defined.

Section DispatcherMetadata.

Lemma attempt_stamped (e : env) (ep : string) (args : dict) (a : nat)
    (t : list event) (u : UnitResult) :
  attempt e ep args a = (t, Ret (Some u)) -> stamped e u.
Proof.
  unfold attempt, attempt_body, attempt_handler, try_except, bind, call,
    sleep, ret.
  destruct (build_endpoint e a ep args) as [[full|]|ex].
  - destruct (PyStr.is_empty full).
    + intros [= _ <-]. split; reflexivity.
    + destruct (fetch_f1_data e a full args) as [[ty|ok frame err]|ex].
      * intros [= _ <-]. split; reflexivity.
      * destruct ok, frame as [df|];
          try (destruct (a <? max_retries - 1)%nat;
               [discriminate | intros [= _ <-]; split; reflexivity]).
        intros [= _ <-]. split; reflexivity.
      * destruct (a <? max_retries - 1)%nat;
          [discriminate | intros [= _ <-]; split; reflexivity].
  - intros [= _ <-]. split; reflexivity.
  - destruct (a <? max_retries - 1)%nat;
      [discriminate | intros [= _ <-]; split; reflexivity].
Qed.

Lemma retry_loop_stamped (e : env) (ep : string) (args : dict) :
  forall n a u, (a + S n = max_retries)%nat ->
    result (retry_loop e ep args (seq a (S n))) = Ret u -> stamped e u.
Proof.
  induction n as [|n IH]; intros a u Ha;
    cbn [seq]; rewrite retry_loop_unfold, result_bind;
    destruct (attempt_step e ep args a) as (f & r & E & Hcont & _);
    rewrite E; unfold result at 1; cbn [snd obind]; destruct r as [u'|].
  - intros [= <-]. eapply attempt_stamped. exact E.
  - specialize (Hcont eq_refl). unfold max_retries in *. lia.
  - intros [= <-]. eapply attempt_stamped. exact E.
  - apply (IH (S a)). lia.
Qed.

End DispatcherMetadata.

(** X18: every result of the dispatcher carries the clock reading
    under [timestamp], and none carries [max_retries]: the return that
    follows the retry loop ("Max retries exceeded") is never
    reached, since the third attempt always returns. *)
Theorem X18_result_metadata (e : env) (requirements : option Requirements)
    (u : UnitResult) :
  result (_process_single e requirements) = Ret u ->
  dict_get "timestamp" (u_metadata u) = Some (MStr (now_iso e))
  /\ dict_get "max_retries" (u_metadata u) = None.
Proof.
  unfold _process_single. destruct requirements as [r|].
  - destruct (PyStr.is_empty (endpoint r)
              || match _normalize_params (params r) with
                 | [] => true
                 | _ => false
                 end).
    + intros [= <-]. split; reflexivity.
    + apply (retry_loop_stamped e _ _ 2 0). reflexivity.
  - intros [= <-]. split; reflexivity.
Qed.

Lemma X18_result_metadata_witness :
  dict_get "timestamp"
    (u_metadata (failure "No data retrieved"
                   [("endpoint", MStr "https://api.example/f1/2021/results");
                    ("params", MParams [("year", VStr "2021")]);
                    ("timestamp", MStr "2024-05-01T12:00:00");
                    ("attempt", MInt 3)]))
  = Some (MStr (now_iso failing_env))
  /\ dict_get "max_retries"
       (u_metadata (failure "No data retrieved"
                      [("endpoint", MStr "https://api.example/f1/2021/results");
                       ("params", MParams [("year", VStr "2021")]);
                       ("timestamp", MStr "2024-05-01T12:00:00");
                       ("attempt", MInt 3)]))
     = None.
Proof.
  refine (X18_result_metadata failing_env (Some race_2021) _ _).
  reflexivity.
Defined.

(* ================================================================== *)
(** * Further properties of the batch executor *)
(* ================================================================== *)

Section BatchMore.

Lemma concat_batches (entities : list scalar) :
  forall n s,
    List.concat (map (batch_at entities)
                     (map (fun j => j * batch_size)%nat (seq s n)))
    = firstn (n * batch_size) (skipn (s * batch_size) entities).
Proof.
  induction n as [|n IH]; intros s; [reflexivity|].
  cbn [seq map List.concat]. rewrite IH. unfold batch_at.
  change (S n * batch_size)%nat with (batch_size + n * batch_size)%nat.
  rewrite firstn_add, skipn_skipn. reflexivity.
Qed.

Lemma batches_cover_all (entities : list scalar) :
  List.concat (map (batch_at entities) (batch_starts_of entities)) = entities.
Proof.
  unfold batch_starts_of. rewrite concat_batches. cbn [Nat.mul skipn].
  apply firstn_all2. apply total_batches_cover.
Qed.

Lemma total_batches_tight (entities : list scalar) :
  entities <> [] ->
  ((total_batches entities - 1) * batch_size < List.length entities)%nat.
Proof.
  intros H. unfold total_batches, batch_size.
  destruct entities as [|x l]; [contradiction|]. cbn [List.length].
  pose proof (Nat.div_mod_eq (S (List.length l) + 4 - 1) 4).
  pose proof (Nat.mod_upper_bound (S (List.length l) + 4 - 1) 4).
  lia.
Qed.

Lemma trace_bind {A B} (m : M A) (k : A -> M B) :
  trace (bind m k)
  = (trace m ++ match result m with
                | Ret a => trace (k a)
                | Raise _ => []
                end)%list.
Proof.
  destruct m as [t [a|ex]]; simpl.
  - now destruct (k a).
  - now rewrite app_nil_r.
Qed.

Lemma trace_try_except {A} (m : M A) (h : exn -> M A) :
  trace (try_except m h)
  = (trace m ++ match result m with
                | Ret _ => []
                | Raise ex => trace (h ex)
                end)%list.
Proof.
  destruct m as [t [a|ex]]; simpl.
  - now rewrite app_nil_r.
  - now destruct (h ex).
Qed.

(** The catch-all clause performs nothing. *)
Lemma process_trace (w : world) (r : Requirements) :
  trace (process w r)
  = trace (match classify r with
           | Historical => _process_historical w r
           | Career => _process_career w r
           | MultiEntity => _process_parallel w r
           | Single =>
               bind (_process_single (unit_env w 0) (Some r))
                    (fun u => ret (response_of_unit u))
           end).
Proof.
  unfold process. rewrite trace_try_except.
  destruct (result _); cbn [ret trace fst]; apply app_nil_r.
Qed.

Lemma process_single_fetches (e : env) (requirements : option Requirements) :
  (fetch_count (trace (_process_single e requirements)) <= 3)%nat.
Proof.
  destruct (process_single_schedule e requirements)
    as (ep & args & segs & u & Hlen & -> & _).
  unfold trace, fetch_count. cbn [fst].
  pose proof (schedule_fetches ep args segs 0). unfold max_retries in Hlen.
  lia.
Qed.

Lemma gather_fetches (w : world) (reqs : list Requirements) :
  forall i,
    (fetch_count (trace (gather (dispatch_all w i reqs)))
     <= 3 * List.length reqs)%nat.
Proof.
  unfold gather, trace. cbn [fst].
  induction reqs as [|r rest IH]; intros i; [cbn; lia|].
  cbn [dispatch_all map List.concat List.length].
  rewrite fetch_count_app.
  pose proof (process_single_fetches (unit_env w i) (Some r)) as H.
  unfold trace in H. specialize (IH (S i)). lia.
Qed.

Lemma run_batches_fetches (w : world) (ep : string) (base : dict)
    (ty : string) (entities : list scalar) (starts : list nat) :
  (fetch_count (trace (run_batches w ep base ty entities starts))
   <= 3 * List.length (List.concat (map (batch_at entities) starts)))%nat.
Proof.
  induction starts as [|i rest IH]; [cbn; lia|].
  cbn [run_batches map List.concat]. rewrite trace_bind, fetch_count_app.
  rewrite result_gather, trace_bind, fetch_count_app.
  destruct (result (run_batches w ep base ty entities rest)) as [later|ex].
  - unfold ret at 1. unfold trace at 3. cbn [fst].
    change (fetch_count []) with 0%nat.
    pose proof (gather_fetches w
                  (map (entity_request ep base ty)
                       (firstn batch_size (skipn i entities))) i) as H.
    rewrite length_map in H. rewrite length_app. unfold batch_at at 1. lia.
  - change (fetch_count []) with 0%nat.
    pose proof (gather_fetches w
                  (map (entity_request ep base ty)
                       (firstn batch_size (skipn i entities))) i) as H.
    rewrite length_map in H. rewrite length_app. unfold batch_at at 1. lia.
Qed.

Lemma dict_get_del_other {A} (k k' : string) (d : list (string * A)) :
  k <> k' -> dict_get k (dict_del k' d) = dict_get k d.
Proof.
  intros N. unfold dict_del. apply dict_get_filter_pass.
  intros v. simpl. destruct (String.eqb_spec k k'); [contradiction|].
  reflexivity.
Qed.

End BatchMore.

(** X19: the batches cut the entity list into consecutive slices:
    there are ceil(len / 4) of them, each holds between one and four
    entities, and put end to end they are the entity list, in order,
    with nothing lost or repeated. *)
Theorem X19_batches_partition (entities : list scalar) :
  List.concat (map (batch_at entities) (batch_starts_of entities)) = entities
  /\ Forall (fun i => (1 <= List.length (batch_at entities i) <= 4)%nat)
            (batch_starts_of entities)
  /\ (List.length entities <= 4 * List.length (batch_starts_of entities))%nat
  /\ (entities <> [] ->
      4 * (List.length (batch_starts_of entities) - 1)
      < List.length entities)%nat.
Proof.
  pose proof (total_batches_cover entities) as Hcover.
  split; [|split; [|split]]; unfold batch_starts_of.
  - apply batches_cover_all.
  - apply Forall_forall. intros i Hin. apply in_map_iff in Hin.
    destruct Hin as (j & <- & Hj). apply in_seq in Hj.
    unfold batch_at. rewrite length_firstn, length_skipn.
    assert (entities <> []) as Hne
      by (intros ->; unfold total_batches in Hj; cbn in Hj; lia).
    pose proof (total_batches_tight entities Hne).
    unfold batch_size in *. nia.
  - rewrite length_map, length_seq. unfold batch_size in Hcover. lia.
  - intros Hne. rewrite length_map, length_seq.
    pose proof (total_batches_tight entities Hne).
    unfold batch_size in *. lia.
Qed.

(** X20: batching does not show in the outcome: for a non-empty
    entity list the response is the merge of exactly one result per
    entity, the i-th being that of dispatching the i-th entity's
    request, in list order, however many batches there were. *)
Theorem X20_parallel_results_in_order (w : world) (r : Requirements)
    (x : scalar) (xs : list scalar) (ty : string) (base : dict) :
  select_entities (params r) = (x :: xs, Some ty, base) ->
  result (_process_parallel w r)
  = Ret (merge_parallel (timestamp w) ty (x :: xs)
           (unit_results w
              (map (entity_request (endpoint r) base ty) (x :: xs))))
  /\ List.length
       (unit_results w (map (entity_request (endpoint r) base ty) (x :: xs)))
     = List.length (x :: xs).
Proof.
  intros H. split.
  - rewrite process_parallel_result. now rewrite H.
  - now rewrite unit_results_length, length_map.
Qed.

Lemma X20_parallel_results_in_order_witness :
  let r := mkReq "DRIVERS.specific"
             [("driver", VList [SStr "a"; SStr "b"; SStr "c"; SStr "d"; SStr "e"]);
              ("year", VStr "2021")] in
  let xs := [SStr "b"; SStr "c"; SStr "d"; SStr "e"] in
  result (_process_parallel serving_world r)
  = Ret (merge_parallel (timestamp serving_world) "driver" (SStr "a" :: xs)
           (unit_results serving_world
              (map (entity_request (endpoint r) [("year", VStr "2021")] "driver")
                   (SStr "a" :: xs))))
  /\ List.length
       (unit_results serving_world
          (map (entity_request (endpoint r) [("year", VStr "2021")] "driver")
               (SStr "a" :: xs)))
     = List.length (SStr "a" :: xs).
Proof.
  cbv zeta.
  refine (X20_parallel_results_in_order serving_world
            (mkReq "DRIVERS.specific"
               [("driver", VList [SStr "a"; SStr "b"; SStr "c"; SStr "d"; SStr "e"]);
                ("year", VStr "2021")])
            (SStr "a") [SStr "b"; SStr "c"; SStr "d"; SStr "e"]
            "driver" [("year", VStr "2021")] _).
  reflexivity.
Defined.

(** X21: the entity list is taken from [driver] when that is a list,
    else from [constructor]; each entity's request carries that one
    entity under the list's key and every other parameter of the
    original request unchanged (a [constructor] list included when the
    entities are drivers). *)
Theorem X21_entity_request_params (r : Requirements) (entities : list scalar)
    (ty : string) (base : dict) (x : scalar) :
  select_entities (params r) = (entities, Some ty, base) ->
  dict_get ty (params r) = Some (VList entities)
  /\ (ty = "driver"
      \/ (ty = "constructor"
          /\ PyVal.is_list (dict_get "driver" (params r)) = false))
  /\ dict_get ty (params (entity_request (endpoint r) base ty x))
     = Some (VScalar x)
  /\ (forall k, k <> ty ->
        dict_get k (params (entity_request (endpoint r) base ty x))
        = dict_get k (params r)).
Proof.
  unfold select_entities, entity_request. cbn [params].
  destruct (dict_get "driver" (params r)) as [[s|l]|] eqn:Ed.
  - destruct (dict_get "constructor" (params r)) as [[s'|l']|] eqn:Ec;
      try discriminate.
    intros [= <- <- <-]. split; [exact Ec|].
    split; [right; split; reflexivity|].
    split; [apply dict_get_set_same|].
    intros k Hk. rewrite dict_get_set_other by exact Hk.
    now apply dict_get_del_other.
  - intros [= <- <- <-]. split; [exact Ed|]. split; [now left|].
    split; [apply dict_get_set_same|].
    intros k Hk. rewrite dict_get_set_other by exact Hk.
    now apply dict_get_del_other.
  - destruct (dict_get "constructor" (params r)) as [[s'|l']|] eqn:Ec;
      try discriminate.
    intros [= <- <- <-]. split; [exact Ec|].
    split; [right; split; reflexivity|].
    split; [apply dict_get_set_same|].
    intros k Hk. rewrite dict_get_set_other by exact Hk.
    now apply dict_get_del_other.
Qed.

Lemma X21_entity_request_params_witness :
  let r := mkReq "DRIVERS.specific"
             [("driver", VList [SStr "a"; SStr "b"]);
              ("constructor", VList [SStr "ferrari"])] in
  let base := [("constructor", VList [SStr "ferrari"])] in
  dict_get "driver" (params r) = Some (VList [SStr "a"; SStr "b"])
  /\ ("driver" = "driver"
      \/ ("driver" = "constructor"
          /\ PyVal.is_list (dict_get "driver" (params r)) = false))
  /\ dict_get "driver"
       (params (entity_request (endpoint r) base "driver" (SStr "b")))
     = Some (VScalar (SStr "b"))
  /\ (forall k, k <> "driver" ->
        dict_get k
          (params (entity_request (endpoint r) base "driver" (SStr "b")))
        = dict_get k (params r)).
Proof.
  cbv zeta.
  refine (X21_entity_request_params
            (mkReq "DRIVERS.specific"
               [("driver", VList [SStr "a"; SStr "b"]);
                ("constructor", VList [SStr "ferrari"])])
            [SStr "a"; SStr "b"] "driver"
            [("constructor", VList [SStr "ferrari"])] (SStr "b") _).
  reflexivity.
Defined.

(** X22: the load put on the upstream provider is bounded: a request
    causes at most three fetches per unit, that is at most 3 per year
    of a historical split, 12 for a career request, 3 per entity of a
    multi-entity request and 3 for a single request. *)
Theorem X22_fetch_bound (w : world) (r : Requirements) :
  match classify r with
  | Historical =>
      forall split_reqs,
        split_historical (current_year w) r = Ret split_reqs ->
        (fetch_count (trace (process w r)) <= 3 * List.length split_reqs)%nat
  | Career => (fetch_count (trace (process w r)) <= 12)%nat
  | MultiEntity =>
      (fetch_count (trace (process w r))
       <= 3 * List.length (fst (fst (select_entities (params r)))))%nat
  | Single => (fetch_count (trace (process w r)) <= 3)%nat
  end.
Proof.
  rewrite process_trace.
  destruct (classify r); [intros units Hs| | |].
  - unfold _process_historical. rewrite Hs.
    unfold lift, bind, gather, ret, trace. cbn [fst snd app].
    rewrite app_nil_r.
    pose proof (gather_fetches w (map unit_request units) 0) as H.
    unfold gather, trace in H. cbn [fst] in H.
    rewrite length_map in H. exact H.
  - unfold _process_career, bind, gather, ret, trace. cbn [fst snd].
    rewrite app_nil_r.
    pose proof (gather_fetches w (map unit_request (split_career r)) 0) as H.
    unfold gather, trace in H. cbn [fst] in H.
    rewrite length_map in H. exact H.
  - unfold _process_parallel.
    destruct (select_entities (params r)) as [[[|x xs] [ty|]] base];
      try (cbn; lia).
    cbn [fst]. rewrite trace_bind, fetch_count_app.
    pose proof (run_batches_fetches w (endpoint r) base ty (x :: xs)
                  (batch_starts_of (x :: xs))) as H.
    rewrite (batches_cover_all (x :: xs)) in H. unfold batch_starts_of in H.
    destruct (result (run_batches w (endpoint r) base ty (x :: xs)
                (map (fun j => (j * batch_size)%nat)
                     (seq 0 (total_batches (x :: xs))))));
      change (fetch_count _) with 0%nat at 2; lia.
  - rewrite trace_bind, fetch_count_app.
    pose proof (process_single_fetches (unit_env w 0) (Some r)) as H.
    destruct (result (_process_single (unit_env w 0) (Some r)));
      change (fetch_count _) with 0%nat at 2; lia.
Qed.

(* ================================================================== *)
(** * Further properties of the mergers *)
(* ================================================================== *)

Section MergeMore.

Lemma merge_step_errors (col : string) (what : scalar -> string)
    (st : merge_state) (tr : scalar * outcome UnitResult) :
  m_errors (merge_step col what st tr)
  = (m_errors st ++ unit_error what tr)%list.
Proof.
  destruct tr as [tag [u|ex]]; unfold merge_step, unit_error; simpl;
    [|reflexivity].
  destruct (u_success u); simpl; [|reflexivity].
  rewrite app_nil_r. destruct (u_data u) as [df|]; [|reflexivity].
  destruct (DF.empty df); simpl; [reflexivity|].
  now destruct (DF.empty (m_merged st)).
Qed.

Lemma merge_fold_errors (col : string) (what : scalar -> string)
    (tagged : list (scalar * outcome UnitResult)) :
  forall st,
    m_errors (fold_left (merge_step col what) tagged st)
    = (m_errors st ++ flat_map (unit_error what) tagged)%list.
Proof.
  induction tagged as [|tr rest IH]; intros st; simpl.
  - now rewrite app_nil_r.
  - now rewrite IH, merge_step_errors, <- app_assoc.
Qed.

Lemma unit_error_nil (what : scalar -> string)
    (tr : scalar * outcome UnitResult) :
  unit_error what tr = [] <-> succeeded (snd tr).
Proof.
  unfold unit_error, succeeded. destruct (snd tr) as [u|ex].
  - destruct (u_success u) eqn:S; split; try discriminate; eauto.
    intros (u' & [= <-] & S'). congruence.
  - split; [discriminate|]. intros (u' & E & _). discriminate.
Qed.

Lemma flat_map_nil {X Y} (f : X -> list Y) (l : list X) :
  flat_map f l = [] <-> Forall (fun x => f x = []) l.
Proof.
  induction l as [|x r IH]; simpl.
  - split; [constructor | reflexivity].
  - split.
    + intros H. apply app_eq_nil in H. destruct H as [Hx Hr].
      constructor; [exact Hx | now apply IH].
    + intros H. inversion H as [|? ? Hx Hr]; subst.
      rewrite Hx. now apply IH.
Qed.

Lemma joined_errors_none (errors : list string) :
  joined_errors errors = None <-> errors = [].
Proof. destruct errors; simpl; split; congruence. Qed.

(** The error text of a row-concatenation response. *)
Lemma rows_response_error (col : string) (what : scalar -> string)
    (tagged : list (scalar * outcome UnitResult)) (meta : metadata_dict) :
  error (rows_response (merge_rows col what tagged) meta)
  = joined_errors (flat_map (unit_error what) tagged).
Proof.
  unfold rows_response, merge_rows. cbn [error].
  now rewrite merge_fold_errors.
Qed.

Lemma rows_response_error_none (col : string) (what : scalar -> string)
    (tags : list scalar) (results : list (outcome UnitResult))
    (meta : metadata_dict) :
  List.length tags = List.length results ->
  error (rows_response (merge_rows col what (combine tags results)) meta) = None
  <-> Forall succeeded results.
Proof.
  intros Hlen. rewrite rows_response_error, joined_errors_none, flat_map_nil.
  split.
  - intros H. apply (Forall_combine_snd_inv _ tags results Hlen).
    eapply Forall_impl; [|exact H]. intros tr. apply unit_error_nil.
  - intros H. apply (Forall_combine_snd _ tags) in H.
    eapply Forall_impl; [|exact H]. intros tr. apply unit_error_nil.
Qed.

Lemma str_app_nil_r (s : string) : s ++ "" = s.
Proof. induction s as [|c r IH]; simpl; [reflexivity | now rewrite IH]. Qed.

Lemma str_app_assoc (a b c : string) : (a ++ b) ++ c = a ++ (b ++ c).
Proof. induction a as [|x r IH]; simpl; [reflexivity | now rewrite IH]. Qed.

(** Each text of a joined list can be found in the joined text. *)
Lemma join_contains (sep x : string) (l : list string) :
  In x l -> PyStr.contains x (PyStr.join sep l) = true.
Proof.
  intros Hin. apply contains_app.
  induction l as [|y r IH]; [destruct Hin|].
  destruct Hin as [->|Hin].
  - destruct r as [|z r'].
    + exists "", "". simpl. now rewrite str_app_nil_r.
    + exists "", (sep ++ PyStr.join sep (z :: r')). reflexivity.
  - destruct (IH Hin) as (pre & post & E).
    destruct r as [|z r']; [destruct Hin|].
    exists (y ++ sep ++ pre), post.
    change (PyStr.join sep (y :: z :: r'))
      with (y ++ sep ++ PyStr.join sep (z :: r')).
    rewrite E. now rewrite !str_app_assoc.
Qed.

(** The accumulator holds the grouping column as soon as it is not
    empty. *)
Lemma merge_fold_column (col : string) (what : scalar -> string)
    (tagged : list (scalar * outcome UnitResult)) :
  forall st,
    (DF.empty (m_merged st) = false ->
     DF.has_column col (m_merged st) = true) ->
    DF.empty (m_merged (fold_left (merge_step col what) tagged st)) = false ->
    DF.has_column col (m_merged (fold_left (merge_step col what) tagged st))
    = true.
Proof.
  induction tagged as [|[tag res] rest IH]; intros st Hst; [exact Hst|].
  cbn [fold_left]. apply IH.
  unfold merge_step. destruct res as [u|ex]; [|exact Hst].
  destruct (u_success u); simpl; [|exact Hst].
  destruct (u_data u) as [df|]; [|exact Hst].
  destruct (DF.empty df); simpl; [exact Hst|].
  assert (DF.has_column col (DF.set_column col tag df) = true) as Hset.
  { unfold DF.set_column, DF.has_column. cbn [columns].
    destruct (existsb (String.eqb col) (columns df)) eqn:E; [exact E|].
    rewrite existsb_app. cbn. now rewrite String.eqb_refl, orb_true_r. }
  destruct (DF.empty (m_merged st)) eqn:Em; cbn [m_merged]; intros _.
  - exact Hset.
  - unfold DF.concat, DF.has_column. cbn [columns]. rewrite existsb_app.
    specialize (Hst eq_refl). unfold DF.has_column in Hst. now rewrite Hst.
Qed.

Lemma keyed_fold_lookup (k : string)
    (tagged : list (string * outcome UnitResult)) :
  forall st,
    NoDup (map fst tagged) ->
    dict_get k (k_merged (fold_left keyed_step tagged st))
    = match dict_get k tagged with
      | Some res =>
          match unit_dataset res with
          | Some df => Some df
          | None => dict_get k (k_merged st)
          end
      | None => dict_get k (k_merged st)
      end.
Proof.
  induction tagged as [|[metric res] rest IH]; intros st Hn; [reflexivity|].
  cbn [map fst] in Hn. inversion Hn as [|? ? Hfresh Hrest]; subst.
  cbn [fold_left dict_get]. rewrite (IH _ Hrest).
  destruct (String.eqb_spec metric k) as [->|N].
  - rewrite (dict_get_fresh k rest Hfresh).
    unfold keyed_step, unit_dataset. destruct res as [u|ex]; [|reflexivity].
    destruct (u_success u); cbn [negb]; [|reflexivity].
    destruct (u_data u) as [df|]; [|reflexivity].
    cbn [k_merged]. apply dict_get_set_same.
  - assert (dict_get k (k_merged (keyed_step st (metric, res)))
            = dict_get k (k_merged st)) as E.
    { unfold keyed_step. destruct res as [u|ex]; [|reflexivity].
      destruct (u_success u); cbn [negb]; [|reflexivity].
      destruct (u_data u) as [df|]; [|reflexivity].
      cbn [k_merged]. apply dict_get_set_other. congruence. }
    now rewrite E.
Qed.

End MergeMore.

Section MergeMoreKeyed.

Lemma keyed_step_errors_nil (st : keyed_state)
    (tr : string * outcome UnitResult) :
  k_errors (keyed_step st tr) = []
  <-> k_errors st = [] /\ succeeded (snd tr).
Proof.
  destruct tr as [metric [u|ex]]; unfold keyed_step, succeeded; simpl.
  - destruct (u_success u) eqn:S; simpl.
    + assert (k_errors (match u_data u with
                        | Some df => mkKeyed (k_success st)
                                       (dict_set metric df (k_merged st))
                                       (k_errors st)
                        | None => st
                        end) = k_errors st) as -> by now destruct (u_data u).
      split; [eauto | tauto].
    + split.
      * intros H. apply app_eq_nil in H. destruct H as [_ H]. discriminate.
      * intros (_ & u' & [= <-] & S'). congruence.
  - split.
    + intros H. apply app_eq_nil in H. destruct H as [_ H]. discriminate.
    + intros (_ & u' & E & _). discriminate.
Qed.

Lemma keyed_fold_errors_nil (tagged : list (string * outcome UnitResult)) :
  forall st,
    k_errors (fold_left keyed_step tagged st) = []
    <-> k_errors st = [] /\ Forall (fun tr => succeeded (snd tr)) tagged.
Proof.
  induction tagged as [|tr rest IH]; intros st; simpl.
  - intuition.
  - rewrite IH, keyed_step_errors_nil. split.
    + intros [[? ?] ?]. split; [assumption | now constructor].
    + intros [? H]. inversion H; subst. tauto.
Qed.

Lemma nth_error_combine_in {X Y} (l1 : list X) (l2 : list Y) (i : nat)
    (a : X) (b : Y) :
  nth_error l1 i = Some a -> nth_error l2 i = Some b ->
  In (a, b) (combine l1 l2).
Proof.
  revert l2 i. induction l1 as [|x r IH]; intros [|y l2] [|i] H1 H2;
    simpl in *; try discriminate.
  - injection H1 as <-. injection H2 as <-. now left.
  - right. now apply (IH l2 i).
Qed.

End MergeMoreKeyed.

(** X23: a merged response has no error text exactly when every unit
    succeeded, under each of the three compound strategies; any raise
    or reported failure of a unit leaves a text. *)
Theorem X23_error_none_iff_all_succeeded (now : string) :
  (forall split_reqs results,
      List.length split_reqs = List.length results ->
      (error (merge_historical now split_reqs results) = None
       <-> Forall succeeded results))
  /\ (forall entity_type entities results,
        List.length entities = List.length results ->
        (error (merge_parallel now entity_type entities results) = None
         <-> Forall succeeded results))
  /\ (forall split_reqs results,
        List.length split_reqs = List.length results ->
        (error (merge_career now split_reqs results) = None
         <-> Forall succeeded results)).
Proof.
  split; [|split].
  - intros units results Hlen. unfold merge_historical.
    apply rows_response_error_none. now rewrite length_map.
  - intros ty entities results Hlen. unfold merge_parallel.
    now apply rows_response_error_none.
  - intros units results Hlen. unfold merge_career. cbn [error].
    rewrite joined_errors_none. unfold merge_keyed.
    rewrite keyed_fold_errors_nil. cbn [k_errors]. split.
    + intros [_ H].
      apply (Forall_combine_snd_inv _ (map metric_tag units) results);
        [now rewrite length_map | exact H].
    + intros H. split; [reflexivity|]. now apply Forall_combine_snd.
Qed.

(** X24: the error text of a historical response names every year
    that failed: for a unit whose dispatch returned a failure it holds
    "Failed to process year <y>: <the unit's error>", and for a unit
    whose task raised it holds "Error processing year <y>: <the
    exception's text>". *)
Theorem X24_failed_year_named (now : string) (split_reqs : list SplitUnit)
    (results : list (outcome UnitResult)) (i : nat) (unit : SplitUnit)
    (res : outcome UnitResult) (y : Z) (line : string) :
  nth_error split_reqs i = Some unit ->
  nth_error results i = Some res ->
  year_tag unit = SInt y ->
  (exists u msg,
      res = Ret u /\ u_success u = false /\ u_error u = Some msg
      /\ line = "Failed to process year " ++ PyStr.of_Z y ++ ": " ++ msg)
  \/ (exists ex,
        res = Raise ex
        /\ line = "Error processing year " ++ PyStr.of_Z y ++ ": "
                  ++ exn_msg ex) ->
  exists text,
    error (merge_historical now split_reqs results) = Some text
    /\ PyStr.contains line text = true.
Proof.
  intros Hu Hr Hy Hline. unfold merge_historical.
  rewrite rows_response_error.
  assert (In line (flat_map (unit_error year_what)
                     (combine (map year_tag split_reqs) results))) as Hin.
  { apply in_flat_map. exists (SInt y, res). split.
    - apply (nth_error_combine_in _ _ i); [|exact Hr].
      rewrite nth_error_map, Hu. simpl. now rewrite Hy.
    - unfold unit_error, year_what. cbn [fst snd PyVal.scalar_str PyVal.scalar_repr].
      destruct Hline as [(u & msg & -> & Hs & He & ->) | (ex & -> & ->)].
      + rewrite Hs. unfold error_text. rewrite He. left.
        now rewrite !str_app_assoc.
      + left. now rewrite !str_app_assoc. }
  destruct (flat_map (unit_error year_what)
              (combine (map year_tag split_reqs) results)) as [|l0 ls] eqn:E;
    [destruct Hin|].
  eexists. split; [reflexivity|]. now apply join_contains.
Qed.

Lemma X24_failed_year_named_witness :
  exists text,
    error (merge_historical "2026-03-01T09:30:00"
             [year_unit "RESULTS.race" [] 2020; year_unit "RESULTS.race" [] 2021]
             [Ret (mkUnit true (Some sample_frame) None []);
              Ret (failure "rate limited" [])])
    = Some text
    /\ PyStr.contains "Failed to process year 2021: rate limited" text = true.
Proof.
  refine (X24_failed_year_named "2026-03-01T09:30:00"
            [year_unit "RESULTS.race" [] 2020; year_unit "RESULTS.race" [] 2021]
            [Ret (mkUnit true (Some sample_frame) None []);
             Ret (failure "rate limited" [])]
            1 (year_unit "RESULTS.race" [] 2021)
            (Ret (failure "rate limited" [])) 2021
            "Failed to process year 2021: rate limited" _ _ _ _).
  - reflexivity.
  - reflexivity.
  - reflexivity.
  - left. exists (failure "rate limited" []), "rate limited".
    repeat split.
Defined.

(** X25: partial results are kept. When some unit of a
    row-concatenation merge failed while another brought rows, the
    response has success false and an error text, and its data still
    holds the rows of the units that succeeded. *)
Theorem X25_partial_failure_keeps_rows (col : string) (what : scalar -> string)
    (tags : list scalar) (results : list (outcome UnitResult))
    (meta : metadata_dict) :
  List.length tags = List.length results ->
  Exists (fun res => ~ succeeded res) results ->
  Exists (fun res => unit_frame res <> None) results ->
  let resp := rows_response (merge_rows col what (combine tags results)) meta in
  success resp = false
  /\ error resp <> None
  /\ nonempty_results resp
  /\ response_rows resp = flat_map (contribution col) (combine tags results).
Proof.
  intros Hlen Hfail Hrows resp.
  destruct (merge_rows_spec col what (combine tags results))
    as (Hacc & Hr & Hs).
  assert (~ Forall succeeded results) as Hnot.
  { intros Hall. apply Exists_exists in Hfail.
    destruct Hfail as (res & Hin & Hn). rewrite Forall_forall in Hall.
    now apply Hn, Hall. }
  assert (rows (m_merged (merge_rows col what (combine tags results))) <> [])
    as Hne.
  { rewrite Hr. clear Hr Hs Hacc Hfail Hnot resp.
    revert tags Hlen. induction Hrows as [res rest Hres | res rest _ IH];
      intros [|tag tags] Hlen; simpl in Hlen; try discriminate.
    - cbn [combine flat_map]. unfold contribution at 1. cbn [fst snd].
      destruct (unit_frame res) as [df|] eqn:E; [|contradiction].
      assert (DF.empty df = false) as Hdf.
      { unfold unit_frame in E. destruct res as [u|ex]; [|discriminate].
        destruct (u_success u); [|discriminate].
        destruct (u_data u) as [df'|]; [|discriminate].
        destruct (DF.empty df') eqn:Ed; [discriminate|].
        now injection E as <-. }
      apply empty_false in Hdf. destruct Hdf as [_ Hrws].
      destruct (rows df); [contradiction | discriminate].
    - cbn [combine flat_map]. intros H. apply app_eq_nil in H.
      destruct H as [_ H]. apply (IH tags); [lia | exact H]. }
  assert (DF.empty (m_merged (merge_rows col what (combine tags results)))
          = false) as Hnonempty.
  { destruct (DF.empty (m_merged (merge_rows col what (combine tags results))))
      eqn:E; [|reflexivity]. now apply Hacc in E. }
  split; [|split; [|split]].
  - unfold resp, rows_response. cbn [success].
    destruct (m_success (merge_rows col what (combine tags results))) eqn:E;
      [|reflexivity].
    exfalso. apply Hnot.
    apply (Forall_combine_snd_inv _ tags results Hlen). now apply Hs.
  - unfold resp. intros H. apply Hnot.
    now apply (rows_response_error_none col what tags results meta Hlen).
  - unfold resp, nonempty_results, rows_response. cbn [data].
    rewrite Hnonempty. cbn [negb]. eauto.
  - unfold resp. now rewrite response_rows_merge, Hr.
Qed.

Lemma X25_partial_failure_keeps_rows_witness :
  let resp :=
    rows_response
      (merge_rows "year" year_what
         (combine [SInt 2020; SInt 2021]
                  [Ret (mkUnit true (Some sample_frame) None []);
                   Ret (failure "rate limited" [])]))
      [] in
  success resp = false
  /\ error resp <> None
  /\ nonempty_results resp
  /\ response_rows resp
     = flat_map (contribution "year")
         (combine [SInt 2020; SInt 2021]
                  [Ret (mkUnit true (Some sample_frame) None []);
                   Ret (failure "rate limited" [])]).
Proof.
  refine (X25_partial_failure_keeps_rows "year" year_what
            [SInt 2020; SInt 2021]
            [Ret (mkUnit true (Some sample_frame) None []);
             Ret (failure "rate limited" [])] [] _ _ _).
  - reflexivity.
  - apply Exists_cons_tl. apply Exists_cons_hd.
    intros (u & [= <-] & S). discriminate.
  - apply Exists_cons_hd. discriminate.
Defined.

(** X26: whenever a row-concatenation response carries data, the
    dataset has the grouping column ([year] for the historical merge,
    the entity kind for the multi-entity merge) among its columns. *)
Theorem X26_group_column_present (now : string) :
  (forall split_reqs results df,
      data (merge_historical now split_reqs results) = Some (Results df) ->
      DF.has_column "year" df = true)
  /\ (forall entity_type entities results df,
        data (merge_parallel now entity_type entities results)
        = Some (Results df) ->
        DF.has_column entity_type df = true).
Proof.
  assert (forall col what tagged meta df,
             data (rows_response (merge_rows col what tagged) meta)
             = Some (Results df) ->
             DF.has_column col df = true) as H.
  { intros col what tagged meta df. unfold rows_response. cbn [data].
    destruct (DF.empty (m_merged (merge_rows col what tagged))) eqn:E;
      cbn [negb]; [discriminate|].
    intros [= <-]. unfold merge_rows in *.
    apply merge_fold_column; [|exact E]. cbn. discriminate. }
  split; intros; eapply H; eassumption.
Qed.

(** X27: in a career response each metric key holds the dataset of
    its own unit when that unit returned with success, whatever became
    of the other three, and is absent when the unit failed or
    raised. *)
Theorem X27_career_metric_lookup (now : string) (r : Requirements)
    (results : list (outcome UnitResult)) (i : nat) (metric : string) :
  List.length results = 4%nat ->
  nth_error (map snd metrics) i = Some metric ->
  metric_dataset metric (merge_career now (split_career r) results)
  = match nth_error results i with
    | Some res => unit_dataset res
    | None => None
    end.
Proof.
  intros Hlen Hi.
  destruct results as [|r0 [|r1 [|r2 [|r3 [|]]]]]; try discriminate.
  assert (metric_dataset metric
            (merge_career now (split_career r) [r0; r1; r2; r3])
          = dict_get metric
              (k_merged (merge_keyed
                 (combine (map metric_tag (split_career r))
                          [r0; r1; r2; r3])))) as ->.
  { unfold metric_dataset, merge_career. cbn [data].
    now destruct (k_merged _). }
  unfold merge_keyed. rewrite keyed_fold_lookup.
  - cbn [k_merged dict_get].
    destruct i as [|[|[|[|i]]]]; cbn in Hi;
      [| | | |destruct i; discriminate];
      injection Hi as <-; cbn; now destruct (unit_dataset _).
  - cbn. repeat constructor; cbn; intuition discriminate.
Qed.

Lemma X27_career_metric_lookup_witness :
  metric_dataset "race_results"
    (merge_career "2026-03-01T09:30:00" (split_career race_2021)
       [Raise (Exn "KeyError" "'round'");
        Ret (mkUnit true (Some sample_frame) None []);
        Ret (failure "rate limited" []);
        Ret (mkUnit true (Some DF.empty_frame) None [])])
  = match nth_error
            [Raise (Exn "KeyError" "'round'");
             Ret (mkUnit true (Some sample_frame) None []);
             Ret (failure "rate limited" []);
             Ret (mkUnit true (Some DF.empty_frame) None [])] 1 with
    | Some res => unit_dataset res
    | None => None
    end.
Proof.
  refine (X27_career_metric_lookup "2026-03-01T09:30:00" race_2021
            [Raise (Exn "KeyError" "'round'");
             Ret (mkUnit true (Some sample_frame) None []);
             Ret (failure "rate limited" []);
             Ret (mkUnit true (Some DF.empty_frame) None [])]
            1 "race_results" _ _); reflexivity.
Defined.

(* ================================================================== *)
(** * What a dispatch does to the outside world *)
(* ================================================================== *)

Section Lawful.

Lemma attempt_lawful (e : env) (ep : string) (args : dict) (a : nat) :
  (a < max_retries)%nat ->
  Forall (lawful e ep args) (trace (attempt e ep args a)).
Proof.
  intros Ha.
  assert (lawful e ep args (EvBuild a ep args)) as Hbuild
    by (cbn; auto).
  assert ((a <? max_retries - 1)%nat = true ->
          lawful e ep args (EvSleep (backoff a))) as Hsleep.
  { intros H. apply Nat.ltb_lt in H. cbn. eauto. }
  unfold attempt, attempt_body, attempt_handler, try_except, bind, call,
    sleep, ret, trace.
  destruct (build_endpoint e a ep args) as [[full|]|ex] eqn:Eb.
  - destruct (PyStr.is_empty full) eqn:Efull; cbn [fst app].
    + repeat (apply Forall_cons; [assumption|]). apply Forall_nil.
    + assert (lawful e ep args (EvFetch a full args)) as Hfetch.
      { cbn. repeat split; auto. intros ->. discriminate. }
      destruct (fetch_f1_data e a full args) as [[ty|ok frame err]|ex].
      * repeat (apply Forall_cons; [assumption|]). apply Forall_nil.
      * destruct ok, frame as [df|];
          try (destruct (a <? max_retries - 1)%nat eqn:El; cbn [fst app];
               repeat (apply Forall_cons; [auto|]); apply Forall_nil).
      * destruct (a <? max_retries - 1)%nat eqn:El; cbn [fst app];
          repeat (apply Forall_cons; [auto|]); apply Forall_nil.
  - cbn [fst app]. repeat (apply Forall_cons; [assumption|]). apply Forall_nil.
  - destruct (a <? max_retries - 1)%nat eqn:El; cbn [fst app];
      repeat (apply Forall_cons; [auto|]); apply Forall_nil.
Qed.

Lemma retry_loop_lawful (e : env) (ep : string) (args : dict) :
  forall n a, (a + n = max_retries)%nat ->
    Forall (lawful e ep args) (trace (retry_loop e ep args (seq a n))).
Proof.
  induction n as [|n IH]; intros a Ha; [constructor|].
  cbn [seq]. rewrite retry_loop_unfold, trace_bind.
  apply Forall_app. split.
  - apply attempt_lawful. lia.
  - destruct (result (attempt e ep args a)) as [[u|]|ex];
      [constructor | | constructor].
    apply IH. lia.
Qed.

End Lawful.

(** X28: every response of [process] carries a timestamp in its
    metadata: the pipeline's clock reading for a merged or a catch-all
    response, the dispatcher's for a single request. *)
Theorem X28_response_timestamped (w : world) (r : Requirements) :
  exists resp,
    result (process w r) = Ret resp
    /\ (dict_get "timestamp" (metadata resp) = Some (MStr (timestamp w))
        \/ (classify r = Single
            /\ dict_get "timestamp" (metadata resp)
               = Some (MStr (now_iso (unit_env w 0))))).
Proof.
  eexists. split; [apply process_result|].
  destruct (classify r).
  - left. now destruct (split_historical (current_year w) r).
  - left. reflexivity.
  - left. now destruct (select_entities (params r)) as [[[|x xs] [ty|]] base].
  - destruct (result (_process_single (unit_env w 0) (Some r))) as [u|ex] eqn:E.
    + right. split; [reflexivity|].
      unfold _process_single in E.
      destruct (PyStr.is_empty (endpoint r)
                || match _normalize_params (params r) with
                   | [] => true
                   | _ => false
                   end).
      * injection E as <-. reflexivity.
      * now destruct (retry_loop_stamped _ _ _ 2 0 u eq_refl E).
    + left. reflexivity.
Qed.

(** X29: a dispatch touches the outside world only in three ways: it
    builds the request's own endpoint with the normalized parameters,
    it fetches an endpoint that the builder returned for that very
    attempt (never an empty one) with the same normalized parameters,
    and it sleeps a backoff of the first or the second attempt. *)
Theorem X29_dispatch_events (e : env) (r : Requirements) (ev : event) :
  In ev (trace (_process_single e (Some r))) ->
  lawful e (endpoint r) (_normalize_params (params r)) ev.
Proof.
  unfold _process_single.
  destruct (PyStr.is_empty (endpoint r)
            || match _normalize_params (params r) with
               | [] => true
               | _ => false
               end); [intros []|].
  intros Hin.
  pose proof (retry_loop_lawful e (endpoint r) (_normalize_params (params r))
                max_retries 0 eq_refl) as H.
  rewrite Forall_forall in H. now apply H.
Qed.

Lemma X29_dispatch_events_witness :
  lawful flaky_env (endpoint race_2021) (_normalize_params (params race_2021))
    (EvFetch 1 "https://api.example/f1/2021/results" [("year", VStr "2021")]).
Proof.
  refine (X29_dispatch_events flaky_env race_2021
            (EvFetch 1 "https://api.example/f1/2021/results"
               [("year", VStr "2021")]) _).
  vm_compute. right. right. right. right. left. reflexivity.
Defined.

(** An argument that is falsy or has no [endpoint] is dispatched as
    an invalid one, and an object with both attributes as the record
    of their values. *)
Lemma process_single_object_shapes (e : env) (cls endpoint_id : string)
    (p : dict) (other : option (option dict)) :
  _process_single_object e PyFalsy = _process_single e None
  /\ _process_single_object e (PyObject cls None other)
     = _process_single e None
  /\ _process_single_object e (PyObject cls (Some endpoint_id) (Some (Some p)))
     = _process_single e (Some (mkReq endpoint_id p))
  /\ _process_single_object e (PyObject cls (Some endpoint_id) (Some None))
     = _process_single e (Some (mkReq endpoint_id [])).
Proof.
  repeat split; unfold _process_single_object, lift, getattr, bind;
    cbn [fst snd]; now destruct (_process_single e _).
Qed.

(** X30: for an argument that is invalid or a record with endpoint
    and parameters, and whatever the collaborators do on each attempt,
    the dispatch returns a value, and which value is decided by the
    cause: "Invalid requirements format" for an invalid argument;
    "Missing required parameters" when the endpoint is empty or no
    parameter survives normalization; otherwise the verdict of the
    first attempt that is not retried, which is a success carrying the
    fetched frame exactly when that fetch served one, and else a
    failure value [{success: False, data: None, error: ...}] whose
    error names the cause: the endpoint not built, the response not a
    mapping, and on the third attempt no data or the exception
    raised. *)
Theorem X30_dispatch_outcome_by_cause (e : env)
    (requirements : option Requirements) :
  exists u,
    result (_process_single e requirements) = Ret u
    /\ dispatched e requirements u.
Proof.
  destruct requirements as [r|];
    [|eexists; split; [reflexivity|]; apply d_invalid; repeat split].
  destruct (validation_cases r) as [[Hv Hwhy] | Hd].
  - eexists. split; [unfold _process_single; rewrite Hv; reflexivity|].
    apply d_missing; [exact Hwhy | repeat split].
  - rewrite (process_single_dispatchable e r Hd).
    set (ep := endpoint r). set (args := _normalize_params (params r)).
    destruct (attempt_outcome e ep args 0) as [[R0 _] | (t & u & Hat & Hv)];
      [unfold max_retries; lia | |].
    2:{ exists u. split.
        - apply (loop_decided e ep args 0 t u); [unfold max_retries; lia | | exact Hat].
          intros i Hi. lia.
        - apply (d_attempt e r 0 u Hd); [unfold max_retries; lia | | exact Hv].
          intros i Hi. lia. }
    destruct (attempt_outcome e ep args 1) as [[R1 _] | (t & u & Hat & Hv)];
      [unfold max_retries; lia | |].
    2:{ assert (Hret : forall i, (i < 1)%nat -> retried e ep args i).
        { intros i Hi. now replace i with 0%nat by lia. }
        exists u. split.
        - now apply (loop_decided e ep args 1 t u);
            [unfold max_retries; lia | |].
        - now apply (d_attempt e r 1 u Hd); [unfold max_retries; lia | |]. }
    destruct (attempt_outcome e ep args 2) as [[_ H2] | (t & u & Hat & Hv)];
      [unfold max_retries; lia | unfold max_retries in H2; lia |].
    assert (Hret : forall i, (i < 2)%nat -> retried e ep args i).
    { intros i Hi. assert (i = 0 \/ i = 1)%nat as [-> | ->] by lia; assumption. }
    exists u. split.
    + now apply (loop_decided e ep args 2 t u);
        [unfold max_retries; lia | |].
    + now apply (d_attempt e r 2 u Hd); [unfold max_retries; lia | |].
Qed.

(** A career request whose qualifying dispatch raises on every
    attempt: three metrics are served, the fourth is named in the
    error text. *)
Example career_partial_scenario :
  let r := mkReq "DRIVERS.specific"
             [("driver", VStr "Max Verstappen"); ("query", VStr "career stats")] in
  option_map success (response_of (process no_qualifying_world r)) = Some false
  /\ option_map (metric_dataset "qualifying_results")
       (response_of (process no_qualifying_world r)) = Some None
  /\ option_map (metric_dataset "race_results")
       (response_of (process no_qualifying_world r))
     = Some (Some sample_frame)
  /\ option_map error (response_of (process no_qualifying_world r))
     = Some (Some "Failed to process qualifying_results: Processing error: 'round'").
Proof. repeat split; reflexivity. Qed.

(** Two years, the second refused: the first year's rows are kept. *)
Example historical_partial_scenario :
  let r := mkReq "RESULTS.race" [("year", VList [SInt 2020; SInt 2021])] in
  option_map success (response_of (process second_refused_world r)) = Some false
  /\ option_map (fun resp => map (dict_get "year") (response_rows resp))
       (response_of (process second_refused_world r))
     = Some [Some (SInt 2020); Some (SInt 2020)]
  /\ option_map error (response_of (process second_refused_world r))
     = Some (Some "Failed to process year 2021: rate limited").
Proof. repeat split; reflexivity. Qed.
